(** * Fine-tuning orchestration of [src/finetuning.py]

    A shallow embedding of the three classes of the module
    ([ImageCaptionDataset], [CLIPFinetuner], [EarlyStopping]) and the
    properties of the unfreezing schedule, the data pipeline, the
    train/validate loops and the early-stopping policy.

    Python integers are [Z]; Python floats are the kernel's binary64
    [float], so comparisons behave as in the interpreter (a NaN compares
    false with everything); a Python [str] is held as its UTF-8 encoding;
    exceptions are the [Raise] results of a small error monad.  The pretrained network, its tensors and the optimizer are
    third-party code: they enter through the interface [Extern]. *)

From Stdlib Require Import ZArith NArith List String Ascii Floats Bool Lia.
From stdpp Require Import gmap strings list.

Local Open Scope Z_scope.

(** ** Exceptions *)

Inductive exn : Set :=
| ZeroDivisionError
| IndexError
| TypeError
| ValueError
| OverflowError
| FileNotFoundError
| AttributeError
| RuntimeError.

Inductive result (A : Type) : Type :=
| Ok (a : A)
| Raise (e : exn).

Arguments Ok {A} a.
Arguments Raise {A} e.

#[global] Instance result_ret : MRet result := fun A a => Ok a.
#[global] Instance result_bind : MBind result :=
  fun A B f m => match m with Ok a => f a | Raise e => Raise e end.

(** ** Fragments of the Python runtime used by the module *)

Module Py.

(** [l[i]] on a Python list: negative indices count from the end, anything
    outside [-len, len) raises [IndexError]. *)
Definition index (n i : Z) : result nat :=
  if (0 <=? i) && (i <? n) then Ok (Z.to_nat i)
  else if (- n <=? i) && (i <? 0) then Ok (Z.to_nat (i + n))
  else Raise IndexError.

Definition getitem {A} (l : list A) (i : Z) : result A :=
  k ← index (Z.of_nat (length l)) i;
  match l !! k with Some x => Ok x | None => Raise IndexError end.

(** [[f(x) for x in l]], stopping at the first exception. *)
Fixpoint map_result {X Y} (f : X -> result Y) (l : list X) : result (list Y) :=
  match l with
  | [] => Ok []
  | x :: l => y ← f x; ys ← map_result f l; Ok (y :: ys)
  end.

(** [for x in l: s = body(s, x)], stopping at the first exception. *)
Fixpoint for_each {S X} (body : S -> X -> result S) (s : S) (l : list X)
  : result S :=
  match l with
  | [] => Ok s
  | x :: l => s' ← body s x; for_each body s' l
  end.

(** [range(lo, hi)]. *)
Definition range (lo hi : Z) : list Z :=
  map (fun k => lo + Z.of_nat k) (seq 0 (Z.to_nat (hi - lo))).

(** [l[a:b]] with Python's clamping of the two bounds. *)
Definition clamp (n i : Z) : Z :=
  if i <? 0 then Z.max 0 (i + n) else Z.min i n.

Definition slice {A} (l : list A) (a b : Z) : list A :=
  let n := Z.of_nat (length l) in
  let a' := clamp n a in
  let b' := clamp n b in
  take (Z.to_nat (b' - a')) (drop (Z.to_nat a') l).

(** [os.path.join(a, b)] on a POSIX system. *)
Definition endswith_sep (a : string) : bool :=
  match String.length a with
  | O => false
  | S k => String.eqb (String.substring k 1 a) "/"
  end.

Definition os_path_join (a b : string) : string :=
  if String.prefix "/" b then b
  else if String.eqb a "" || endswith_sep a then a ++ b
  else a ++ "/" ++ b.

(** [a // b] and [a % b] on integers: floor division, the remainder takes
    the divisor's sign, a zero divisor raises. *)
Definition floordiv (a b : Z) : result Z :=
  if b =? 0 then Raise ZeroDivisionError else Ok (a / b).

Definition modulo (a b : Z) : result Z :=
  if b =? 0 then Raise ZeroDivisionError else Ok (a mod b).

(** [int(x)] on a float: truncation towards zero. *)
Definition int_of_float (x : float) : result Z :=
  match Prim2SF x with
  | S754_zero _ => Ok 0
  | S754_infinity _ => Raise OverflowError
  | S754_nan => Raise ValueError
  | S754_finite s m e =>
      let v := if 0 <=? e then Z.pos m * 2 ^ e else Z.pos m / 2 ^ (- e) in
      Ok (if s then - v else v)
  end.

(** [s.split(sep)] for a separator of one character. *)
Fixpoint split (sep : ascii) (s : string) : list string :=
  match s with
  | EmptyString => [EmptyString]
  | String c s' =>
      if Ascii.eqb c sep then EmptyString :: split sep s'
      else
        match split sep s' with
        | piece :: pieces => String c piece :: pieces
        | [] => [String c EmptyString]
        end
  end.

(** A [str] is a sequence of characters, held here as its UTF-8
    encoding.  A character below U+0080 is one byte, which is part of no
    longer character: splitting on a tab, comparing two texts and joining
    paths work on the bytes as they do on the characters.  [strip] alone
    has to know the characters.  A sequence of bytes that is not the
    encoding of a text stands for no [str]. *)

(** The characters that [str.isspace] accepts and [str.strip] removes, by
    code point (the table of CPython's [_PyUnicode_IsWhitespace]). *)
Definition whitespace : list N :=
  [0x09; 0x0A; 0x0B; 0x0C; 0x0D; 0x1C; 0x1D; 0x1E; 0x1F; 0x20; 0x85; 0xA0;
   0x1680; 0x2000; 0x2001; 0x2002; 0x2003; 0x2004; 0x2005; 0x2006; 0x2007;
   0x2008; 0x2009; 0x200A; 0x2028; 0x2029; 0x202F; 0x205F; 0x3000]%N.

(** The UTF-8 encoding of the character of code point [cp]. *)
Definition utf8 (cp : N) : string :=
  let byte n := String (ascii_of_N n) in
  (if cp <? 0x80 then byte cp EmptyString
   else if cp <? 0x800 then
     byte (0xC0 + cp / 64) (byte (0x80 + cp mod 64) EmptyString)
   else if cp <? 0x10000 then
     byte (0xE0 + cp / 4096)
       (byte (0x80 + (cp / 64) mod 64) (byte (0x80 + cp mod 64) EmptyString))
   else
     byte (0xF0 + cp / 262144)
       (byte (0x80 + (cp / 4096) mod 64)
          (byte (0x80 + (cp / 64) mod 64) (byte (0x80 + cp mod 64) EmptyString))))%N.

(** The white-space characters, encoded: one to three bytes each. *)
Definition spaces : list string := Eval vm_compute in map utf8 whitespace.

Definition member (c : string) (cs : list string) : bool :=
  existsb (String.eqb c) cs.

(** [c.isspace()] for one character [c]. *)
Definition isspace (c : string) : bool := member c spaces.

(** [s] without the characters of [cs] it starts with; a character of [cs]
    has at most three bytes. *)
Fixpoint strip_start (cs : list string) (s : string) : string :=
  match s with
  | EmptyString => s
  | String a s1 =>
      if member (String a EmptyString) cs then strip_start cs s1
      else
        match s1 with
        | EmptyString => s
        | String b s2 =>
            if member (String a (String b EmptyString)) cs then strip_start cs s2
            else
              match s2 with
              | EmptyString => s
              | String c s3 =>
                  if member (String a (String b (String c EmptyString))) cs
                  then strip_start cs s3
                  else s
              end
        end
  end.

(** [s.lstrip()], [s.rstrip()] (the text is read from its end, and so is
    each character) and [s.strip()]. *)
Definition lstrip (s : string) : string := strip_start spaces s.

Definition rstrip (s : string) : string :=
  String.rev (strip_start (map String.rev spaces) (String.rev s)).

Definition strip (s : string) : string := rstrip (lstrip s).

Definition tab : ascii := ascii_of_nat 9.

(** A permutation of [l] drawn by a random source, given as the list of
    its draws: each draw picks one of the elements still left. *)
Fixpoint shuffled {A} (draws : list nat) (l : list A) (fuel : nat) : list A :=
  match fuel with
  | O => []
  | S fuel =>
      match l with
      | [] => []
      | x :: _ =>
          let k := (hd O draws mod length l)%nat in
          match l !! k with
          | Some y => y :: shuffled (tl draws) (take k l ++ drop (S k) l) fuel
          | None => x :: shuffled (tl draws) (drop 1 l) fuel
          end
      end
  end.

(** [torch.randperm(n)]. *)
Definition randperm (draws : list nat) (n : Z) : list Z :=
  shuffled draws (range 0 n) (Z.to_nat n).

(** [float(n)] for the integers met here (exact below 2^53). *)
Definition float_of_Z (n : Z) : float :=
  if n <? 0 then PrimFloat.opp (PrimFloat.of_uint63 (Uint63.of_Z (- n)))
  else PrimFloat.of_uint63 (Uint63.of_Z n).

(** [x / n] with a float [x] and an integer [n]. *)
Definition truediv (x : float) (n : Z) : result float :=
  if n =? 0 then Raise ZeroDivisionError
  else Ok (PrimFloat.div x (float_of_Z n)).

End Py.

(** ** EarlyStopping *)

(** What the process writes to disk. *)
Inductive event (W : Type) : Type :=
| TorchSave (state_dict : W) (path : string).

Arguments TorchSave {W} state_dict path.

Module EarlyStopping.

(** The object's fields.  [_model] is a reference to the network that the
    trainer keeps mutating, so it is not copied here: the methods that read
    it take its current value as the argument [model]. *)
Record t : Type := mk {
  _patience : Z;
  _best_score : option float;
  _counter : Z;
  _mode : string;
  _stop : bool;
  _dir_path : string;
  _train_loss : list float;
  _val_loss : list float;
  _val_scores : list float
}.

Definition __init__ (patience : Z) (dir_path mode : string) : t :=
  {| _patience := patience;
     _best_score := None;
     _counter := 0;
     _mode := mode;
     _stop := false;
     _dir_path := dir_path;
     _train_loss := [];
     _val_loss := [];
     _val_scores := [] |}.

Definition append_lists (self : t) (train_loss val_loss val_score : float) : t :=
  mk (_patience self) (_best_score self) (_counter self) (_mode self)
     (_stop self) (_dir_path self)
     (_train_loss self ++ [train_loss]) (_val_loss self ++ [val_loss])
     (_val_scores self ++ [val_score]).

Definition set_best_score (self : t) (v : option float) : t :=
  mk (_patience self) v (_counter self) (_mode self) (_stop self)
     (_dir_path self) (_train_loss self) (_val_loss self) (_val_scores self).

Definition set_counter (self : t) (v : Z) : t :=
  mk (_patience self) (_best_score self) v (_mode self) (_stop self)
     (_dir_path self) (_train_loss self) (_val_loss self) (_val_scores self).

Definition set_stop (self : t) (v : bool) : t :=
  mk (_patience self) (_best_score self) (_counter self) (_mode self) v
     (_dir_path self) (_train_loss self) (_val_loss self) (_val_scores self).

(** [score > self._best_score] or [score < self._best_score]; ordering a
    float against [None] raises [TypeError]. *)
Definition _is_improvement (self : t) (score : float) : result bool :=
  match _best_score self with
  | None => Raise TypeError
  | Some best =>
      if String.eqb (_mode self) "max" then Ok (PrimFloat.ltb best score)
      else Ok (PrimFloat.ltb score best)
  end.

(** [torch.save(self._model.state_dict(), checkpoint_path)]: the call is
    recorded; what the operating system does with it is not modelled. *)
Definition _save_checkpoint {W} (model : W) (self : t) (name : string)
  : list (event W) :=
  let checkpoint_path := Py.os_path_join (_dir_path self) name in
  [TorchSave model checkpoint_path].

(** Returns the updated object, the disk writes of this call and the
    returned flag. *)
Definition __call__ {W} (model : W) (self : t)
    (train_loss val_loss val_score : float)
  : result (t * list (event W) * bool) :=
  let self := append_lists self train_loss val_loss val_score in
  let score := val_score in
  '(self, out) ←
    match _best_score self with
    | None => Ok (set_best_score self (Some score), [])
    | Some _ =>
        improved ← _is_improvement self score;
        if improved : bool then
          let out := _save_checkpoint model self "checkpoint.pt" in
          let self := set_best_score self (Some score) in
          let self := set_counter self 0 in
          Ok (self, out)
        else
          let self := set_counter self (_counter self + 1) in
          let self :=
            if _counter self >=? _patience self then set_stop self true
            else self in
          Ok (self, [])
    end;
  Ok (self, out, _stop self).

(** What [pickle.dump] is given by [_save_lists]: the pair of the two
    loss histories, or the history of the scores. *)
Inductive pickled : Type :=
| PLosses (train_losses val_losses : list float)
| PScores (val_scores : list float).

(** A [pickle.dump(obj, f)] on the file opened at [path] for writing. *)
Inductive dump : Type :=
| PickleDump (obj : pickled) (path : string).

(** The two calls are recorded; what the operating system does with them
    is not modelled. *)
Definition _save_lists (self : t) : list dump :=
  let loss_path := Py.os_path_join (_dir_path self) "loss.pkl" in
  let score_path := Py.os_path_join (_dir_path self) "score.pkl" in
  [PickleDump (PLosses (_train_loss self) (_val_loss self)) loss_path;
   PickleDump (PScores (_val_scores self)) score_path].

(** One reported epoch: the network as it is at the call and the three
    numbers passed to [__call__]. *)
Record report (W : Type) : Type := mk_report {
  model_now : W;
  train_loss : float;
  val_loss : float;
  val_score : float
}.

Arguments mk_report {W}.
Arguments model_now {W}.
Arguments train_loss {W}.
Arguments val_loss {W}.
Arguments val_score {W}.

(** A sequence of calls on one object: the object after each call, what was
    written, and what each call returned. *)
Fixpoint calls {W} (self : t) (rs : list (report W))
  : result (list (t * list (event W) * bool)) :=
  match rs with
  | [] => Ok []
  | r :: rs =>
      '(self', out, stop) ←
        __call__ (model_now r) self (train_loss r) (val_loss r) (val_score r);
      rest ← calls self' rs;
      Ok ((self', out, stop) :: rest)
  end.

End EarlyStopping.

(** ** The network's trainable/frozen flags

    Of the pretrained network the module mutates one thing itself: the
    [requires_grad] flag of each parameter.  The parameters are grouped as
    the code reaches them: [model.visual.proj], [model.text_projection],
    the parameters of each block of [model.visual.transformer.resblocks]
    and of [model.transformer.resblocks], and all the others (embeddings,
    layer norms outside the blocks, [logit_scale], ...). *)

Module CLIP.

Record flags : Type := mk_flags {
  visual_proj : bool;
  text_projection : bool;
  visual_resblocks : list (list bool);
  resblocks : list (list bool);
  others : list bool
}.

(** A parameter of the network, by the place the code reaches it from. *)
Inductive param : Set :=
| VisualProj
| TextProjection
| VisualBlock (i j : nat)
| TextBlock (i j : nat)
| Other (j : nat).

(** [p.requires_grad], or [None] when the network has no such parameter. *)
Definition requires_grad (m : flags) (p : param) : option bool :=
  match p with
  | VisualProj => Some (visual_proj m)
  | TextProjection => Some (text_projection m)
  | VisualBlock i j => blk ← visual_resblocks m !! i; blk !! j
  | TextBlock i j => blk ← resblocks m !! i; blk !! j
  | Other j => others m !! j
  end.

Definition set_visual_proj (m : flags) (v : bool) : flags :=
  mk_flags v (text_projection m) (visual_resblocks m) (resblocks m) (others m).

Definition set_text_projection (m : flags) (v : bool) : flags :=
  mk_flags (visual_proj m) v (visual_resblocks m) (resblocks m) (others m).

Definition set_visual_resblocks (m : flags) (v : list (list bool)) : flags :=
  mk_flags (visual_proj m) (text_projection m) v (resblocks m) (others m).

Definition set_resblocks (m : flags) (v : list (list bool)) : flags :=
  mk_flags (visual_proj m) (text_projection m) (visual_resblocks m) v (others m).

(** [for p in blocks[i].parameters(): p.requires_grad_()]; indexing the
    [nn.Sequential] out of range raises [IndexError]. *)
Definition unfreeze_block (blocks : list (list bool)) (i : Z)
  : result (list (list bool)) :=
  k ← Py.index (Z.of_nat (length blocks)) i;
  match blocks !! k with
  | Some blk => Ok (<[k := map (fun _ => true) blk]> blocks)
  | None => Raise IndexError
  end.

(** [p.requires_grad_(False)] for every parameter. *)
Definition freeze_all (m : flags) : flags :=
  mk_flags false false
    (map (map (fun _ => false)) (visual_resblocks m))
    (map (map (fun _ => false)) (resblocks m))
    (map (fun _ => false) (others m)).

(** Some parameter is trainable. *)
Definition any_trainable (m : flags) : bool :=
  visual_proj m || text_projection m
  || existsb (existsb id) (visual_resblocks m)
  || existsb (existsb id) (resblocks m)
  || existsb id (others m).

(** The blocks of a tower with at least one trainable parameter. *)
Definition unfrozen_blocks (blocks : list (list bool)) : Z :=
  Z.of_nat (length (filter (fun blk => existsb id blk = true) blocks)).

End CLIP.

(** ** Third-party code

    PIL, the [preprocessing] module (the two augmenters), [clip] and
    [torch] are not part of the module: their values are abstract types and
    their functions are the fields of this interface. *)

Class Extern : Type := {
  (** The file system: [open(path).readlines()] and PIL's
      [Image.open(path)]; [None] when the file cannot be opened. *)
  open_readlines : string -> option (list string);
  image : Type;
  Image_open : string -> option image;
  convert_RGB : image -> image;
  (** [preprocessing.ImageAugmenter()(image)], [TextAugmenter()(text)]. *)
  image_augmenter : image -> image;
  text_augmenter : string -> string;
  (** Tensors, parameter values, [.grad] buffers, optimizer state. *)
  tensor : Type;
  state_dict : Type;
  grads : Type;
  optim_state : Type;
  (** [DataLoader]'s default collation of a list of samples. *)
  default_collate : list (image * string) -> tensor * list string;
  (** [clip.load(model_name, device=device, jit=False)]: the flags and the
      values of the parameters of the network it builds; [module.float()]. *)
  clip_load : string -> result (CLIP.flags * state_dict);
  to_float : state_dict -> state_dict;
  (** [images.to(device)], [clip.tokenize(texts)], [len(images)]. *)
  to_device : tensor -> tensor;
  clip_tokenize : list string -> tensor;
  tensor_len : tensor -> Z;
  (** [torch.tensor(l, dtype=torch.long)]. *)
  long_tensor : list Z -> tensor;
  (** [model(images, texts)], [model.encode_image], [model.encode_text];
      the boolean is [model.training]. *)
  model_call : state_dict -> bool -> tensor -> tensor -> tensor * tensor;
  encode_image : state_dict -> bool -> tensor -> tensor;
  encode_text : state_dict -> bool -> tensor -> tensor;
  (** [F.cross_entropy], [a + b], [a / 2], [x.item()]. *)
  cross_entropy : tensor -> tensor -> tensor;
  tensor_add : tensor -> tensor -> tensor;
  tensor_div_int : tensor -> Z -> tensor;
  item : tensor -> float;
  (** [x.norm(dim=-1, keepdim=True)], [a / b], [a @ b], [x.t()],
      [x.diag()], [x.mean()]. *)
  norm_lastdim : tensor -> tensor;
  tensor_div : tensor -> tensor -> tensor;
  matmul : tensor -> tensor -> tensor;
  transpose : tensor -> tensor;
  diag : tensor -> tensor;
  mean : tensor -> tensor;
  (** [optimizer.zero_grad()], [loss.backward()] (it fills the [.grad] of
      the parameters whose flag is set), [optimizer.step()]. *)
  zero_grad : grads -> grads;
  backward : CLIP.flags -> tensor -> grads -> grads;
  adam_init : float -> state_dict -> optim_state;
  adam_step : optim_state -> state_dict -> grads -> state_dict * optim_state;
  empty_grads : grads
}.

(** ** ImageCaptionDataset *)

Module ImageCaptionDataset.

Record t : Type := mk {
  mode : string;
  _images_dir : string;
  _captions_file : string;
  _image_caption_pairs : list (string * string)
}.

Definition set_mode (self : t) (v : string) : t :=
  mk v (_images_dir self) (_captions_file self) (_image_caption_pairs self).

(** [(line.split("\t")[0], line.split("\t")[1].strip())]. *)
Definition parse_line (line : string) : result (string * string) :=
  name ← Py.getitem (Py.split Py.tab line) 0;
  caption ← Py.getitem (Py.split Py.tab line) 1;
  Ok (name, Py.strip caption).

Fixpoint parse_lines (lines : list string) : result (list (string * string)) :=
  match lines with
  | [] => Ok []
  | line :: lines =>
      pair ← parse_line line;
      pairs ← parse_lines lines;
      Ok (pair :: pairs)
  end.

Definition __init__ `{Extern} (images_dir captions_file : string) : result t :=
  let images_dir := Py.os_path_join "data" images_dir in
  let captions_file := Py.os_path_join "data" captions_file in
  lines ← match open_readlines captions_file with
          | Some lines => Ok lines
          | None => Raise FileNotFoundError
          end;
  pairs ← parse_lines lines;
  Ok (mk "train" images_dir captions_file pairs).

Definition __len__ (self : t) : Z :=
  Z.of_nat (length (_image_caption_pairs self)).

Definition __getitem__ `{Extern} (self : t) (idx : Z) : result (image * string) :=
  '(image_path, text) ← Py.getitem (_image_caption_pairs self) idx;
  let image_path := Py.os_path_join (_images_dir self) image_path in
  image ← match Image_open image_path with
          | Some im => Ok (convert_RGB im)
          | None => Raise FileNotFoundError
          end;
  if String.eqb (mode self) "train" then
    let image := image_augmenter image in
    let text := text_augmenter text in
    Ok (image, text)
  else Ok (image, text).

End ImageCaptionDataset.

(** ** Objects, references and the torch data utilities

    The dataset is shared by reference between the trainer, the two
    [Subset]s that [random_split] builds and the loaders, and the trainer
    assigns attributes to some of these objects: they live in a store and
    are named by their address. *)

Abbreviation loc := nat.

(** [torch.utils.data.Subset]: the wrapped dataset, the indices kept, and
    the attributes assigned to the instance from outside the class. *)
Module Subset.

Record t : Type := mk {
  dataset : loc;
  indices : list Z;
  attrs : gmap string string
}.

Definition setattr (self : t) (name v : string) : t :=
  mk (dataset self) (indices self) (<[name := v]> (attrs self)).

End Subset.

Inductive object : Type :=
| ODataset (d : ImageCaptionDataset.t)
| OSubset (s : Subset.t).

Abbreviation heap := (list object).

Definition alloc (h : heap) (o : object) : heap * loc :=
  (h ++ [o], length h).

(** [obj.mode = v]: an assignment sets the attribute of the object it is
    applied to, whatever its class. *)
Definition setattr_mode (h : heap) (l : loc) (v : string) : result heap :=
  match h !! l with
  | Some (ODataset d) => Ok (<[l := ODataset (ImageCaptionDataset.set_mode d v)]> h)
  | Some (OSubset s) => Ok (<[l := OSubset (Subset.setattr s "mode" v)]> h)
  | None => Raise AttributeError
  end.

(** [len(obj)]. *)
Definition len (h : heap) (l : loc) : result Z :=
  match h !! l with
  | Some (ODataset d) => Ok (ImageCaptionDataset.__len__ d)
  | Some (OSubset s) => Ok (Z.of_nat (length (Subset.indices s)))
  | None => Raise AttributeError
  end.

(** [obj[idx]].  [Subset.__getitem__] is
    [self.dataset[self.indices[idx]]]; the wrapped dataset is the module's
    [ImageCaptionDataset]. *)
Definition getitem `{Extern} (h : heap) (l : loc) (idx : Z)
  : result (image * string) :=
  match h !! l with
  | Some (ODataset d) => ImageCaptionDataset.__getitem__ d idx
  | Some (OSubset s) =>
      k ← Py.getitem (Subset.indices s) idx;
      match h !! Subset.dataset s with
      | Some (ODataset d) => ImageCaptionDataset.__getitem__ d k
      | _ => Raise TypeError
      end
  | None => Raise AttributeError
  end.

(** [random_split(dataset, [a, b])].  Lengths that add up to 1 are read
    as fractions of the dataset: each must lie between 0 and 1 and gives
    [floor(len(dataset) * fraction)] items (of two integers one is then 0
    and the other 1, so that nothing is left over to hand out).  The
    lengths must add up to the dataset's, and the two subsets are
    consecutive slices of one random permutation. *)
Definition fraction (h : heap) (dataset : loc) (frac : Z) : result Z :=
  if (frac <? 0) || (1 <? frac) then Raise ValueError
  else n ← len h dataset; Ok (n * frac).

Definition random_split (h : heap) (dataset : loc) (lengths : Z * Z)
    (draws : list nat) : result (heap * loc * loc) :=
  let '(a, b) := lengths in
  '(a, b) ←
    (if a + b =? 1 then
       a' ← fraction h dataset a;
       b' ← fraction h dataset b;
       Ok (a', b')
     else Ok (a, b));
  n ← len h dataset;
  if negb (a + b =? n) then Raise ValueError
  else
    let indices := Py.randperm draws (a + b) in
    let first := Py.slice indices (a - a) a in
    let second := Py.slice indices (a + b - b) (a + b) in
    let '(h, l1) := alloc h (OSubset (Subset.mk dataset first ∅)) in
    let '(h, l2) := alloc h (OSubset (Subset.mk dataset second ∅)) in
    Ok (h, l1, l2).

(** [torch.utils.data.DataLoader] with the default sampler, batch sampler
    ([drop_last=False]) and collation. *)
Module DataLoader.

Record t : Type := mk {
  dataset : loc;
  batch_size : Z;
  shuffle : bool
}.

(** The sampler is built first: with [shuffle] set it is a
    [RandomSampler], which raises [ValueError] on a dataset without
    samples; the batch sampler then raises it on a batch size that is not
    positive. *)
Definition __init__ (h : heap) (dataset : loc) (batch_size : Z) (shuffle : bool)
  : result t :=
  _ ← (if shuffle then
         num_samples ← len h dataset;
         if num_samples <=? 0 then Raise ValueError else Ok tt
       else Ok tt);
  if batch_size <=? 0 then Raise ValueError
  else Ok (mk dataset batch_size shuffle).

(** The number of batches: [ceil(len(dataset) / batch_size)]. *)
Definition __len__ (h : heap) (self : t) : result Z :=
  n ← len h (dataset self);
  Ok ((n + batch_size self - 1) / batch_size self).

Fixpoint chunks {A} (k : nat) (l : list A) (fuel : nat) : list (list A) :=
  match fuel with
  | O => []
  | S fuel =>
      match l with
      | [] => []
      | _ :: _ => take k l :: chunks k (drop k l) fuel
      end
  end.

(** One pass over the loader: the batches in the order they are yielded.
    [draws] is the random source of the sampler when [shuffle] is set. *)
Definition __iter__ `{Extern} (h : heap) (self : t) (draws : list nat)
  : result (list (tensor * list string)) :=
  n ← len h (dataset self);
  let order := if shuffle self then Py.randperm draws n else Py.range 0 n in
  Py.map_result
    (fun idxs =>
       samples ← Py.map_result (getitem h (dataset self)) idxs;
       Ok (default_collate samples))
    (chunks (Z.to_nat (batch_size self)) order (length order)).

End DataLoader.

(** ** torch's autograd mode

    [torch.no_grad()] switches a global mode off and puts back the mode it
    found.  The computations below run in a state-and-error monad over that
    mode; the state also keeps, as a record of the run, every torch
    operation executed together with the mode it ran under. *)

Inductive op : Set :=
| OpToDevice | OpTokenize | OpModelCall | OpArange | OpCrossEntropy
| OpAdd | OpDivInt | OpItem | OpEncodeImage | OpEncodeText | OpNorm
| OpDiv | OpTranspose | OpMatmul | OpDiag | OpMean
| OpZeroGrad | OpBackward | OpStep.

Record runtime : Type := mk_runtime {
  grad_enabled : bool;
  ops : list (op * bool)
}.

Definition T (A : Type) : Type := runtime -> result (A * runtime).

#[global] Instance T_ret : MRet T := fun A a rt => Ok (a, rt).
#[global] Instance T_bind : MBind T :=
  fun A B f m rt =>
    match m rt with
    | Ok (a, rt') => f a rt'
    | Raise e => Raise e
    end.

Definition lift {A} (r : result A) : T A :=
  fun rt => match r with Ok a => Ok (a, rt) | Raise e => Raise e end.

Definition torch_op {A} (o : op) (v : A) : T A :=
  fun rt => Ok (v, mk_runtime (grad_enabled rt) (ops rt ++ [(o, grad_enabled rt)])).

Definition is_grad_enabled : T bool :=
  fun rt => Ok (grad_enabled rt, rt).

(** [with torch.no_grad(): body]. *)
Definition no_grad {A} (body : T A) : T A :=
  fun rt =>
    let prev := grad_enabled rt in
    match body (mk_runtime false (ops rt)) with
    | Ok (a, rt') => Ok (a, mk_runtime prev (ops rt'))
    | Raise e => Raise e
    end.

(** ** CLIPFinetuner *)

Module CLIPFinetuner.

Section WithExtern.

Context `{Extern}.

(** The network object: the flags, the parameter values, the [.grad]
    buffers and the train/eval switch of [nn.Module]. *)
Record model : Type := mk_model {
  requires_grad : CLIP.flags;
  weights : state_dict;
  grad : grads;
  training : bool
}.

Definition set_requires_grad (m : model) (v : CLIP.flags) : model :=
  mk_model v (weights m) (grad m) (training m).

Definition set_weights (m : model) (v : state_dict) : model :=
  mk_model (requires_grad m) v (grad m) (training m).

Definition set_grad (m : model) (v : grads) : model :=
  mk_model (requires_grad m) (weights m) v (training m).

Definition set_training (m : model) (v : bool) : model :=
  mk_model (requires_grad m) (weights m) (grad m) v.

Record t : Type := mk {
  _model : model;
  _tot_blocks : Z;
  _dataset : loc;
  _unfreeze_from : Z;
  _unfreeze_every : Z;
  _early_stopping : EarlyStopping.t;
  _train_loader : DataLoader.t;
  _val_loader : DataLoader.t;
  _optimizer : optim_state
}.

Definition set_model (self : t) (v : model) : t :=
  mk v (_tot_blocks self) (_dataset self) (_unfreeze_from self)
     (_unfreeze_every self) (_early_stopping self) (_train_loader self)
     (_val_loader self) (_optimizer self).

Definition set_early_stopping (self : t) (v : EarlyStopping.t) : t :=
  mk (_model self) (_tot_blocks self) (_dataset self) (_unfreeze_from self)
     (_unfreeze_every self) v (_train_loader self) (_val_loader self)
     (_optimizer self).

Definition set_optimizer (self : t) (v : optim_state) : t :=
  mk (_model self) (_tot_blocks self) (_dataset self) (_unfreeze_from self)
     (_unfreeze_every self) (_early_stopping self) (_train_loader self)
     (_val_loader self) v.

(** The three methods below run inside [__init__] before the object is
    complete; they take the two fields they read, [self._model] and
    [self._tot_blocks]. *)

Definition _get_data_loaders (h : heap) (dataset : loc) (val_split : float)
    (batch_size : Z) (draws : list nat)
  : result (heap * DataLoader.t * DataLoader.t) :=
  n ← len h dataset;
  train_size ← Py.int_of_float ((1 - val_split) * Py.float_of_Z n)%float;
  n ← len h dataset;
  let val_size := n - train_size in
  '(h, train_dataset, val_dataset) ←
    random_split h dataset (train_size, val_size) draws;
  h ← setattr_mode h train_dataset "train";
  h ← setattr_mode h val_dataset "val";
  train_loader ← DataLoader.__init__ h train_dataset batch_size true;
  val_loader ← DataLoader.__init__ h val_dataset batch_size false;
  Ok (h, train_loader, val_loader).

Definition _freeze_model (m : model) : model :=
  set_requires_grad m (CLIP.freeze_all (requires_grad m)).

Definition _unfreeze_blocks (m : model) (tot_blocks : Z)
    (blocks_to_unfreeze : Z) : result model :=
  let fl := requires_grad m in
  let fl := CLIP.set_visual_proj fl true in
  let fl := CLIP.set_text_projection fl true in
  let blocks_to_unfreeze :=
    if blocks_to_unfreeze >? tot_blocks then tot_blocks
    else blocks_to_unfreeze in
  fl ← Py.for_each
         (fun fl i =>
            blocks ← CLIP.unfreeze_block (CLIP.visual_resblocks fl) i;
            Ok (CLIP.set_visual_resblocks fl blocks))
         fl (Py.range (tot_blocks - blocks_to_unfreeze) tot_blocks);
  fl ← Py.for_each
         (fun fl i =>
            blocks ← CLIP.unfreeze_block (CLIP.resblocks fl) i;
            Ok (CLIP.set_resblocks fl blocks))
         fl (Py.range (tot_blocks - blocks_to_unfreeze) tot_blocks);
  Ok (set_requires_grad m fl).

(** The constructor.  [h] is the store holding the dataset object,
    [draws] the random source of [random_split].  The early stopper is
    built with its defaults: patience 50, directory "models", mode "max". *)
Definition __init__ (h : heap) (model_name : string) (dataset : loc)
    (val_split : float) (batch_size : Z) (lr : float)
    (unfreeze_from unfreeze_every : Z) (draws : list nat)
  : result (heap * t) :=
  '(fl, w) ← clip_load model_name;
  let m := mk_model fl w empty_grads false in
  let m := set_weights m (to_float (weights m)) in
  let tot_blocks := Z.of_nat (length (CLIP.visual_resblocks (requires_grad m))) in
  let m := _freeze_model m in
  m ← _unfreeze_blocks m tot_blocks 1;
  let early_stopping := EarlyStopping.__init__ 50 "models" "max" in
  '(h, train_loader, val_loader) ←
    _get_data_loaders h dataset val_split batch_size draws;
  let optimizer := adam_init lr (weights m) in
  Ok (h, mk m tot_blocks dataset unfreeze_from unfreeze_every early_stopping
            train_loader val_loader optimizer).

Definition get_model (self : t) : model := _model self.

(** The [print] of the method is not modelled. *)
Definition _partial_unfreeze (self : t) (epoch : Z) : result t :=
  let epoch := epoch + 1 in
  due ← (if epoch >=? _unfreeze_from self then
           r ← Py.modulo epoch (_unfreeze_every self);
           Ok (r =? 0)
         else Ok false);
  if due : bool then
    blocks_to_unfreeze ←
      Py.floordiv (epoch - _unfreeze_from self + _unfreeze_every self)
                  (_unfreeze_every self);
    let blocks_to_unfreeze := blocks_to_unfreeze + 1 in
    if blocks_to_unfreeze <=? _tot_blocks self then
      m ← _unfreeze_blocks (_model self) (_tot_blocks self) blocks_to_unfreeze;
      Ok (set_model self m)
    else Ok self
  else Ok self.

Definition _clip_score (self : t) (images texts : tensor) : T tensor :=
  let m := _model self in
  '(image_features, text_features) ←
    no_grad (
      image_features ←
        torch_op OpEncodeImage (encode_image (weights m) (training m) images);
      text_features ←
        torch_op OpEncodeText (encode_text (weights m) (training m) texts);
      mret (image_features, text_features));
  n ← torch_op OpNorm (norm_lastdim image_features);
  image_features ← torch_op OpDiv (tensor_div image_features n);
  n ← torch_op OpNorm (norm_lastdim text_features);
  text_features ← torch_op OpDiv (tensor_div text_features n);
  tt ← torch_op OpTranspose (transpose text_features);
  sim ← torch_op OpMatmul (matmul image_features tt);
  d ← torch_op OpDiag (diag sim);
  score ← torch_op OpMean (mean d);
  mret score.

(** [for x in l: s = body(s, x)] in the monad. *)
Fixpoint for_each_T {S X} (body : S -> X -> T S) (s : S) (l : list X) : T S :=
  match l with
  | [] => mret s
  | x :: l => s' ← body s x; for_each_T body s' l
  end.

(** The body of the loop of [_train] on one batch.  [loss.backward()]
    raises when the loss carries no graph: under a disabled autograd mode,
    or when no parameter is trainable. *)
Definition train_step (st : t * float) (batch : tensor * list string)
  : T (t * float) :=
  let '(self, total_loss) := st in
  let '(images, texts) := batch in
  images ← torch_op OpToDevice (to_device images);
  texts ← torch_op OpTokenize (clip_tokenize texts);
  texts ← torch_op OpToDevice (to_device texts);
  '(logits_per_image, logits_per_text) ←
    torch_op OpModelCall
      (model_call (weights (_model self)) (training (_model self)) images texts);
  ground_truth ←
    torch_op OpArange (long_tensor (Py.range 0 (tensor_len images)));
  ground_truth ← torch_op OpToDevice (to_device ground_truth);
  loss_img ← torch_op OpCrossEntropy (cross_entropy logits_per_image ground_truth);
  loss_txt ← torch_op OpCrossEntropy (cross_entropy logits_per_text ground_truth);
  sum ← torch_op OpAdd (tensor_add loss_img loss_txt);
  loss ← torch_op OpDivInt (tensor_div_int sum 2);
  g ← torch_op OpZeroGrad (zero_grad (grad (_model self)));
  let self := set_model self (set_grad (_model self) g) in
  enabled ← is_grad_enabled;
  g ← (if enabled && CLIP.any_trainable (requires_grad (_model self)) then
         torch_op OpBackward
           (backward (requires_grad (_model self)) loss (grad (_model self)))
       else lift (Raise RuntimeError));
  let self := set_model self (set_grad (_model self) g) in
  '(w, o) ←
    torch_op OpStep
      (adam_step (_optimizer self) (weights (_model self)) (grad (_model self)));
  let self := set_optimizer (set_model self (set_weights (_model self) w)) o in
  l ← torch_op OpItem (item loss);
  mret (self, (total_loss + l)%float).

(** The loader is read in one go before the loop runs: fetching a sample
    depends on nothing the loop changes.  [draws] is the random source of
    the shuffling sampler for this pass. *)
Definition _train (h : heap) (self : t) (draws : list nat) : T (t * float) :=
  let self := set_model self (set_training (_model self) true) in
  let total_loss := 0%float in
  batches ← lift (DataLoader.__iter__ h (_train_loader self) draws);
  '(self, total_loss) ← for_each_T train_step (self, total_loss) batches;
  n ← lift (DataLoader.__len__ h (_train_loader self));
  total_loss ← lift (Py.truediv total_loss n);
  mret (self, total_loss).

(** The body of the loop of [_validate] on one batch. *)
Definition validate_step (self : t) (st : float * float)
    (batch : tensor * list string) : T (float * float) :=
  let '(total_loss, total_score) := st in
  let '(images, texts) := batch in
  images ← torch_op OpToDevice (to_device images);
  texts ← torch_op OpTokenize (clip_tokenize texts);
  texts ← torch_op OpToDevice (to_device texts);
  '(logits_per_image, logits_per_text) ←
    torch_op OpModelCall
      (model_call (weights (_model self)) (training (_model self)) images texts);
  ground_truth ←
    torch_op OpArange (long_tensor (Py.range 0 (tensor_len images)));
  ground_truth ← torch_op OpToDevice (to_device ground_truth);
  loss_img ← torch_op OpCrossEntropy (cross_entropy logits_per_image ground_truth);
  loss_txt ← torch_op OpCrossEntropy (cross_entropy logits_per_text ground_truth);
  sum ← torch_op OpAdd (tensor_add loss_img loss_txt);
  loss ← torch_op OpDivInt (tensor_div_int sum 2);
  score ← _clip_score self images texts;
  s ← torch_op OpItem (item score);
  let total_score := (total_score + s)%float in
  l ← torch_op OpItem (item loss);
  let total_loss := (total_loss + l)%float in
  mret (total_loss, total_score).

Definition _validate (h : heap) (self : t) : T (t * float * float) :=
  let self := set_model self (set_training (_model self) false) in
  let total_loss := 0%float in
  let total_score := 0%float in
  batches ← lift (DataLoader.__iter__ h (_val_loader self) []);
  '(total_loss, total_score) ←
    no_grad (for_each_T (validate_step self) (total_loss, total_score) batches);
  n ← lift (DataLoader.__len__ h (_val_loader self));
  total_score ← lift (Py.truediv total_score n);
  n ← lift (DataLoader.__len__ h (_val_loader self));
  total_loss ← lift (Py.truediv total_loss n);
  mret (self, total_loss, total_score).

(** One iteration of the loop of [fit]: the object after it, what it wrote
    to disk and whether the loop breaks.  The early stopper sees the
    network as it is then. *)
Definition fit_epoch (h : heap) (draws : Z -> list nat) (self : t) (epoch : Z)
  : T (t * list (event state_dict) * bool) :=
  self ← lift (_partial_unfreeze self epoch);
  '(self, train_loss) ← _train h self (draws epoch);
  '(self, val_loss, val_score) ← _validate h self;
  '(early_stopping, out, stop) ←
    lift (EarlyStopping.__call__ (weights (_model self)) (_early_stopping self)
            train_loss val_loss val_score);
  mret (set_early_stopping self early_stopping, out, stop).

Fixpoint fit_loop (h : heap) (draws : Z -> list nat) (self : t)
    (epochs : list Z) : T (list (t * list (event state_dict))) :=
  match epochs with
  | [] => mret []
  | epoch :: epochs =>
      '(self, out, stop) ← fit_epoch h draws self epoch;
      if stop : bool then mret [(self, out)]
      else
        rest ← fit_loop h draws self epochs;
        mret ((self, out) :: rest)
  end.

(** [fit]: the object and the disk writes after each epoch that ran, in
    order; the last entry is the state [fit] returns in.  [draws] gives
    each epoch's shuffling source.  Printing is not modelled, so [verbose]
    has no effect. *)
Definition fit (h : heap) (draws : Z -> list nat) (self : t) (epochs : Z)
    (verbose : bool) : T (list (t * list (event state_dict))) :=
  fit_loop h draws self (Py.range 0 epochs).

End WithExtern.

End CLIPFinetuner.

(** ** A small instance of the third-party interface

    Used to run the definitions on concrete inputs.  Images are named by
    what was done to them, every tensor is an integer, the network's
    parameters are one integer that each optimizer step increments, and
    the network has three blocks of two parameters in each tower. *)

Module Toy.

Definition newline : string := String (ascii_of_nat 10) EmptyString.

Definition caption_line (name caption : string) : string :=
  name ++ String Py.tab (caption ++ newline).

Definition captions : list string :=
  [caption_line "a.jpg" "a cat "; caption_line "b.jpg" " a dog";
   caption_line "c.jpg" "a tree"; caption_line "d.jpg" "a boat"].

Definition loaded_flags : CLIP.flags :=
  CLIP.mk_flags true true
    [[true; true]; [true; true]; [true; true]]
    [[true; true]; [true; true]; [true; true]]
    [true; true; true].

Definition extern : Extern := {|
  open_readlines path :=
    if String.eqb path "data/artwork_captions.txt" then Some captions else None;
  image := string;
  Image_open path :=
    if String.prefix "data/images/imagesf2/" path then Some path else None;
  convert_RGB im := String.append "RGB:" im;
  image_augmenter im := String.append "augmented:" im;
  text_augmenter text := String.append "augmented:" text;
  tensor := Z;
  state_dict := Z;
  grads := Z;
  optim_state := Z;
  default_collate samples := (Z.of_nat (length samples), map snd samples);
  clip_load name :=
    if String.eqb name "ViT-B/32" then Ok (loaded_flags, 0) else Raise RuntimeError;
  to_float w := w;
  to_device x := x;
  clip_tokenize texts := Z.of_nat (length texts);
  tensor_len x := x;
  long_tensor l := Z.of_nat (length l);
  model_call w _ images texts := (w + images, w + texts);
  encode_image w _ images := w + images;
  encode_text w _ texts := w + texts;
  cross_entropy logits labels := logits + labels;
  tensor_add a b := a + b;
  tensor_div_int a n := a / n;
  item x := Py.float_of_Z x;
  norm_lastdim _ := 1;
  tensor_div a b := a / b;
  matmul a b := a * b;
  transpose x := x;
  diag x := x;
  mean x := x;
  zero_grad _ := 0;
  backward _ loss g := g + loss;
  adam_init _ _ := 0;
  adam_step o w g := (w + 1, o + 1);
  empty_grads := 0
|}.

(** The store holding the dataset built from the toy captions file. *)
Definition dataset : ImageCaptionDataset.t :=
  ImageCaptionDataset.mk "train" "data/images/imagesf2"
    "data/artwork_captions.txt"
    [("a.jpg", "a cat"); ("b.jpg", "a dog"); ("c.jpg", "a tree");
     ("d.jpg", "a boat")].

Definition store : heap := [ODataset dataset].

(** The trainer that the constructor builds on the toy store, with the
    schedule starting at epoch 3 and firing every 2 epochs, and the store
    after the construction. *)
Definition store_built : heap :=
  [ODataset dataset;
   OSubset (Subset.mk 0%nat [3; 1; 0] {["mode" := "train"]});
   OSubset (Subset.mk 0%nat [2] {["mode" := "val"]})].

Definition built_flags : CLIP.flags :=
  CLIP.mk_flags true true
    [[false; false]; [false; false]; [true; true]]
    [[false; false]; [false; false]; [true; true]]
    [false; false; false].

Definition trainer : @CLIPFinetuner.t extern :=
  @CLIPFinetuner.mk extern
    (@CLIPFinetuner.mk_model extern built_flags 0 0 false)
    3 0%nat 3 2
    (EarlyStopping.__init__ 50 "models" "max")
    (DataLoader.mk 1%nat 2 true) (DataLoader.mk 2%nat 2 false) 0.

(** The interpreter's initial state: autograd enabled, nothing run yet. *)
Definition fresh : runtime := mk_runtime true [].

(** Seven epochs of [fit] on the toy trainer: the trace and the final
    state of the interpreter. *)
Definition run7 : result (list (@CLIPFinetuner.t extern * list (event Z)) * runtime) :=
  @CLIPFinetuner.fit extern store_built (fun _ => []) trainer 7 true fresh.

Definition trace7 : list (@CLIPFinetuner.t extern * list (event Z)) :=
  Eval vm_compute in
    match run7 with Ok (trace, _) => trace | Raise _ => [] end.

Definition runtime7 : runtime :=
  Eval vm_compute in
    match run7 with Ok (_, rt) => rt | Raise _ => fresh end.

(** The trainer after the epoch number [k + 1] of that run, and what the
    epoch wrote. *)
Definition after (k : nat) : @CLIPFinetuner.t extern :=
  match trace7 !! k with Some (self, _) => self | None => trainer end.

Definition wrote (k : nat) : list (event Z) :=
  match trace7 !! k with Some (_, out) => out | None => [] end.

(** A network whose text tower is shallower than its visual tower (two
    blocks against three), and the interface that loads it under the name
    "ViT-L/14"; everything else is as in [extern]. *)
Definition shallow_text_flags : CLIP.flags :=
  CLIP.mk_flags true true
    [[true; true]; [true; true]; [true; true]]
    [[true; true]; [true; true]]
    [true; true; true].

Definition extern_shallow_text : Extern := {|
  open_readlines := @open_readlines extern;
  image := @image extern;
  Image_open := @Image_open extern;
  convert_RGB := @convert_RGB extern;
  image_augmenter := @image_augmenter extern;
  text_augmenter := @text_augmenter extern;
  tensor := @tensor extern;
  state_dict := @state_dict extern;
  grads := @grads extern;
  optim_state := @optim_state extern;
  default_collate := @default_collate extern;
  clip_load name :=
    if String.eqb name "ViT-L/14" then Ok (shallow_text_flags, 0)
    else Raise RuntimeError;
  to_float := @to_float extern;
  to_device := @to_device extern;
  clip_tokenize := @clip_tokenize extern;
  tensor_len := @tensor_len extern;
  long_tensor := @long_tensor extern;
  model_call := @model_call extern;
  encode_image := @encode_image extern;
  encode_text := @encode_text extern;
  cross_entropy := @cross_entropy extern;
  tensor_add := @tensor_add extern;
  tensor_div_int := @tensor_div_int extern;
  item := @item extern;
  norm_lastdim := @norm_lastdim extern;
  tensor_div := @tensor_div extern;
  matmul := @matmul extern;
  transpose := @transpose extern;
  diag := @diag extern;
  mean := @mean extern;
  zero_grad := @zero_grad extern;
  backward := @backward extern;
  adam_init := @adam_init extern;
  adam_step := @adam_step extern;
  empty_grads := @empty_grads extern
|}.

(** The toy trainer with [unfreeze_every = 0]. *)
Definition trainer_every_0 : @CLIPFinetuner.t extern :=
  @CLIPFinetuner.mk extern
    (@CLIPFinetuner._model extern trainer)
    3 0%nat 3 0
    (EarlyStopping.__init__ 50 "models" "max")
    (DataLoader.mk 1%nat 2 true) (DataLoader.mk 2%nat 2 false) 0.

(** The store after a split with [val_split = 0.0], which leaves no
    validation sample. *)
Definition store_no_val : heap :=
  [ODataset dataset;
   OSubset (Subset.mk 0%nat [3; 1; 0; 2] {["mode" := "train"]});
   OSubset (Subset.mk 0%nat [] {["mode" := "val"]})].

(** The toy trainer with an early stopper of patience 2 that minimises
    (on the toy network the validation score grows at every epoch), and
    seven epochs of [fit] asked of it. *)
Definition impatient : @CLIPFinetuner.t extern :=
  @CLIPFinetuner.set_early_stopping extern trainer
    (EarlyStopping.__init__ 2 "models" "min").

Definition run_impatient
  : result (list (@CLIPFinetuner.t extern * list (event Z)) * runtime) :=
  @CLIPFinetuner.fit extern store_built (fun _ => []) impatient 7 true fresh.

Definition trace_impatient : list (@CLIPFinetuner.t extern * list (event Z)) :=
  Eval vm_compute in
    match run_impatient with Ok (trace, _) => trace | Raise _ => [] end.

Definition runtime_impatient : runtime :=
  Eval vm_compute in
    match run_impatient with Ok (_, rt) => rt | Raise _ => fresh end.

End Toy.

(** * The vocabulary of the claims *)

(** ** The training and validation passes *)

Section TrainingSpec.

Context `{Extern}.

(** The images moved to the device and the captions tokenized. *)
Definition batch_inputs (batch : tensor * list string) : tensor * tensor :=
  (to_device (fst batch), to_device (clip_tokenize (snd batch))).

(** The symmetric contrastive loss of a batch of size [B]: the mean of the
    cross-entropies of [logits_per_image] and of [logits_per_text] against
    the labels [0, 1, ..., B-1]. *)
Definition symmetric_loss (w : state_dict) (training : bool)
    (batch : tensor * list string) : tensor :=
  let '(images, texts) := batch_inputs batch in
  let '(logits_per_image, logits_per_text) := model_call w training images texts in
  let B := tensor_len images in
  let g := to_device (long_tensor (Py.range 0 B)) in
  tensor_div_int
    (tensor_add (cross_entropy logits_per_image g)
                (cross_entropy logits_per_text g)) 2.

(** The mean of the diagonal of the cosine-similarity matrix between the
    L2-normalized image and text features. *)
Definition cosine_score (w : state_dict) (training : bool)
    (batch : tensor * list string) : tensor :=
  let '(images, texts) := batch_inputs batch in
  let image_features := encode_image w training images in
  let text_features := encode_text w training texts in
  let image_features := tensor_div image_features (norm_lastdim image_features) in
  let text_features := tensor_div text_features (norm_lastdim text_features) in
  mean (diag (matmul image_features (transpose text_features))).

(** The average of a list of floats as Python computes it: a running sum
    from 0.0, left to right, divided by the number of terms. *)
Definition float_sum (l : list float) : float :=
  fold_left PrimFloat.add l 0%float.

Definition float_mean (l : list float) : float :=
  PrimFloat.div (float_sum l) (Py.float_of_Z (Z.of_nat (length l))).

(** One optimization step on a batch: the gradients are cleared, the loss
    is backpropagated, the optimizer updates the parameters. *)
Definition optimization_step (self : CLIPFinetuner.t)
    (batch : tensor * list string) : CLIPFinetuner.t :=
  let m := CLIPFinetuner._model self in
  let loss :=
    symmetric_loss (CLIPFinetuner.weights m) (CLIPFinetuner.training m) batch in
  let g :=
    backward (CLIPFinetuner.requires_grad m) loss
      (zero_grad (CLIPFinetuner.grad m)) in
  let '(w, o) :=
    adam_step (CLIPFinetuner._optimizer self) (CLIPFinetuner.weights m) g in
  CLIPFinetuner.set_optimizer
    (CLIPFinetuner.set_model self
       (CLIPFinetuner.mk_model (CLIPFinetuner.requires_grad m) w g
          (CLIPFinetuner.training m))) o.

(** A pass over the batches: the trainer after the last step and the loss
    of each batch, computed on the parameters the previous steps left. *)
Fixpoint training_pass (self : CLIPFinetuner.t)
    (batches : list (tensor * list string)) : CLIPFinetuner.t * list float :=
  match batches with
  | [] => (self, [])
  | batch :: batches =>
      let m := CLIPFinetuner._model self in
      let loss :=
        item (symmetric_loss (CLIPFinetuner.weights m)
                (CLIPFinetuner.training m) batch) in
      let '(self', losses) := training_pass (optimization_step self batch) batches in
      (self', loss :: losses)
  end.

(** The torch operations of one training step and of one validation step,
    in the order they run. *)
Definition loss_ops : list op :=
  [OpToDevice; OpTokenize; OpToDevice; OpModelCall; OpArange; OpToDevice;
   OpCrossEntropy; OpCrossEntropy; OpAdd; OpDivInt].

Definition train_step_ops : list op :=
  loss_ops ++ [OpZeroGrad; OpBackward; OpStep; OpItem].

Definition validate_step_ops : list op :=
  loss_ops ++ [OpEncodeImage; OpEncodeText; OpNorm; OpDiv; OpNorm; OpDiv;
               OpTranspose; OpMatmul; OpDiag; OpMean; OpItem; OpItem].

Definition under (mode : bool) (l : list op) : list (op * bool) :=
  map (fun o => (o, mode)) l.

End TrainingSpec.

(** ** Early stopping: what the claims' words mean on a history of scores

    A history lists the validation scores reported so far, the most recent
    first. *)

(** "Strictly improves on the best score": strictly greater in mode "max",
    strictly smaller otherwise ("min" included); nothing improves on an
    absent best score. *)
Definition strictly_improves (mode : string) (score : float)
    (best : option float) : bool :=
  match best with
  | None => false
  | Some b =>
      if String.eqb mode "max" then PrimFloat.ltb b score
      else PrimFloat.ltb score b
  end.

Arguments strictly_improves : simpl never.

(** The score that the object keeps as its best: the first score
    reported, replaced by every later score that strictly improves on
    it. *)
Fixpoint best_so_far (mode : string) (past : list float) : option float :=
  match past with
  | [] => None
  | s :: older =>
      match best_so_far mode older with
      | None => Some s
      | Some b => if strictly_improves mode s (Some b) then Some s else Some b
      end
  end.

(** "The best score so far", read off the scores alone: one of the scores
    reported so far, not a NaN, on which none of them strictly improves. *)
Definition best_score_of (mode : string) (past : list float) (b : float) : Prop :=
  In b past
  /\ PrimFloat.is_nan b = false
  /\ forall s, In s past -> strictly_improves mode s (Some b) = false.

(** A call is non-improving when it is not the first and its score does not
    strictly improve on the best score before it. *)
Definition non_improving (mode : string) (s : float) (older : list float) : bool :=
  match best_so_far mode older with
  | None => false
  | Some b => negb (strictly_improves mode s (Some b))
  end.

(** "The count of non-improving calls since the last improvement, or since
    the first call if no improvement ever occurred". *)
Fixpoint stagnation_count (mode : string) (past : list float) : Z :=
  match past with
  | [] => 0
  | s :: older =>
      if non_improving mode s older then stagnation_count mode older + 1
      else 0
  end.

(** At the latest call or at an earlier one, a non-improving call brought
    the count to the patience. *)
Fixpoint patience_reached (mode : string) (patience : Z) (past : list float) : bool :=
  match past with
  | [] => false
  | s :: older =>
      patience_reached mode patience older
      || (non_improving mode s older
          && (patience <=? stagnation_count mode past))
  end.

(** The scores of the first [n] reports, the most recent first. *)
Definition scores_before {W} (rs : list (EarlyStopping.report W)) (n : nat)
  : list float :=
  rev (map EarlyStopping.val_score (take n rs)).

(** The object a sequence of calls found before its call number [n]:
    the initial one, or the one the previous call left. *)
Definition state_before {W} (init : EarlyStopping.t)
    (results : list (EarlyStopping.t * list (event W) * bool)) (n : nat)
  : EarlyStopping.t :=
  match n with
  | O => init
  | S k =>
      match results !! k with
      | Some (self, _, _) => self
      | None => init
      end
  end.

(** ** The vocabulary of the proofs and of the other claims *)

(** The object agrees with the history [past] of the scores it has seen. *)
Definition tracks (self : EarlyStopping.t) (past : list float) : Prop :=
  EarlyStopping._best_score self = best_so_far (EarlyStopping._mode self) past
  /\ EarlyStopping._counter self
     = stagnation_count (EarlyStopping._mode self) past
  /\ EarlyStopping._stop self
     = patience_reached (EarlyStopping._mode self)
         (EarlyStopping._patience self) past.

(** A report carrying only a validation score, for the examples. *)
Definition scored (s : float) : EarlyStopping.report unit :=
  EarlyStopping.mk_report tt 0%float 0%float s.

(** A sample that [ds.__getitem__] builds in mode "train": the augmented
    RGB image and the augmented caption of one of its records. *)
Definition augmented_sample `{Extern} (ds : ImageCaptionDataset.t)
    (sample : image * string) : Prop :=
  exists name text raw,
    In (name, text) (ImageCaptionDataset._image_caption_pairs ds)
    /\ Image_open (Py.os_path_join (ImageCaptionDataset._images_dir ds) name)
       = Some raw
    /\ sample = (image_augmenter (convert_RGB raw), text_augmenter text).

(** One tower after [idxs] were unfrozen in turn. *)
Definition unfreeze_tower (idxs : list Z) (blocks : list (list bool))
  : result (list (list bool)) :=
  Py.for_each CLIP.unfreeze_block blocks idxs.

(** Every flag of the block number [k] of a tower says whether [k] lies in
    [lo, hi): the blocks from [lo] up to [hi] are trainable, the others
    frozen. *)
Definition tower_state (blocks : list (list bool)) (lo hi : nat) : Prop :=
  forall k blk,
    blocks !! k = Some blk ->
    Forall (fun f => f = ((lo <=? k) && (k <? hi))%nat) blk.

(** The trainable parameters of [fl] are trainable in [fl']. *)
Definition flags_le (fl fl' : CLIP.flags) : Prop :=
  forall p,
    CLIP.requires_grad fl p = Some true ->
    CLIP.requires_grad fl' p = Some true.

(** A block either stays as it is or has all its flags set. *)
Definition block_grows (o o' : option (list bool)) : Prop :=
  o' = o \/ o' = map (fun _ => true) <$> o.

(** The schedule's fields and the flags agree on two trainers. *)
Definition same_schedule `{Extern} (a b : CLIPFinetuner.t) : Prop :=
  CLIPFinetuner.requires_grad (CLIPFinetuner._model b)
    = CLIPFinetuner.requires_grad (CLIPFinetuner._model a)
  /\ CLIPFinetuner._tot_blocks b = CLIPFinetuner._tot_blocks a
  /\ CLIPFinetuner._unfreeze_from b = CLIPFinetuner._unfreeze_from a
  /\ CLIPFinetuner._unfreeze_every b = CLIPFinetuner._unfreeze_every a.

(** The trainer that the loop of [fit] found at its iteration number [k]:
    the initial one, or the one the previous iteration left. *)
Definition trainer_before `{Extern} (init : CLIPFinetuner.t)
    (trace : list (CLIPFinetuner.t * list (event state_dict))) (k : nat)
  : CLIPFinetuner.t :=
  match k with
  | O => init
  | S j =>
      match trace !! j with
      | Some (self, _) => self
      | None => init
      end
  end.

(** The last [c] of the first [T] blocks of each tower are trainable and
    the others frozen; [T] is the depth of the visual tower, the text
    tower is at least as deep, and no block is without parameters. *)
Definition unfrozen_last (fl : CLIP.flags) (T c : nat) : Prop :=
  length (CLIP.visual_resblocks fl) = T
  /\ (T <= length (CLIP.resblocks fl))%nat
  /\ (c <= T)%nat
  /\ tower_state (CLIP.visual_resblocks fl) (T - c) T
  /\ tower_state (CLIP.resblocks fl) (T - c) T
  /\ Forall (fun blk => blk <> []) (CLIP.visual_resblocks fl)
  /\ Forall (fun blk => blk <> []) (CLIP.resblocks fl).

(** What the constructor leaves trainable in a network whose visual tower
    has [T] blocks: the two projections and the block number [T - 1] of
    each tower. *)
Definition trainable_after_init (T : nat) (p : CLIP.param) : bool :=
  match p with
  | CLIP.VisualProj | CLIP.TextProjection => true
  | CLIP.VisualBlock i _ | CLIP.TextBlock i _ => ((T - 1 <=? i) && (i <? T))%nat
  | CLIP.Other _ => false
  end.

(** The epochs are counted from 1, as [fit] prints them.  The schedule is
    due at an epoch that is at least [unfreeze_from] and a multiple of
    [unfreeze_every]. *)
Definition due (unfreeze_from unfreeze_every epoch : Z) : bool :=
  (unfreeze_from <=? epoch) && (epoch mod unfreeze_every =? 0).

(** The number of epochs among the first [n] at which the schedule was
    due. *)
Definition firings (unfreeze_from unfreeze_every : Z) (n : nat) : Z :=
  Z.of_nat
    (length
       (filter (fun k => due unfreeze_from unfreeze_every (Z.of_nat k) = true)
          (seq 1 n))).

(** The blocks unfrozen after [n] epochs: the one of the constructor and
    one more per epoch at which the schedule was due, up to the total. *)
Definition scheduled_blocks (unfreeze_from unfreeze_every tot_blocks : Z)
    (n : nat) : Z :=
  Z.min tot_blocks (1 + firings unfreeze_from unfreeze_every n).

(** The schedule as the claim words it: one more block at the epoch
    [unfreeze_from] and at every [unfreeze_every]-th epoch after it. *)
Definition claimed_due (unfreeze_from unfreeze_every epoch : Z) : bool :=
  (unfreeze_from <=? epoch)
  && ((epoch - unfreeze_from) mod unfreeze_every =? 0).

(** The blocks unfrozen after [n] epochs under the schedule so worded. *)
Definition claimed_blocks (unfreeze_from unfreeze_every tot_blocks : Z)
    (n : nat) : Z :=
  Z.min tot_blocks
    (1 + Z.of_nat
           (length
              (filter
                 (fun k => claimed_due unfreeze_from unfreeze_every (Z.of_nat k) = true)
                 (seq 1 n)))).

(** [ceil(F / N)]. *)
Definition first_multiple (F N : Z) : Z := (F + N - 1) / N.

(** The trainer is where the schedule puts it after [n] epochs. *)
Definition on_schedule `{Extern} (self : CLIPFinetuner.t) (n : nat) : Prop :=
  let fl := CLIPFinetuner.requires_grad (CLIPFinetuner._model self) in
  let T := length (CLIP.visual_resblocks fl) in
  CLIPFinetuner._tot_blocks self = Z.of_nat T
  /\ unfrozen_last fl T
       (Z.to_nat
          (scheduled_blocks (CLIPFinetuner._unfreeze_from self)
             (CLIPFinetuner._unfreeze_every self) (Z.of_nat T) n)).

(** The number of unfrozen blocks in each tower of a trainer. *)
Definition unfrozen_counts `{Extern} (self : CLIPFinetuner.t) : Z * Z :=
  let fl := CLIPFinetuner.requires_grad (CLIPFinetuner._model self) in
  (CLIP.unfrozen_blocks (CLIP.visual_resblocks fl),
   CLIP.unfrozen_blocks (CLIP.resblocks fl)).

(** ** The vocabulary of the further properties *)

(** The text of [s] before its first [sep], and the text after it when
    there is one. *)
Fixpoint before (sep : ascii) (s : string) : string :=
  match s with
  | EmptyString => EmptyString
  | String c s' =>
      if Ascii.eqb c sep then EmptyString else String c (before sep s')
  end.

Fixpoint after (sep : ascii) (s : string) : option string :=
  match s with
  | EmptyString => None
  | String c s' => if Ascii.eqb c sep then Some s' else after sep s'
  end.

(** The line holds a tab character. *)
Definition has_tab (line : string) : bool :=
  match after Py.tab line with Some _ => true | None => false end.

(** The record of a line of the captions file: the text before the first
    tab, as it is, and the text between the first tab and the second (or
    the end of the line), stripped. *)
Definition record_of (line : string) : string * string :=
  (before Py.tab line,
   Py.strip (before Py.tab (default EmptyString (after Py.tab line)))).

(** The character that ends the lines [readlines] returns. *)
Definition line_feed : ascii := ascii_of_nat 10.

(** The text [s] does not start with one of the characters [cs]. *)
Definition kept (cs : list string) (s : string) : bool :=
  match s with
  | EmptyString => true
  | String a s1 =>
      if Py.member (String a EmptyString) cs then false
      else
        match s1 with
        | EmptyString => true
        | String b s2 =>
            if Py.member (String a (String b EmptyString)) cs then false
            else
              match s2 with
              | EmptyString => true
              | String c _ =>
                  negb (Py.member (String a (String b (String c EmptyString))) cs)
              end
        end
  end.

(** No white-space character of several bytes ends with the byte of the
    line feed, in either reading direction, and the line feed is a
    white-space character. *)
Definition splits_at_line_feed (cs : list string) : Prop :=
  Py.member (String line_feed "") cs = true
  /\ (forall a, Py.member (String a (String line_feed "")) cs = false)
  /\ (forall a b,
        Py.member (String a (String b (String line_feed ""))) cs = false).

(** What a caller observes of the call number [n] of a run of calls on a
    fresh early stopper: the writes and the returned flag, as functions of
    the scores reported so far. *)
Definition observed {W} (mode : string) (patience : Z) (dir_path : string)
    (rs : list (EarlyStopping.report W)) (n : nat) (r : EarlyStopping.report W)
  : list (event W) * bool :=
  (if strictly_improves mode (EarlyStopping.val_score r)
        (best_so_far mode (scores_before rs n))
   then [TorchSave (EarlyStopping.model_now r)
           (Py.os_path_join dir_path "checkpoint.pt")]
   else [],
   patience_reached mode patience (scores_before rs (S n))).

(** The parameters that [_unfreeze_blocks(b)] sets trainable in a network
    whose visual tower has [T] blocks: the two projections and the blocks
    of index [T - b] up to [T - 1] of each tower (none for [b <= 0], all of
    the first [T] for [b >= T]). *)
Definition unfrozen_by (T : nat) (b : Z) (p : CLIP.param) : bool :=
  match p with
  | CLIP.VisualProj | CLIP.TextProjection => true
  | CLIP.VisualBlock i _ | CLIP.TextBlock i _ =>
      (Z.of_nat T - b <=? Z.of_nat i) && (Z.of_nat i <? Z.of_nat T)
  | CLIP.Other _ => false
  end.

(** What the early stopper of the trainer held by an entry of the trace of
    [fit] returned at that epoch: the stopper after the call, what the call
    wrote and the flag. *)
Definition stopper_entry `{Extern}
    (x : CLIPFinetuner.t * list (event state_dict))
  : EarlyStopping.t * list (event state_dict) * bool :=
  (CLIPFinetuner._early_stopping (fst x), snd x,
   EarlyStopping._stop (CLIPFinetuner._early_stopping (fst x))).

(** * Properties *)

(** ** The Python fragments on small inputs *)

Example getitem_negative : Py.getitem [10; 20; 30] (-1) = Ok 30.
Proof. reflexivity. Qed.

Example getitem_out_of_range : Py.getitem [10; 20; 30] 3 = Raise IndexError.
Proof. reflexivity. Qed.

Example slice_clamps :
  (Py.slice [1; 2; 3; 4; 5] 0 (-2), Py.slice [1; 2; 3; 4; 5] 3 9)
  = ([1; 2; 3], [4; 5]).
Proof. reflexivity. Qed.

Example join_checkpoint :
  Py.os_path_join "models" "checkpoint.pt" = "models/checkpoint.pt".
Proof. reflexivity. Qed.

Example int_truncates :
  (Py.int_of_float (-2.5)%float, Py.int_of_float 3.75%float,
   Py.int_of_float nan)
  = (Ok (-2), Ok 3, Raise ValueError).
Proof. vm_compute. reflexivity. Qed.

Example strip_beyond_ascii :
  (Py.strip (Py.utf8 0x3000 +:+ " a cat" +:+ Py.utf8 0xA0 +:+ String line_feed ""),
   Py.strip (Py.utf8 0x200B +:+ "a cat"),
   map Py.utf8 [0x85; 0x3000]%N)
  = ("a cat", Py.utf8 0x200B +:+ "a cat",
     [String (ascii_of_nat 194) (String (ascii_of_nat 133) "");
      String (ascii_of_nat 227)
        (String (ascii_of_nat 128) (String (ascii_of_nat 128) ""))]).
Proof. vm_compute. reflexivity. Qed.

Example modulo_by_zero : Py.modulo 7 0 = Raise ZeroDivisionError.
Proof. reflexivity. Qed.

Example randperm_permutes : Py.randperm [3; 1; 2]%nat 4 = [3; 1; 0; 2].
Proof. reflexivity. Qed.

Example chunks_batches :
  DataLoader.chunks 2 [1; 2; 3; 4; 5] 5 = [[1; 2]; [3; 4]; [5]].
Proof. reflexivity. Qed.

(** ** Floats: the order of the comparisons *)

Section FloatOrder.

Lemma SFeqb_refl_nan (f : spec_float) :
  SFeqb f f = false -> f = S754_nan.
Proof.
  unfold SFeqb. destruct f as [s|s| |s m e]; cbn [SFcompare]; try discriminate.
  - destruct s; discriminate.
  - reflexivity.
  - rewrite Z.compare_refl, Pos.compare_cont_refl. destruct s; discriminate.
Qed.

Lemma is_nan_spec (x : float) :
  PrimFloat.is_nan x = true <-> Prim2SF x = S754_nan.
Proof.
  unfold PrimFloat.is_nan. rewrite negb_true_iff, FloatAxioms.eqb_spec. split.
  - apply SFeqb_refl_nan.
  - intros ->. reflexivity.
Qed.

Local Ltac order_cases :=
  repeat match goal with
         | s : bool |- _ => destruct s
         end;
  cbn [SFcompare CompOpp] in *;
  repeat match goal with
         | |- context [Z.compare ?a ?b] => destruct (Z.compare_spec a b)
         | H : context [Z.compare ?a ?b] |- _ => destruct (Z.compare_spec a b)
         | |- context [Pos.compare_cont Eq ?a ?b] =>
             change (Pos.compare_cont Eq a b) with (Pos.compare a b);
             destruct (Pos.compare_spec a b)
         | H : context [Pos.compare_cont Eq ?a ?b] |- _ =>
             change (Pos.compare_cont Eq a b) with (Pos.compare a b) in H;
             destruct (Pos.compare_spec a b)
         end;
  cbn [CompOpp] in *; try discriminate; try tauto; try lia.

(** [<] on the floats that are not NaN is a strict weak order. *)
Lemma SFltb_asym (a b : spec_float) :
  SFltb a b = true -> SFltb b a = false.
Proof.
  unfold SFltb.
  destruct a as [s1|s1| |s1 m1 e1], b as [s2|s2| |s2 m2 e2]; order_cases.
Qed.

Lemma SFltb_neg_trans (a b c : spec_float) :
  SFltb a c = true -> b <> S754_nan ->
  SFltb a b = true \/ SFltb b c = true.
Proof.
  unfold SFltb.
  destruct a as [s1|s1| |s1 m1 e1], b as [s2|s2| |s2 m2 e2],
           c as [s3|s3| |s3 m3 e3]; intros Hac Hb; try congruence;
    order_cases.
Qed.

Lemma ltb_asym (a b : float) :
  PrimFloat.ltb a b = true -> PrimFloat.ltb b a = false.
Proof. rewrite !ltb_spec. apply SFltb_asym. Qed.

Lemma ltb_neg_trans (a b c : float) :
  PrimFloat.ltb a c = true -> PrimFloat.is_nan b = false ->
  PrimFloat.ltb a b = true \/ PrimFloat.ltb b c = true.
Proof.
  rewrite !ltb_spec. intros Hac Hb. apply SFltb_neg_trans; [exact Hac|].
  intros E. apply is_nan_spec in E. congruence.
Qed.

Lemma ltb_not_nan (a b : float) :
  PrimFloat.ltb a b = true ->
  PrimFloat.is_nan a = false /\ PrimFloat.is_nan b = false.
Proof.
  rewrite ltb_spec. unfold SFltb. intros H.
  split; (destruct (PrimFloat.is_nan _) eqn:E; [|reflexivity]);
    apply is_nan_spec in E; rewrite E in H; cbn [SFcompare] in H;
    [discriminate|destruct (Prim2SF a); discriminate].
Qed.

End FloatOrder.

(** ** Early stopping: an object tracks the history of its scores *)

Section EarlyStoppingFacts.

Import EarlyStopping.

Context {W : Type}.

Lemma best_so_far_None mode past :
  best_so_far mode past = None -> past = [].
Proof.
  destruct past as [|s older]; [reflexivity|].
  simpl. destruct (best_so_far mode older); [|discriminate].
  destruct (strictly_improves mode s (Some f)); discriminate.
Qed.

Lemma tracks_init patience dir_path mode :
  tracks (__init__ patience dir_path mode) [].
Proof. repeat split. Qed.

Local Ltac call_result :=
  apply (f_equal Ok); apply (f_equal2 pair); reflexivity.

(** One call, on any object: it never raises, and its effect is decided by
    whether the score strictly improves on the stored best score. *)
Lemma call_cases (model : W) (self : t) (tl vl vs : float) :
  exists self' out,
    __call__ model self tl vl vs = Ok (self', out, _stop self')
    /\ _mode self' = _mode self
    /\ _patience self' = _patience self
    /\ _dir_path self' = _dir_path self
    /\ match _best_score self with
       | None =>
           out = [] /\ _best_score self' = Some vs
           /\ _counter self' = _counter self /\ _stop self' = _stop self
       | Some b =>
           if strictly_improves (_mode self) vs (Some b) then
             out = [TorchSave model (Py.os_path_join (_dir_path self) "checkpoint.pt")]
             /\ _best_score self' = Some vs
             /\ _counter self' = 0 /\ _stop self' = _stop self
           else
             out = [] /\ _best_score self' = Some b
             /\ _counter self' = _counter self + 1
             /\ _stop self' = (_stop self || (_patience self <=? _counter self + 1))
       end.
Proof.
  unfold __call__, _is_improvement, strictly_improves.
  destruct self as [p best c mode stop dir l1 l2 l3]; simpl.
  destruct best as [b|]; simpl.
  - destruct (String.eqb mode "max"); simpl.
    + destruct (PrimFloat.ltb b vs); simpl.
      * eexists _, _; split; [call_result|]; simpl; auto 10.
      * rewrite Z.geb_leb.
        destruct (p <=? c + 1) eqn:E; simpl;
          (eexists _, _; split; [call_result|]; simpl;
           rewrite ?orb_true_r, ?orb_false_r; auto 10).
    + destruct (PrimFloat.ltb vs b); simpl.
      * eexists _, _; split; [call_result|]; simpl; auto 10.
      * rewrite Z.geb_leb.
        destruct (p <=? c + 1) eqn:E; simpl;
          (eexists _, _; split; [call_result|]; simpl;
           rewrite ?orb_true_r, ?orb_false_r; auto 10).
  - eexists _, _; split; [call_result|]; simpl; auto 10.
Qed.

(** A call moves an object that tracks [past] to one that tracks the
    history extended by the new score. *)
Lemma call_tracks (model : W) (self : t) (tl vl vs : float) past :
  tracks self past ->
  exists self' out,
    __call__ model self tl vl vs = Ok (self', out, _stop self')
    /\ _mode self' = _mode self
    /\ _patience self' = _patience self
    /\ _dir_path self' = _dir_path self
    /\ tracks self' (vs :: past)
    /\ (if strictly_improves (_mode self) vs (best_so_far (_mode self) past)
        then out = [TorchSave model (Py.os_path_join (_dir_path self) "checkpoint.pt")]
             /\ _best_score self' = Some vs /\ _counter self' = 0
        else out = []).
Proof.
  intros (Hb & Hc & Hs).
  destruct (call_cases model self tl vl vs) as (self' & out & Hcall & Hm & Hp & Hd & Hcase).
  exists self', out. rewrite Hcall, Hm, Hp, Hd.
  split; [reflexivity|]. do 3 (split; [reflexivity|]).
  unfold tracks. rewrite Hm, Hp. simpl. unfold non_improving.
  rewrite <- Hb.
  destruct (_best_score self) as [b|] eqn:Eb.
  - destruct (strictly_improves (_mode self) vs (Some b)) eqn:Ei; simpl.
    + destruct Hcase as (-> & -> & -> & ->).
      rewrite Hs, orb_false_r. auto.
    + destruct Hcase as (-> & -> & -> & ->).
      rewrite Hs, Hc. auto.
  - destruct Hcase as (-> & -> & -> & ->).
    symmetry in Hb. apply best_so_far_None in Hb. subst past.
    simpl in *. rewrite Hs, Hc. auto.
Qed.

(** A run of calls from an object that tracks [past]: no call raises, and
    after the call number [n] the object tracks the scores reported up to
    it. *)
Lemma calls_track (rs : list (report W)) :
  forall (self : t) past,
    tracks self past ->
    exists results,
      calls self rs = Ok results
      /\ length results = length rs
      /\ forall n r self_n out stop,
           rs !! n = Some r ->
           results !! n = Some (self_n, out, stop) ->
           stop = _stop self_n
           /\ _mode self_n = _mode self
           /\ _patience self_n = _patience self
           /\ tracks self_n (scores_before rs (S n) ++ past)
           /\ (if strictly_improves (_mode self) (val_score r)
                    (best_so_far (_mode self) (scores_before rs n ++ past))
               then out = [TorchSave (model_now r)
                             (Py.os_path_join (_dir_path self) "checkpoint.pt")]
                    /\ _best_score self_n = Some (val_score r)
                    /\ _counter self_n = 0
               else out = []).
Proof.
  induction rs as [|r rs IH]; intros self past Htr.
  - exists []. split; [reflexivity|]. split; [reflexivity|].
    intros n r self_n out stop Hn. rewrite lookup_nil in Hn. discriminate.
  - destruct (call_tracks (model_now r) self (train_loss r) (val_loss r)
                (val_score r) past Htr)
      as (self' & out & Hcall & Hm & Hp & Hd & Htr' & Hout).
    destruct (IH self' (val_score r :: past) Htr') as (results & Hrun & Hlen & Hres).
    exists ((self', out, _stop self') :: results).
    split; [simpl; rewrite Hcall; simpl; rewrite Hrun; reflexivity|].
    split; [simpl; congruence|].
    intros n r0 self_n out0 stop Hr Hn.
    destruct n as [|n]; simpl in Hr, Hn.
    + inversion Hr; inversion Hn; subst. clear Hr Hn.
      unfold scores_before; simpl.
      split; [reflexivity|]. do 2 (split; [assumption|]).
      split; [exact Htr'|exact Hout].
    + specialize (Hres n r0 self_n out0 stop Hr Hn).
      rewrite Hm, Hp, Hd in Hres.
      unfold scores_before in *. simpl take. simpl map. simpl rev.
      rewrite <- !app_assoc. simpl. exact Hres.
Qed.

(** A sequence of calls never raises, and each of its entries is the
    result of [__call__] on the object the previous entry left. *)
Lemma calls_unfold (rs : list (report W)) :
  forall self : t,
    exists results,
      calls self rs = Ok results
      /\ length results = length rs
      /\ forall n r,
           rs !! n = Some r ->
           exists self_n out,
             results !! n = Some (self_n, out, _stop self_n)
             /\ __call__ (model_now r) (state_before self results n)
                  (train_loss r) (val_loss r) (val_score r)
                = Ok (self_n, out, _stop self_n).
Proof.
  induction rs as [|r rs IH]; intros self.
  - exists []. split; [reflexivity|]. split; [reflexivity|].
    intros n r Hn. rewrite lookup_nil in Hn. discriminate.
  - destruct (call_cases (model_now r) self (train_loss r) (val_loss r)
                (val_score r)) as (self' & out & Hcall & _).
    destruct (IH self') as (results & Hrun & Hlen & Hres).
    exists ((self', out, _stop self') :: results).
    split; [simpl; rewrite Hcall; simpl; rewrite Hrun; reflexivity|].
    split; [simpl; congruence|].
    intros n r0 Hr. destruct n as [|n]; simpl in Hr.
    + inversion Hr; subst. exists self', out. split; [reflexivity|exact Hcall].
    + destruct (Hres n r0 Hr) as (self_n & out_n & Hn & Hc).
      exists self_n, out_n. split; [exact Hn|].
      destruct n as [|n]; simpl in *; [exact Hc|].
      destruct (results !! n) as [[[s ?] ?]|] eqn:En; [exact Hc|].
      apply lookup_ge_None in En. apply lookup_lt_Some in Hn. lia.
Qed.

(** A set stop flag survives any call. *)
Lemma call_keeps_stop (model : W) (self : t) (tl vl vs : float) self' out stop :
  _stop self = true ->
  __call__ model self tl vl vs = Ok (self', out, stop) ->
  stop = true /\ _stop self' = true.
Proof.
  intros Hs Hcall.
  destruct (call_cases model self tl vl vs) as (s & o & Hc & _ & _ & _ & Hcase).
  rewrite Hc in Hcall. inversion Hcall; subst. clear Hcall.
  destruct (_best_score self) as [b|].
  - destruct (strictly_improves (_mode self) vs (Some b)).
    + destruct Hcase as (_ & _ & _ & ->). auto.
    + destruct Hcase as (_ & _ & _ & ->). rewrite Hs. auto.
  - destruct Hcase as (_ & _ & _ & ->). auto.
Qed.

End EarlyStoppingFacts.

(** ** Early stopping: the best of the scores reported *)

Section BestScore.

Import EarlyStopping.

Context {W : Type}.

Lemma improves_asym mode (x y : float) :
  strictly_improves mode x (Some y) = true ->
  strictly_improves mode y (Some x) = false.
Proof.
  unfold strictly_improves. destruct (String.eqb mode "max"); apply ltb_asym.
Qed.

Lemma improves_irrefl mode (x : float) :
  strictly_improves mode x (Some x) = false.
Proof.
  destruct (strictly_improves mode x (Some x)) eqn:E; [|reflexivity].
  pose proof (improves_asym _ _ _ E). congruence.
Qed.

Lemma improves_neg_trans mode (x y z : float) :
  strictly_improves mode x (Some z) = true ->
  PrimFloat.is_nan y = false ->
  strictly_improves mode x (Some y) = true
  \/ strictly_improves mode y (Some z) = true.
Proof.
  unfold strictly_improves. destruct (String.eqb mode "max"); intros Hxz Hy.
  - destruct (ltb_neg_trans _ y _ Hxz Hy); auto.
  - apply ltb_neg_trans; assumption.
Qed.

Lemma improves_not_nan mode (x y : float) :
  strictly_improves mode x (Some y) = true ->
  PrimFloat.is_nan x = false /\ PrimFloat.is_nan y = false.
Proof.
  unfold strictly_improves. destruct (String.eqb mode "max"); intros Hxy;
    apply ltb_not_nan in Hxy; tauto.
Qed.

(** Two best scores of the same history are improved on by the same
    scores. *)
Lemma best_score_of_same mode past (b b' s : float) :
  best_score_of mode past b -> best_score_of mode past b' ->
  strictly_improves mode s (Some b) = strictly_improves mode s (Some b').
Proof.
  assert (Hone : forall b b',
             best_score_of mode past b -> best_score_of mode past b' ->
             strictly_improves mode s (Some b) = true ->
             strictly_improves mode s (Some b') = true).
  { intros c c' (Hin & Hn & Hbest) (Hin' & Hn' & Hbest') Hs.
    destruct (improves_neg_trans mode s c' c Hs Hn') as [E|E]; [exact E|].
    rewrite (Hbest c' Hin') in E. discriminate. }
  intros Hb Hb'.
  destruct (strictly_improves mode s (Some b)) eqn:E.
  - symmetry. exact (Hone b b' Hb Hb' E).
  - destruct (strictly_improves mode s (Some b')) eqn:E'; [|reflexivity].
    rewrite (Hone b' b Hb' Hb E') in E. discriminate.
Qed.

(** When the first score reported is not a NaN, the score that the object
    keeps is a best score of those reported. *)
Lemma best_so_far_is_best mode (s0 : float) (recent : list float) :
  PrimFloat.is_nan s0 = false ->
  exists b,
    best_so_far mode (recent ++ [s0]) = Some b
    /\ best_score_of mode (recent ++ [s0]) b.
Proof.
  intros H0. induction recent as [|s recent (b & Hb & Hin & Hn & Hbest)].
  - exists s0. split; [reflexivity|]. split; [left; reflexivity|].
    split; [exact H0|]. intros s [<-|[]]. apply improves_irrefl.
  - cbn [app best_so_far]. rewrite Hb.
    destruct (strictly_improves mode s (Some b)) eqn:E.
    + exists s. split; [reflexivity|]. split; [left; reflexivity|].
      split; [apply (improves_not_nan _ _ _ E)|].
      intros x [<-|Hx]; [apply improves_irrefl|].
      destruct (strictly_improves mode x (Some s)) eqn:Ex; [|reflexivity].
      destruct (improves_neg_trans mode x b s Ex Hn) as [E1|E1].
      * rewrite (Hbest x Hx) in E1. discriminate.
      * rewrite (improves_asym _ _ _ E) in E1. discriminate.
    + exists b. split; [reflexivity|]. split; [right; exact Hin|].
      split; [exact Hn|]. intros x [<-|Hx]; [exact E|apply Hbest; exact Hx].
Qed.

End BestScore.

(** ** Early stopping: the claims *)

(** C2, the claim as stated fails: in mode "max" with the scores NaN, 1.0
    and 2.0, the best of the scores reported before the third call is 1.0
    and the third score, 2.0, strictly improves on it, yet no call writes
    a checkpoint: the object keeps the NaN of the first call as its best
    score, and no score compares greater than a NaN. *)
Example checkpoint_missed_after_nan_first_score :
  match EarlyStopping.calls (EarlyStopping.__init__ 50 "models" "max")
          [scored nan; scored 1.0; scored 2.0] with
  | Ok results => map (fun x => snd (fst x)) results
  | Raise _ => [[TorchSave tt "raised"]]
  end = [[]; []; []]
  /\ scores_before [scored nan; scored 1.0; scored 2.0] 2 = [1.0; nan]%float
  /\ best_score_of "max" [1.0; nan]%float 1.0%float
  /\ strictly_improves "max" 2.0%float (Some 1.0%float) = true.
Proof.
  split; [vm_compute; reflexivity|]. split; [reflexivity|].
  split; [|vm_compute; reflexivity].
  split; [left; reflexivity|]. split; [vm_compute; reflexivity|].
  intros s [<-|[<-|[]]]; vm_compute; reflexivity.
Qed.

(** C2, amended.  A call on an object that holds a best score writes the
    checkpoint exactly when its score strictly improves on that score
    (strictly greater in mode "max", strictly smaller in mode "min"); it
    then stores the new score and sets the counter to 0 whatever it was,
    and otherwise writes nothing, keeps the best score and adds 1 to the
    counter.  In a sequence of calls on a freshly built [EarlyStopping]
    whose first score is not a NaN, the first call writes nothing, and at
    every later call the scores reported before it have a best score (one
    of them, not a NaN, on which none of them strictly improves): the call
    writes the checkpoint, stores its score and resets the counter to 0
    when its score strictly improves on that best score, and otherwise
    writes nothing, leaves the best score as the call found it and
    increments the counter. *)
Theorem checkpoint_iff_strict_improvement {W : Type} :
  (forall (model : W) (self : EarlyStopping.t) (tl vl vs b : float),
     EarlyStopping._best_score self = Some b ->
     exists self' stop,
       EarlyStopping.__call__ model self tl vl vs
       = Ok (self',
             if strictly_improves (EarlyStopping._mode self) vs (Some b)
             then [TorchSave model
                     (Py.os_path_join (EarlyStopping._dir_path self)
                        "checkpoint.pt")]
             else [],
             stop)
       /\ if strictly_improves (EarlyStopping._mode self) vs (Some b)
          then EarlyStopping._best_score self' = Some vs
               /\ EarlyStopping._counter self' = 0
          else EarlyStopping._best_score self' = Some b
               /\ EarlyStopping._counter self'
                  = EarlyStopping._counter self + 1)
  /\ (forall (patience : Z) (dir_path mode : string)
        (r0 : EarlyStopping.report W) (rs : list (EarlyStopping.report W)),
      PrimFloat.is_nan (EarlyStopping.val_score r0) = false ->
      let init := EarlyStopping.__init__ patience dir_path mode in
      exists results,
        EarlyStopping.calls init (r0 :: rs) = Ok results
        /\ length results = length (r0 :: rs)
        /\ forall n r self out stop,
             (r0 :: rs) !! n = Some r ->
             results !! n = Some (self, out, stop) ->
             match n with
             | O => out = []
             | S _ =>
                 let past := scores_before (r0 :: rs) n in
                 let before := state_before init results n in
                 (exists b, best_score_of mode past b)
                 /\ forall b,
                      best_score_of mode past b ->
                      if strictly_improves mode (EarlyStopping.val_score r) (Some b)
                      then out = [TorchSave (EarlyStopping.model_now r)
                                    (Py.os_path_join dir_path "checkpoint.pt")]
                           /\ EarlyStopping._best_score self
                              = Some (EarlyStopping.val_score r)
                           /\ EarlyStopping._counter self = 0
                      else out = []
                           /\ EarlyStopping._best_score self
                              = EarlyStopping._best_score before
                           /\ EarlyStopping._counter self
                              = EarlyStopping._counter before + 1
             end).
Proof.
  split.
  - intros model self tl vl vs b Hb.
    destruct (call_cases model self tl vl vs)
      as (self' & out & Hcall & _ & _ & _ & Hcase).
    rewrite Hb in Hcase. exists self', (EarlyStopping._stop self').
    destruct (strictly_improves (EarlyStopping._mode self) vs (Some b));
      destruct Hcase as (-> & Hbest & Hc & _); auto.
  - intros patience dir_path mode r0 rs H0 init.
    destruct (calls_track (r0 :: rs) init [] (tracks_init patience dir_path mode))
      as (results & Hrun & Hlen & Htr).
    destruct (calls_unfold (r0 :: rs) init) as (results' & Hrun' & _ & Hun).
    rewrite Hrun in Hrun'. inversion Hrun'; subst results'. clear Hrun'.
    exists results. split; [exact Hrun|]. split; [exact Hlen|].
    intros n r self out stop Hr Hn.
    destruct (Hun n r Hr) as (self_n & out_n & Hn' & Hcall).
    rewrite Hn in Hn'. inversion Hn'; subst self_n out_n. clear Hn'.
    destruct n as [|k].
    + cbn [state_before] in Hcall.
      destruct (call_cases (EarlyStopping.model_now r) init
                  (EarlyStopping.train_loss r) (EarlyStopping.val_loss r)
                  (EarlyStopping.val_score r))
        as (s' & o' & Hc' & _ & _ & _ & Hcase).
      rewrite Hcall in Hc'. inversion Hc'; subst o'.
      cbn [EarlyStopping._best_score init EarlyStopping.__init__] in Hcase.
      tauto.
    + intros past before.
      assert (Hk : exists rk sk ok bk,
                 (r0 :: rs) !! k = Some rk /\ results !! k = Some (sk, ok, bk)).
      { assert (Hlt : (k < length results)%nat)
          by (apply lookup_lt_Some in Hn; lia).
        destruct (lookup_lt_is_Some_2 results k Hlt) as [[[sk ok] bk] Hsk].
        rewrite Hlen in Hlt.
        destruct (lookup_lt_is_Some_2 (r0 :: rs) k Hlt) as [rk Hrk].
        eauto 10. }
      destruct Hk as (rk & sk & ok & bk & Hrk & Hsk).
      destruct (Htr k rk sk ok bk Hrk Hsk) as (_ & Hm & _ & (Hbest & _ & _) & _).
      rewrite app_nil_r in Hbest. rewrite Hm in Hbest.
      cbn [EarlyStopping._mode init EarlyStopping.__init__] in Hbest, Hm.
      assert (Hbefore : before = sk)
        by (unfold before; cbn [state_before]; rewrite Hsk; reflexivity).
      assert (Hpast : past
                      = rev (map EarlyStopping.val_score (take k rs))
                          ++ [EarlyStopping.val_score r0])
        by reflexivity.
      destruct (best_so_far_is_best mode (EarlyStopping.val_score r0)
                  (rev (map EarlyStopping.val_score (take k rs))) H0)
        as (b0 & Hb0 & Hbest0).
      rewrite <- Hpast in Hb0, Hbest0. fold past in Hbest.
      split; [exists b0; exact Hbest0|].
      intros b Hb. rewrite (best_score_of_same mode past b b0 _ Hb Hbest0).
      fold before in Hcall. rewrite Hbefore in *.
      destruct (call_cases (EarlyStopping.model_now r) sk
                  (EarlyStopping.train_loss r) (EarlyStopping.val_loss r)
                  (EarlyStopping.val_score r))
        as (s' & o' & Hc' & _ & _ & Hd & Hcase).
      rewrite Hcall in Hc'. inversion Hc'; subst s' o'. clear Hc'.
      rewrite Hbest, Hb0, Hm in Hcase.
      destruct (Htr (S k) r self out stop Hr Hn) as (_ & _ & _ & _ & Hout).
      rewrite app_nil_r in Hout.
      cbn [EarlyStopping._mode EarlyStopping._dir_path init
           EarlyStopping.__init__] in Hout.
      fold past in Hout. rewrite Hb0 in Hout.
      destruct (strictly_improves mode (EarlyStopping.val_score r) (Some b0)).
      * exact Hout.
      * destruct Hcase as (_ & -> & -> & _). rewrite Hbest, Hb0. auto.
Qed.

(** C2 on a run in mode "max": after the scores 1.0, 0.5 and 0.25 the
    counter is 2; the fourth score, 2.0, strictly improves on the best
    score 1.0, so the call writes the checkpoint, stores 2.0 and resets
    the counter to 0. *)
Lemma checkpoint_iff_strict_improvement_witness :
  exists results self stop,
    EarlyStopping.calls (EarlyStopping.__init__ 50 "models" "max")
      [scored 1.0; scored 0.5; scored 0.25; scored 2.0] = Ok results
    /\ EarlyStopping._counter
         (state_before (EarlyStopping.__init__ 50 "models" "max") results 3) = 2
    /\ results !! 3%nat
       = Some (self, [TorchSave tt "models/checkpoint.pt"], stop)
    /\ EarlyStopping._best_score self = Some 2.0%float
    /\ EarlyStopping._counter self = 0.
Proof.
  destruct (proj2 (@checkpoint_iff_strict_improvement unit) 50 "models" "max"
              (scored 1.0) [scored 0.5; scored 0.25; scored 2.0] eq_refl)
    as (results & Hrun & _ & Hcalls).
  pose proof Hrun as Hv. vm_compute in Hv. inversion Hv as [Hres]. clear Hv.
  subst results.
  destruct (Hcalls 3%nat (scored 2.0) _ _ _ eq_refl eq_refl) as [_ Hall].
  assert (Hbest : best_score_of "max"
                    (scores_before
                       [scored 1.0; scored 0.5; scored 0.25; scored 2.0] 3)
                    1.0%float).
  { split; [right; right; left; reflexivity|].
    split; [vm_compute; reflexivity|].
    intros s [<-|[<-|[<-|[]]]]; vm_compute; reflexivity. }
  specialize (Hall 1.0%float Hbest).
  replace (strictly_improves "max" (EarlyStopping.val_score (scored 2.0))
             (Some 1.0%float)) with true in Hall by (vm_compute; reflexivity).
  destruct Hall as (_ & Hb & Hc).
  eexists _, _, _. split; [exact Hrun|].
  split; [reflexivity|]. split; [reflexivity|]. split; [exact Hb|exact Hc].
Defined.

(** C4, the claim as stated fails, in two ways.  With patience 1 in mode
    "max", the scores 1.0, 0.5, 2.0 make the third call return [True]
    although it is an improvement, after which the count of non-improving
    calls since the last improvement is 0: the flag is kept from the
    second call.  With patience 0, the scores 1.0 and 2.0 make the first
    call and the improving call after it return [False] although the
    count, 0, has reached the patience: the flag is only set by a
    non-improving call. *)
Example stop_with_count_below_patience :
  (match EarlyStopping.calls (EarlyStopping.__init__ 1 "models" "max")
           [scored 1.0; scored 0.5; scored 2.0] with
   | Ok results =>
       map (fun x => (snd x, EarlyStopping._counter (fst (fst x)))) results
   | Raise _ => []
   end,
   stagnation_count "max" [2.0; 0.5; 1.0]%float)
  = ([(false, 0); (true, 1); (true, 0)], 0)
  /\ (match EarlyStopping.calls (EarlyStopping.__init__ 0 "models" "max")
              [scored 1.0; scored 2.0] with
      | Ok results =>
          map (fun x => (snd x, EarlyStopping._counter (fst (fst x)))) results
      | Raise _ => []
      end,
      map (stagnation_count "max") [[1.0]; [2.0; 1.0]]%float)
     = ([(false, 0); (false, 0)], [0; 0]).
Proof. split; vm_compute; reflexivity. Qed.

(** C4, amended.  A non-improving call (one that finds a best score and
    does not strictly improve on it) increments the counter by exactly 1.
    In any sequence of calls on a freshly built [EarlyStopping], the
    counter after each call is the count of non-improving calls since the
    last improvement (or since the first call), and a call returns [True]
    exactly when this call or an earlier one was a non-improving call that
    brought that count to the patience or beyond: the flag is set by
    non-improving calls only (whatever the patience, the first call and an
    improving call do not set it) and, once set, stays. *)
Theorem stop_iff_patience_was_reached {W : Type} :
  (forall (model : W) (self : EarlyStopping.t) (tl vl vs b : float),
     EarlyStopping._best_score self = Some b ->
     strictly_improves (EarlyStopping._mode self) vs (Some b) = false ->
     exists self' stop,
       EarlyStopping.__call__ model self tl vl vs = Ok (self', [], stop)
       /\ EarlyStopping._counter self' = EarlyStopping._counter self + 1)
  /\ (forall (patience : Z) (dir_path mode : string)
        (rs : list (EarlyStopping.report W)),
      exists results,
        EarlyStopping.calls (EarlyStopping.__init__ patience dir_path mode) rs
          = Ok results
        /\ length results = length rs
        /\ forall n self out stop,
             results !! n = Some (self, out, stop) ->
             EarlyStopping._counter self
               = stagnation_count mode (scores_before rs (S n))
             /\ stop = patience_reached mode patience (scores_before rs (S n))).
Proof.
  split.
  - intros model self tl vl vs b Hb Hni.
    destruct (call_cases model self tl vl vs)
      as (self' & out & Hcall & _ & _ & _ & Hcase).
    rewrite Hb, Hni in Hcase. destruct Hcase as (-> & _ & Hc & _).
    exists self', (EarlyStopping._stop self'). split; [exact Hcall|exact Hc].
  - intros patience dir_path mode rs.
    destruct (calls_track rs (EarlyStopping.__init__ patience dir_path mode) []
                (tracks_init patience dir_path mode))
      as (results & Hrun & Hlen & Hres).
    exists results. split; [exact Hrun|]. split; [exact Hlen|].
    intros n self out stop Hn.
    assert (Hlt : (n < length rs)%nat)
      by (rewrite <- Hlen; eapply lookup_lt_Some; exact Hn).
    destruct (lookup_lt_is_Some_2 rs n Hlt) as [r Hr].
    destruct (Hres n r self out stop Hr Hn) as (Hs & Hm & Hp & Htr & _).
    rewrite app_nil_r in Htr. destruct Htr as (_ & Hc & Hst).
    simpl in Hm, Hp. rewrite Hm in Hc, Hst. rewrite Hp in Hst.
    split; [exact Hc|]. rewrite Hs. exact Hst.
Qed.

(** C10.  Once a call has returned [True], every later call returns
    [True] whatever it is given; a later call whose score strictly
    improves on the stored best score still writes the checkpoint and
    resets the counter to 0, and still returns [True]. *)
Theorem stop_is_sticky {W : Type}
    (self : EarlyStopping.t) (r : EarlyStopping.report W)
    (self1 : EarlyStopping.t) (out1 : list (event W))
    (rs : list (EarlyStopping.report W)) :
  EarlyStopping.__call__ (EarlyStopping.model_now r) self
    (EarlyStopping.train_loss r) (EarlyStopping.val_loss r)
    (EarlyStopping.val_score r) = Ok (self1, out1, true) ->
  exists results,
    EarlyStopping.calls self1 rs = Ok results
    /\ length results = length rs
    /\ forall n r_n self_n out_n stop_n,
         rs !! n = Some r_n ->
         results !! n = Some (self_n, out_n, stop_n) ->
         stop_n = true
         /\ EarlyStopping._stop self_n = true
         /\ (strictly_improves (EarlyStopping._mode self1)
               (EarlyStopping.val_score r_n)
               (EarlyStopping._best_score (state_before self1 results n)) = true ->
             out_n = [TorchSave (EarlyStopping.model_now r_n)
                        (Py.os_path_join (EarlyStopping._dir_path self1)
                           "checkpoint.pt")]
             /\ EarlyStopping._counter self_n = 0).
Proof.
  intros Hfirst.
  assert (Hs1 : EarlyStopping._stop self1 = true).
  { destruct (call_cases (EarlyStopping.model_now r) self
                (EarlyStopping.train_loss r) (EarlyStopping.val_loss r)
                (EarlyStopping.val_score r)) as (s & o & Hc & _).
    rewrite Hc in Hfirst. inversion Hfirst; subst; congruence. }
  destruct (calls_unfold rs self1) as (results & Hrun & Hlen & Hres).
  exists results. split; [exact Hrun|]. split; [exact Hlen|].
  assert (Hinv : forall n,
             EarlyStopping._stop (state_before self1 results n) = true
             /\ EarlyStopping._mode (state_before self1 results n)
                = EarlyStopping._mode self1
             /\ EarlyStopping._dir_path (state_before self1 results n)
                = EarlyStopping._dir_path self1).
  { induction n as [|n IHn]; [simpl; auto|].
    simpl. destruct (results !! n) as [[[s o] b]|] eqn:En; [|auto].
    assert (Hlt : (n < length rs)%nat)
      by (rewrite <- Hlen; eapply lookup_lt_Some; exact En).
    destruct (lookup_lt_is_Some_2 rs n Hlt) as [rn Hrn].
    destruct (Hres n rn Hrn) as (sn & on & Hn & Hc).
    rewrite En in Hn. inversion Hn; subst. clear Hn.
    destruct IHn as (Hst & Hmo & Hdi).
    destruct (call_keeps_stop _ _ _ _ _ _ _ _ Hst Hc) as [_ Hk].
    destruct (call_cases (EarlyStopping.model_now rn)
                (state_before self1 results n)
                (EarlyStopping.train_loss rn) (EarlyStopping.val_loss rn)
                (EarlyStopping.val_score rn))
      as (s' & o' & Hc' & Hm' & _ & Hd' & _).
    rewrite Hc in Hc'. inversion Hc'; subst.
    split; [exact Hk|]. split; congruence. }
  intros n r_n self_n out_n stop_n Hr Hn.
  destruct (Hres n r_n Hr) as (sn & on & Hn' & Hc).
  rewrite Hn in Hn'. inversion Hn'; subst. clear Hn'.
  destruct (Hinv n) as (Hst & Hmo & Hdi).
  destruct (call_keeps_stop _ _ _ _ _ _ _ _ Hst Hc) as [Hk1 Hk2].
  split; [exact Hk1|]. split; [exact Hk2|].
  intros Himp.
  destruct (call_cases (EarlyStopping.model_now r_n)
              (state_before self1 results n)
              (EarlyStopping.train_loss r_n) (EarlyStopping.val_loss r_n)
              (EarlyStopping.val_score r_n))
    as (s' & o' & Hc' & _ & _ & _ & Hcase).
  rewrite Hc in Hc'. inversion Hc'; subst s' o'.
  rewrite Hmo, Hdi in Hcase.
  destruct (EarlyStopping._best_score (state_before self1 results n)) as [b|].
  - rewrite Himp in Hcase. destruct Hcase as (-> & _ & -> & _). auto.
  - discriminate Himp.
Qed.

(** C10 on a run: patience 1 in mode "max"; after the scores 1.0 and 0.5
    the second call returns [True], and the calls with 2.0 (an
    improvement) and 0.25 return [True] as well. *)
Lemma stop_is_sticky_witness :
  exists results,
    EarlyStopping.calls
      (EarlyStopping.mk 1 (Some 1.0%float) 1 "max" true "models"
         [0%float; 0%float] [0%float; 0%float] [1.0%float; 0.5%float])
      [scored 2.0; scored 0.25] = Ok results
    /\ map snd results = [true; true]
    /\ map (fun x => snd (fst x)) results
       = [[TorchSave tt "models/checkpoint.pt"]; []].
Proof.
  destruct (stop_is_sticky
              (EarlyStopping.mk 1 (Some 1.0%float) 0 "max" false "models"
                 [0%float] [0%float] [1.0%float])
              (scored 0.5)
              (EarlyStopping.mk 1 (Some 1.0%float) 1 "max" true "models"
                 [0%float; 0%float] [0%float; 0%float] [1.0%float; 0.5%float])
              [] [scored 2.0; scored 0.25] eq_refl)
    as (results & Hrun & _).
  exists results. split; [exact Hrun|].
  vm_compute in Hrun. inversion Hrun. split; reflexivity.
Defined.

(** ** The dataset and the loaders *)

Section DatasetFacts.

Context `{Extern}.

(** A valid index reads the element at its position. *)
Lemma getitem_at {A} (l : list A) (i : Z) (k : nat) (x : A) :
  Py.index (Z.of_nat (length l)) i = Ok k ->
  l !! k = Some x ->
  Py.getitem l i = Ok x.
Proof.
  intros Hi Hx. unfold Py.getitem. rewrite Hi. simpl. rewrite Hx. reflexivity.
Qed.

(** What [__getitem__] returns once the pair is read and the file opened. *)
Lemma dataset_getitem_value (self : ImageCaptionDataset.t) (idx : Z)
    (name text : string) (raw : image) :
  Py.getitem (ImageCaptionDataset._image_caption_pairs self) idx = Ok (name, text) ->
  Image_open (Py.os_path_join (ImageCaptionDataset._images_dir self) name) = Some raw ->
  ImageCaptionDataset.__getitem__ self idx
  = Ok (if String.eqb (ImageCaptionDataset.mode self) "train"
        then (image_augmenter (convert_RGB raw), text_augmenter text)
        else (convert_RGB raw, text)).
Proof.
  intros Hp Ho. unfold ImageCaptionDataset.__getitem__.
  rewrite Hp. simpl. rewrite Ho. simpl.
  destruct (String.eqb (ImageCaptionDataset.mode self) "train"); reflexivity.
Qed.

(** Conversely, a sample that [__getitem__] returned was built that way. *)
Lemma dataset_getitem_inv (self : ImageCaptionDataset.t) (idx : Z)
    (sample : image * string) :
  ImageCaptionDataset.__getitem__ self idx = Ok sample ->
  exists name text raw,
    Py.getitem (ImageCaptionDataset._image_caption_pairs self) idx = Ok (name, text)
    /\ Image_open (Py.os_path_join (ImageCaptionDataset._images_dir self) name) = Some raw
    /\ sample = (if String.eqb (ImageCaptionDataset.mode self) "train"
                 then (image_augmenter (convert_RGB raw), text_augmenter text)
                 else (convert_RGB raw, text)).
Proof.
  unfold ImageCaptionDataset.__getitem__. intros Hg.
  destruct (Py.getitem (ImageCaptionDataset._image_caption_pairs self) idx)
    as [[name text]|e] eqn:Hp; simpl in Hg; [|discriminate].
  destruct (Image_open (Py.os_path_join (ImageCaptionDataset._images_dir self) name))
    as [raw|] eqn:Ho; simpl in Hg; [|discriminate].
  exists name, text, raw. split; [reflexivity|]. split; [exact Ho|].
  destruct (String.eqb (ImageCaptionDataset.mode self) "train");
    inversion Hg; reflexivity.
Qed.

Lemma dataset_init_mode (images_dir captions_file : string)
    (ds : ImageCaptionDataset.t) :
  ImageCaptionDataset.__init__ images_dir captions_file = Ok ds ->
  ImageCaptionDataset.mode ds = "train".
Proof.
  unfold ImageCaptionDataset.__init__. intros Hi.
  destruct (open_readlines (Py.os_path_join "data" captions_file));
    simpl in Hi; [|discriminate].
  destruct (ImageCaptionDataset.parse_lines l); simpl in Hi; [|discriminate].
  inversion Hi. reflexivity.
Qed.

End DatasetFacts.

Example toy_dataset_init :
  @ImageCaptionDataset.__init__ Toy.extern "images/imagesf2" "artwork_captions.txt"
  = Ok Toy.dataset.
Proof. vm_compute. reflexivity. Qed.

Example toy_getitem :
  @ImageCaptionDataset.__getitem__ Toy.extern Toy.dataset 1
  = Ok ("augmented:RGB:data/images/imagesf2/b.jpg", "augmented:a dog").
Proof. vm_compute. reflexivity. Qed.

Example toy_getitem_val :
  @ImageCaptionDataset.__getitem__ Toy.extern
    (ImageCaptionDataset.set_mode Toy.dataset "val") (-1)
  = Ok ("RGB:data/images/imagesf2/d.jpg", "a boat").
Proof. vm_compute. reflexivity. Qed.

(** C6.  For every valid index (in [-len, len), at position [k] of the
    list of records), [__getitem__] opens the image file named in the
    caption record at that index (under the images directory), converts
    it to RGB, and returns the augmented image and the augmented caption
    when the mode is "train", the RGB image and the caption of the record
    unchanged when it is not. *)
Theorem getitem_augments_iff_train `{Extern}
    (self : ImageCaptionDataset.t) (idx : Z) (k : nat)
    (name text : string) (raw : image) :
  Py.index (ImageCaptionDataset.__len__ self) idx = Ok k ->
  ImageCaptionDataset._image_caption_pairs self !! k = Some (name, text) ->
  Image_open (Py.os_path_join (ImageCaptionDataset._images_dir self) name) = Some raw ->
  (ImageCaptionDataset.mode self = "train" ->
   ImageCaptionDataset.__getitem__ self idx
   = Ok (image_augmenter (convert_RGB raw), text_augmenter text))
  /\ (ImageCaptionDataset.mode self <> "train" ->
      ImageCaptionDataset.__getitem__ self idx = Ok (convert_RGB raw, text)).
Proof.
  intros Hidx Hpair Hopen.
  pose proof (dataset_getitem_value self idx name text raw
                (getitem_at _ _ _ _ Hidx Hpair) Hopen) as Hv.
  split; intros Hmode.
  - rewrite Hv, Hmode. reflexivity.
  - rewrite Hv. destruct (String.eqb_spec (ImageCaptionDataset.mode self) "train");
      [contradiction|reflexivity].
Qed.

(** C6 on the toy dataset: index -2, the third of the four records, in
    mode "train". *)
Lemma getitem_augments_iff_train_witness :
  @ImageCaptionDataset.__getitem__ Toy.extern Toy.dataset (-2)
  = Ok ("augmented:RGB:data/images/imagesf2/c.jpg", "augmented:a tree").
Proof.
  refine (proj1 (@getitem_augments_iff_train Toy.extern Toy.dataset (-2) 2%nat
                   "c.jpg" "a tree" "data/images/imagesf2/c.jpg" _ _ _) _);
    reflexivity.
Defined.

Section LoaderFacts.

Context `{Extern}.

(** [random_split] on two lengths that add up to the dataset's: it raises
    when they add up to 1 and one of them is not 0 or 1, and otherwise
    appends the two [Subset]s to the store. *)
Lemma random_split_of_sum (h : heap) (dataset : loc) (n a b : Z)
    (draws : list nat) :
  len h dataset = Ok n ->
  a + b = n ->
  random_split h dataset (a, b) draws
  = if (a + b =? 1) && ((a <? 0) || (1 <? a) || ((b <? 0) || (1 <? b)))
    then Raise ValueError
    else
      let indices := Py.randperm draws (a + b) in
      let first := Py.slice indices (a - a) a in
      let second := Py.slice indices (a + b - b) (a + b) in
      Ok ((h ++ [OSubset (Subset.mk dataset first ∅)])
            ++ [OSubset (Subset.mk dataset second ∅)],
          length h, S (length h)).
Proof.
  intros Hn Hs. unfold random_split, fraction, alloc.
  assert (Hl : forall o : object, length (h ++ [o]) = S (length h))
    by (intros o; rewrite length_app; simpl; lia).
  destruct (Z.eqb_spec (a + b) 1) as [E|E]; cbn [andb].
  - destruct ((a <? 0) || (1 <? a)); cbn [orb mbind result_bind]; [reflexivity|].
    rewrite Hn. cbn [mbind result_bind].
    destruct ((b <? 0) || (1 <? b)); cbn [orb mbind result_bind]; [reflexivity|].
    assert (Hn1 : n = 1) by lia. rewrite Hn1 in *. rewrite !Z.mul_1_l.
    rewrite Hs, Z.eqb_refl. cbn [negb]. rewrite Hl. reflexivity.
  - cbn [mbind result_bind]. rewrite Hn. cbn [mbind result_bind].
    rewrite Hs, Z.eqb_refl. cbn [negb]. rewrite Hl. reflexivity.
Qed.

(** A shuffling loader is built over a subset that has indices and with a
    positive batch size, and not otherwise. *)
Lemma loader_init_shuffled (h : heap) (l : loc) (s : Subset.t) (batch_size : Z) :
  h !! l = Some (OSubset s) ->
  DataLoader.__init__ h l batch_size true
  = if (Z.of_nat (length (Subset.indices s)) <=? 0) || (batch_size <=? 0)
    then Raise ValueError
    else Ok (DataLoader.mk l batch_size true).
Proof.
  intros Hl. unfold DataLoader.__init__, len. rewrite Hl.
  cbn [mbind result_bind].
  destruct (Z.of_nat (length (Subset.indices s)) <=? 0); reflexivity.
Qed.

(** [_get_data_loaders], when it returns: the sizes it computed, the store
    it leaves and the two loaders; the training subset is not empty and
    the batch size is positive. *)
Lemma get_data_loaders_inv (h : heap) (dataset : loc) (val_split : float)
    (batch_size : Z) (draws : list nat)
    (h' : heap) (tl vl : DataLoader.t) :
  CLIPFinetuner._get_data_loaders h dataset val_split batch_size draws
    = Ok (h', tl, vl) ->
  exists n a,
    len h dataset = Ok n
    /\ Py.int_of_float ((1 - val_split) * Py.float_of_Z n)%float = Ok a
    /\ (let indices := Py.randperm draws (a + (n - a)) in
        let first := Py.slice indices (a - a) a in
        let second := Py.slice indices (a + (n - a) - (n - a)) (a + (n - a)) in
        first <> []
        /\ h' = <[S (length h) :=
                    OSubset (Subset.mk dataset second {["mode" := "val"]})]>
                  (<[length h :=
                       OSubset (Subset.mk dataset first {["mode" := "train"]})]>
                     ((h ++ [OSubset (Subset.mk dataset first ∅)])
                        ++ [OSubset (Subset.mk dataset second ∅)])))
    /\ tl = DataLoader.mk (length h) batch_size true
    /\ vl = DataLoader.mk (S (length h)) batch_size false
    /\ 0 < batch_size.
Proof.
  unfold CLIPFinetuner._get_data_loaders. intros Hg.
  destruct (len h dataset) as [n|] eqn:Hn; cbn [mbind result_bind] in Hg;
    [|discriminate].
  destruct (Py.int_of_float _) as [a|] eqn:Ha; cbn [mbind result_bind] in Hg;
    [|discriminate].
  rewrite (random_split_of_sum h dataset n a (n - a) draws Hn ltac:(lia)) in Hg.
  destruct ((a + (n - a) =? 1) && _); cbn [mbind result_bind] in Hg;
    [discriminate|].
  cbv zeta in Hg.
  set (indices := Py.randperm draws (a + (n - a))) in *.
  set (first := Py.slice indices (a - a) a) in *.
  set (second := Py.slice indices (a + (n - a) - (n - a)) (a + (n - a))) in *.
  set (s1 := Subset.mk dataset first ∅) in *.
  set (s2 := Subset.mk dataset second ∅) in *.
  assert (H1 : ((h ++ [OSubset s1]) ++ [OSubset s2]) !! length h = Some (OSubset s1)).
  { rewrite lookup_app_l by (rewrite length_app; simpl; lia).
    rewrite lookup_app_r by lia.
    replace (length h - length h)%nat with O by lia. reflexivity. }
  assert (H2 : forall o,
             (<[length h := o]> ((h ++ [OSubset s1]) ++ [OSubset s2]))
               !! S (length h) = Some (OSubset s2)).
  { intros o. rewrite list_lookup_insert_ne by lia.
    rewrite lookup_app_r by (rewrite length_app; simpl; lia).
    rewrite length_app. simpl.
    replace (S (length h) - (length h + 1))%nat with O by lia. reflexivity. }
  unfold setattr_mode in Hg. rewrite H1 in Hg.
  cbn [mbind result_bind] in Hg. rewrite H2 in Hg.
  cbn [mbind result_bind] in Hg.
  unfold Subset.setattr, s1, s2 in Hg.
  cbn [Subset.dataset Subset.indices Subset.attrs] in Hg.
  rewrite !insert_empty in Hg.
  rewrite (loader_init_shuffled _ _ (Subset.mk dataset first {["mode" := "train"]}))
    in Hg
    by (rewrite list_lookup_insert_ne by lia;
        apply list_lookup_insert_eq; rewrite !length_app; simpl; lia).
  cbn [Subset.indices] in Hg.
  destruct (Z.leb_spec (Z.of_nat (length first)) 0) as [Hf|Hf];
    cbn [orb mbind result_bind] in Hg; [discriminate|].
  unfold DataLoader.__init__ in Hg.
  destruct (Z.leb_spec batch_size 0) as [Hb|Hb];
    cbn [mbind result_bind] in Hg; [discriminate|].
  inversion Hg; subst h' tl vl. clear Hg.
  exists n, a. split; [reflexivity|]. split; [exact Ha|].
  split; [|auto].
  split; [|reflexivity].
  intros E. fold indices first in E. rewrite E in Hf. simpl in Hf. lia.
Qed.

(** What [_get_data_loaders] does to the store: it appends the two
    [Subset]s, each wrapping [dataset], and sets [mode] on them. *)
Lemma get_data_loaders_store (h : heap) (dataset : loc) (val_split : float)
    (batch_size : Z) (draws : list nat)
    (h' : heap) (tl vl : DataLoader.t) :
  CLIPFinetuner._get_data_loaders h dataset val_split batch_size draws
    = Ok (h', tl, vl) ->
  (dataset < length h)%nat
  /\ DataLoader.dataset tl = length h
  /\ DataLoader.dataset vl = S (length h)
  /\ (forall l, (l < length h)%nat -> h' !! l = h !! l)
  /\ (exists idxs,
        h' !! length h
        = Some (OSubset (Subset.mk dataset idxs {["mode" := "train"]})))
  /\ (exists idxs,
        h' !! S (length h)
        = Some (OSubset (Subset.mk dataset idxs {["mode" := "val"]}))).
Proof.
  intros Hg.
  destruct (get_data_loaders_inv _ _ _ _ _ _ _ _ Hg)
    as (n & a & Hn & _ & [_ ->] & -> & -> & _).
  cbn [DataLoader.dataset].
  assert (Hd : (dataset < length h)%nat).
  { unfold len in Hn. destruct (h !! dataset) eqn:E; [|discriminate].
    eapply lookup_lt_Some. exact E. }
  split; [exact Hd|]. split; [reflexivity|]. split; [reflexivity|].
  split.
  - intros l Hl.
    rewrite !list_lookup_insert_ne by lia.
    rewrite lookup_app_l by (rewrite length_app; simpl; lia).
    rewrite lookup_app_l by lia. reflexivity.
  - split; eexists.
    + rewrite list_lookup_insert_ne by lia.
      apply list_lookup_insert_eq. rewrite !length_app. simpl. lia.
    + apply list_lookup_insert_eq.
      rewrite length_insert, !length_app. simpl. lia.
Qed.

End LoaderFacts.

Section FetchFacts.

Context `{Extern}.

Lemma map_result_Forall2 {X Y} (f : X -> result Y) (l : list X) :
  forall ys, Py.map_result f l = Ok ys -> Forall2 (fun x y => f x = Ok y) l ys.
Proof.
  induction l as [|x l IH]; intros ys Hm; simpl in Hm.
  - inversion Hm. constructor.
  - destruct (f x) as [y|] eqn:Ef; simpl in Hm; [|discriminate].
    destruct (Py.map_result f l) as [ys'|] eqn:El; simpl in Hm; [|discriminate].
    inversion Hm; subst. constructor; [exact Ef|apply IH; reflexivity].
Qed.

Lemma getitem_Ok_In {A} (l : list A) (i : Z) (x : A) :
  Py.getitem l i = Ok x -> In x l.
Proof.
  unfold Py.getitem. intros Hg.
  destruct (Py.index (Z.of_nat (length l)) i) as [k|]; simpl in Hg; [|discriminate].
  destruct (l !! k) as [y|] eqn:El; inversion Hg; subst.
  apply list_elem_of_In. eapply list_elem_of_lookup_2. exact El.
Qed.

(** Fetching through a [Subset] of a dataset in mode "train" augments,
    whatever attributes the [Subset] itself carries. *)
Lemma subset_getitem_augmented (h : heap) (l d : loc) (ds : ImageCaptionDataset.t)
    (idxs : list Z) (attrs : gmap string string) (i : Z) (sample : image * string) :
  h !! l = Some (OSubset (Subset.mk d idxs attrs)) ->
  h !! d = Some (ODataset ds) ->
  ImageCaptionDataset.mode ds = "train" ->
  getitem h l i = Ok sample ->
  augmented_sample ds sample.
Proof.
  intros Hl Hd Hmode Hg. unfold getitem in Hg. rewrite Hl in Hg.
  cbn [Subset.indices Subset.dataset] in Hg.
  destruct (Py.getitem idxs i) as [k|]; simpl in Hg; [|discriminate].
  rewrite Hd in Hg.
  destruct (dataset_getitem_inv ds k sample Hg) as (name & text & raw & Hp & Ho & Hs).
  rewrite Hmode in Hs. simpl in Hs.
  exists name, text, raw. split; [|split; assumption].
  eapply getitem_Ok_In. exact Hp.
Qed.

(** Every batch a loader yields collates samples fetched with [getitem]
    from the loader's dataset. *)
Lemma iter_batches (h : heap) (loader : DataLoader.t) (draws : list nat)
    (batches : list (tensor * list string)) :
  DataLoader.__iter__ h loader draws = Ok batches ->
  Forall (fun batch =>
            exists idxs samples,
              batch = default_collate samples
              /\ Forall2 (fun i s => getitem h (DataLoader.dataset loader) i = Ok s)
                   idxs samples)
         batches.
Proof.
  unfold DataLoader.__iter__. intros Hi.
  destruct (len h (DataLoader.dataset loader)) as [n|]; simpl in Hi; [|discriminate].
  apply map_result_Forall2 in Hi.
  induction Hi as [|idxs batch chunks batches Hb _ IH]; constructor; [|exact IH].
  destruct (Py.map_result (getitem h (DataLoader.dataset loader)) idxs)
    as [samples|] eqn:Es; simpl in Hb; [|discriminate].
  inversion Hb; subst. exists idxs, samples. split; [reflexivity|].
  apply map_result_Forall2. exact Es.
Qed.

End FetchFacts.

(** C3.  [_get_data_loaders] sets [mode] on the two [Subset] objects that
    [random_split] returns, not on the dataset they wrap: the dataset
    object is unchanged and its mode is still the "train" that [__init__]
    gave it, while the validation [Subset] carries an attribute [mode]
    equal to "val" that nothing reads.  Hence every sample of every batch
    that the validation loader yields is augmented, as for the training
    loader. *)
Theorem subset_mode_leaves_dataset_in_train_mode `{Extern}
    (images_dir captions_file : string) (ds : ImageCaptionDataset.t)
    (h : heap) (d : loc) (val_split : float) (batch_size : Z)
    (draws : list nat) (h' : heap) (tl vl : DataLoader.t) :
  ImageCaptionDataset.__init__ images_dir captions_file = Ok ds ->
  h !! d = Some (ODataset ds) ->
  CLIPFinetuner._get_data_loaders h d val_split batch_size draws
    = Ok (h', tl, vl) ->
  h' !! d = Some (ODataset ds)
  /\ ImageCaptionDataset.mode ds = "train"
  /\ (exists idxs,
        h' !! DataLoader.dataset tl
        = Some (OSubset (Subset.mk d idxs {["mode" := "train"]})))
  /\ (exists idxs,
        h' !! DataLoader.dataset vl
        = Some (OSubset (Subset.mk d idxs {["mode" := "val"]})))
  /\ forall loader, loader = tl \/ loader = vl ->
     forall sampler batches,
       DataLoader.__iter__ h' loader sampler = Ok batches ->
       Forall (fun batch =>
                 exists samples,
                   batch = default_collate samples
                   /\ Forall (augmented_sample ds) samples)
              batches.
Proof.
  intros Hinit Hd Hg.
  pose proof (dataset_init_mode _ _ _ Hinit) as Hmode.
  destruct (get_data_loaders_store _ _ _ _ _ _ _ _ Hg)
    as (Hlt & Htl & Hvl & Hold & [it Ht] & [iv Hv]).
  assert (Hd' : h' !! d = Some (ODataset ds)) by (rewrite Hold; assumption).
  split; [exact Hd'|]. split; [exact Hmode|].
  split; [exists it; rewrite Htl; exact Ht|].
  split; [exists iv; rewrite Hvl; exact Hv|].
  intros loader Hloader sampler batches Hiter.
  assert (Hsub : exists idxs attrs,
             h' !! DataLoader.dataset loader
             = Some (OSubset (Subset.mk d idxs attrs))).
  { destruct Hloader; subst loader.
    - rewrite Htl. eauto.
    - rewrite Hvl. eauto. }
  destruct Hsub as (idxs & attrs & Hsub).
  eapply Forall_impl; [eapply iter_batches; exact Hiter|].
  intros batch (is_ & samples & Hb & Hf). simpl in Hf.
  exists samples. split; [exact Hb|].
  clear Hb. induction Hf as [|i s is' ss Hi _ IH]; constructor; [|exact IH].
  eapply subset_getitem_augmented; eassumption.
Qed.

(** C3 on the toy store: after the loaders are built, the dataset at
    address 0 is the one [__init__] built, in mode "train", and the one
    batch of the validation loader holds an augmented sample. *)
Lemma subset_mode_leaves_dataset_in_train_mode_witness :
  exists h' tl vl,
    CLIPFinetuner._get_data_loaders Toy.store 0%nat 0.25%float 2
      [3; 1; 2]%nat = Ok (h', tl, vl)
    /\ h' !! 0%nat = Some (ODataset Toy.dataset)
    /\ ImageCaptionDataset.mode Toy.dataset = "train"
    /\ @DataLoader.__iter__ Toy.extern h' vl []
       = Ok [(1, ["augmented:a tree"])].
Proof.
  destruct (CLIPFinetuner._get_data_loaders Toy.store 0%nat
              0.25%float 2 [3; 1; 2]%nat) as [[[h' tl] vl]|e] eqn:E;
    [|vm_compute in E; discriminate E].
  exists h', tl, vl. split; [reflexivity|].
  destruct (@subset_mode_leaves_dataset_in_train_mode Toy.extern
              "images/imagesf2" "artwork_captions.txt" Toy.dataset Toy.store
              0%nat 0.25%float 2 [3; 1; 2]%nat h' tl vl
              eq_refl eq_refl E) as (Hd & Hm & _).
  split; [exact Hd|]. split; [exact Hm|].
  vm_compute in E. inversion E; subst. vm_compute. reflexivity.
Defined.

(** ** The unfreezing of blocks *)

Section TowerFacts.

Lemma range_elem (lo hi i : Z) :
  i ∈ Py.range lo hi <-> lo <= i < hi.
Proof.
  rewrite list_elem_of_In. unfold Py.range. rewrite in_map_iff. split.
  - intros (k & <- & Hk). apply in_seq in Hk. lia.
  - intros Hi. exists (Z.to_nat (i - lo)). split; [lia|].
    apply in_seq. lia.
Qed.

Lemma unfreeze_block_Ok (blocks : list (list bool)) (i : Z) :
  0 <= i < Z.of_nat (length blocks) ->
  exists blocks',
    CLIP.unfreeze_block blocks i = Ok blocks'
    /\ length blocks' = length blocks
    /\ forall k,
         blocks' !! k
         = if decide (k = Z.to_nat i)
           then map (fun _ => true) <$> blocks !! k
           else blocks !! k.
Proof.
  intros Hi. unfold CLIP.unfreeze_block, Py.index.
  destruct (0 <=? i) eqn:E1; [|lia].
  destruct (i <? Z.of_nat (length blocks)) eqn:E2; [|lia].
  simpl.
  destruct (blocks !! Z.to_nat i) as [blk|] eqn:Eb.
  - eexists. split; [reflexivity|]. split; [apply length_insert|].
    intros k. destruct (decide (k = Z.to_nat i)) as [->|Hne].
    + rewrite list_lookup_insert_eq by lia. rewrite Eb. reflexivity.
    + rewrite list_lookup_insert_ne by congruence. reflexivity.
  - apply lookup_ge_None in Eb. lia.
Qed.

Lemma unfreeze_block_out_of_range (blocks : list (list bool)) (i : Z) :
  Z.of_nat (length blocks) <= i ->
  CLIP.unfreeze_block blocks i = Raise IndexError.
Proof.
  intros Hi. unfold CLIP.unfreeze_block, Py.index.
  destruct (0 <=? i) eqn:E1; [|lia].
  destruct (i <? Z.of_nat (length blocks)) eqn:E2; [lia|].
  simpl. destruct (- Z.of_nat (length blocks) <=? i) eqn:E3;
    destruct (i <? 0) eqn:E4; simpl; try reflexivity; lia.
Qed.

Lemma unfreeze_tower_Ok (idxs : list Z) :
  forall blocks,
    (forall i, i ∈ idxs -> 0 <= i < Z.of_nat (length blocks)) ->
    exists blocks',
      unfreeze_tower idxs blocks = Ok blocks'
      /\ length blocks' = length blocks
      /\ forall k,
           blocks' !! k
           = if decide (Z.of_nat k ∈ idxs)
             then map (fun _ => true) <$> blocks !! k
             else blocks !! k.
Proof.
  induction idxs as [|i idxs IH]; intros blocks Hin.
  - exists blocks. split; [reflexivity|]. split; [reflexivity|].
    intros k. destruct (decide (Z.of_nat k ∈ [])) as [Hc|]; [|reflexivity].
    apply elem_of_nil in Hc. contradiction.
  - destruct (unfreeze_block_Ok blocks i) as (b1 & H1 & Hl1 & Hk1);
      [apply Hin; apply elem_of_cons; left; reflexivity|].
    destruct (IH b1) as (b2 & H2 & Hl2 & Hk2).
    { intros j Hj. rewrite Hl1. apply Hin. apply elem_of_cons. right. exact Hj. }
    exists b2. unfold unfreeze_tower in *. simpl. rewrite H1. simpl.
    split; [exact H2|]. split; [congruence|].
    intros k. rewrite Hk2, Hk1.
    assert (Hi : 0 <= i).
    { assert (Hii : i ∈ i :: idxs) by (apply elem_of_cons; left; reflexivity).
      specialize (Hin i Hii). lia. }
    destruct (decide (Z.of_nat k ∈ idxs)) as [Hr|Hr];
      destruct (decide (k = Z.to_nat i)) as [He|He];
      destruct (decide (Z.of_nat k ∈ i :: idxs)) as [Hc|Hc];
      try reflexivity.
    + destruct (blocks !! k) as [blk|]; simpl; [|reflexivity].
      rewrite map_map. reflexivity.
    + exfalso. apply Hc. apply elem_of_cons. right. exact Hr.
    + exfalso. apply Hc. apply elem_of_cons. right. exact Hr.
    + exfalso. apply Hc. apply elem_of_cons. left. lia.
    + exfalso. apply elem_of_cons in Hc. destruct Hc as [Hc|Hc]; [lia|contradiction].
Qed.

(** The loop of [_unfreeze_blocks] over a tower is [unfreeze_tower]. *)
Lemma for_each_visual (idxs : list Z) :
  forall fl,
    Py.for_each
      (fun fl i =>
         blocks ← CLIP.unfreeze_block (CLIP.visual_resblocks fl) i;
         Ok (CLIP.set_visual_resblocks fl blocks)) fl idxs
    = (blocks ← unfreeze_tower idxs (CLIP.visual_resblocks fl);
       Ok (CLIP.set_visual_resblocks fl blocks)).
Proof.
  unfold unfreeze_tower.
  induction idxs as [|i idxs IH]; intros fl; simpl.
  - destruct fl; reflexivity.
  - destruct (CLIP.unfreeze_block (CLIP.visual_resblocks fl) i) as [b|]; simpl;
      [|reflexivity].
    rewrite IH. simpl.
    destruct (Py.for_each CLIP.unfreeze_block b idxs); reflexivity.
Qed.

Lemma for_each_text (idxs : list Z) :
  forall fl,
    Py.for_each
      (fun fl i =>
         blocks ← CLIP.unfreeze_block (CLIP.resblocks fl) i;
         Ok (CLIP.set_resblocks fl blocks)) fl idxs
    = (blocks ← unfreeze_tower idxs (CLIP.resblocks fl);
       Ok (CLIP.set_resblocks fl blocks)).
Proof.
  unfold unfreeze_tower.
  induction idxs as [|i idxs IH]; intros fl; simpl.
  - destruct fl; reflexivity.
  - destruct (CLIP.unfreeze_block (CLIP.resblocks fl) i) as [b|]; simpl;
      [|reflexivity].
    rewrite IH. simpl.
    destruct (Py.for_each CLIP.unfreeze_block b idxs); reflexivity.
Qed.

End TowerFacts.

Section UnfreezeFacts.

Context `{Extern}.

Lemma flags_le_refl fl : flags_le fl fl.
Proof. intros p Hp. exact Hp. Qed.

Lemma flags_le_trans fl1 fl2 fl3 :
  flags_le fl1 fl2 -> flags_le fl2 fl3 -> flags_le fl1 fl3.
Proof. intros H12 H23 p Hp. apply H23, H12, Hp. Qed.

Lemma block_grows_flag (o o' : option (list bool)) (j : nat) :
  block_grows o o' ->
  (blk ← o; blk !! j) = Some true ->
  (blk ← o'; blk !! j) = Some true.
Proof.
  intros [->| ->] Hj; [exact Hj|].
  destruct o as [blk|]; simpl in *; [|discriminate].
  rewrite list_lookup_fmap. destruct (blk !! j); simpl in *; [reflexivity|discriminate].
Qed.

Lemma unfreeze_block_grows (blocks blocks' : list (list bool)) (i : Z) :
  CLIP.unfreeze_block blocks i = Ok blocks' ->
  forall k, block_grows (blocks !! k) (blocks' !! k).
Proof.
  unfold CLIP.unfreeze_block. intros Hu k.
  destruct (Py.index (Z.of_nat (length blocks)) i) as [k0|]; simpl in Hu;
    [|discriminate].
  destruct (blocks !! k0) as [blk|] eqn:Eb; inversion Hu; subst.
  destruct (decide (k = k0)) as [->|Hne].
  - right. rewrite list_lookup_insert_eq by (eapply lookup_lt_Some; exact Eb).
    rewrite Eb. reflexivity.
  - left. apply list_lookup_insert_ne. congruence.
Qed.

Lemma unfreeze_tower_grows (idxs : list Z) :
  forall blocks blocks',
    unfreeze_tower idxs blocks = Ok blocks' ->
    forall k, block_grows (blocks !! k) (blocks' !! k).
Proof.
  unfold unfreeze_tower.
  induction idxs as [|i idxs IH]; intros blocks blocks' Hu k; simpl in Hu.
  - inversion Hu. left. reflexivity.
  - destruct (CLIP.unfreeze_block blocks i) as [b1|] eqn:E1; simpl in Hu;
      [|discriminate].
    destruct (unfreeze_block_grows _ _ _ E1 k) as [H1|H1];
      destruct (IH _ _ Hu k) as [H2|H2]; rewrite H2, H1.
    + left. reflexivity.
    + right. reflexivity.
    + right. reflexivity.
    + right. destruct (blocks !! k); simpl; [|reflexivity].
      rewrite map_map. reflexivity.
Qed.

(** [_unfreeze_blocks], when it returns: the two projections are
    trainable, each tower went through [unfreeze_tower] on the same range
    of indices, nothing else changed. *)
Lemma unfreeze_blocks_inv (m m' : CLIPFinetuner.model) (tot b : Z) :
  CLIPFinetuner._unfreeze_blocks m tot b = Ok m' ->
  let fl := CLIPFinetuner.requires_grad m in
  let idxs := Py.range (tot - (if b >? tot then tot else b)) tot in
  exists vb tb,
    unfreeze_tower idxs (CLIP.visual_resblocks fl) = Ok vb
    /\ unfreeze_tower idxs (CLIP.resblocks fl) = Ok tb
    /\ m' = CLIPFinetuner.set_requires_grad m
              (CLIP.mk_flags true true vb tb (CLIP.others fl)).
Proof.
  unfold CLIPFinetuner._unfreeze_blocks. intros Hu.
  set (fl := CLIPFinetuner.requires_grad m) in *.
  set (idxs := Py.range (tot - (if b >? tot then tot else b)) tot) in *.
  rewrite for_each_visual in Hu. cbn [CLIP.visual_resblocks
    CLIP.set_text_projection CLIP.set_visual_proj] in Hu.
  destruct (unfreeze_tower idxs (CLIP.visual_resblocks fl)) as [vb|] eqn:Ev;
    simpl in Hu; [|discriminate].
  rewrite for_each_text in Hu. cbn [CLIP.resblocks CLIP.set_visual_resblocks
    CLIP.set_text_projection CLIP.set_visual_proj] in Hu.
  destruct (unfreeze_tower idxs (CLIP.resblocks fl)) as [tb|] eqn:Et;
    simpl in Hu; [|discriminate].
  exists vb, tb. split; [reflexivity|]. split; [reflexivity|].
  inversion Hu. reflexivity.
Qed.

Lemma unfreeze_blocks_grows (m m' : CLIPFinetuner.model) (tot b : Z) :
  CLIPFinetuner._unfreeze_blocks m tot b = Ok m' ->
  flags_le (CLIPFinetuner.requires_grad m) (CLIPFinetuner.requires_grad m').
Proof.
  intros Hu. destruct (unfreeze_blocks_inv _ _ _ _ Hu) as (vb & tb & Hv & Ht & ->).
  intros p Hp. destruct m as [fl w g tr]. simpl in *.
  destruct p as [| |i j|i j|j]; simpl in *.
  - reflexivity.
  - reflexivity.
  - eapply block_grows_flag; [|exact Hp]. eapply unfreeze_tower_grows. exact Hv.
  - eapply block_grows_flag; [|exact Hp]. eapply unfreeze_tower_grows. exact Ht.
  - exact Hp.
Qed.

(** [_partial_unfreeze] changes nothing but the flags, and only upwards. *)
Lemma partial_unfreeze_grows (self self' : CLIPFinetuner.t) (epoch : Z) :
  CLIPFinetuner._partial_unfreeze self epoch = Ok self' ->
  flags_le (CLIPFinetuner.requires_grad (CLIPFinetuner._model self))
           (CLIPFinetuner.requires_grad (CLIPFinetuner._model self')).
Proof.
  unfold CLIPFinetuner._partial_unfreeze. intros Hp.
  destruct (_ >=? _).
  - destruct (Py.modulo _ _) as [r|]; simpl in Hp; [|discriminate].
    destruct (r =? 0).
    + destruct (Py.floordiv _ _) as [q|]; simpl in Hp; [|discriminate].
      destruct (q + 1 <=? _).
      * destruct (CLIPFinetuner._unfreeze_blocks _ _ _) as [m|] eqn:Eu;
          simpl in Hp; [|discriminate].
        inversion Hp; subst. simpl. eapply unfreeze_blocks_grows. exact Eu.
      * inversion Hp. apply flags_le_refl.
    + inversion Hp. apply flags_le_refl.
  - simpl in Hp. inversion Hp. apply flags_le_refl.
Qed.

End UnfreezeFacts.

(** ** The training and validation passes *)

Section PassFacts.

Context `{Extern}.

Lemma shuffled_length {A} (fuel : nat) :
  forall (draws : list nat) (l : list A),
    (length l <= fuel)%nat -> length (Py.shuffled draws l fuel) = length l.
Proof.
  induction fuel as [|fuel IH]; intros draws l Hl.
  - destruct l; simpl in *; [reflexivity|lia].
  - destruct l as [|x l]; [reflexivity|].
    cbn [Py.shuffled].
    destruct ((x :: l) !! (hd O draws mod length (x :: l))%nat) as [y|] eqn:Ek.
    + cbn [length]. rewrite IH.
      * apply lookup_lt_Some in Ek.
        rewrite length_app, length_take, length_drop. simpl in *. lia.
      * apply lookup_lt_Some in Ek.
        rewrite length_app, length_take, length_drop. simpl in *. lia.
    + cbn [length drop]. rewrite drop_0.
      rewrite IH by (simpl in Hl; lia). reflexivity.
Qed.

Lemma range_length (lo hi : Z) :
  length (Py.range lo hi) = Z.to_nat (hi - lo).
Proof. unfold Py.range. rewrite length_map, length_seq. reflexivity. Qed.

Lemma randperm_length (draws : list nat) (n : Z) :
  length (Py.randperm draws n) = Z.to_nat n.
Proof.
  unfold Py.randperm. rewrite shuffled_length; rewrite range_length;
    [f_equal; lia|lia].
Qed.

Lemma ceil_div_step (n k : nat) :
  (0 < k)%nat -> (0 < n)%nat ->
  Z.succ ((Z.of_nat (n - k) + Z.of_nat k - 1) / Z.of_nat k)
  = (Z.of_nat n + Z.of_nat k - 1) / Z.of_nat k.
Proof.
  intros Hk Hn. destruct (le_lt_dec k n) as [Hle|Hlt].
  - rewrite Nat2Z.inj_sub by exact Hle.
    replace (Z.of_nat n + Z.of_nat k - 1)
      with (Z.of_nat n - Z.of_nat k + Z.of_nat k - 1 + 1 * Z.of_nat k) by lia.
    rewrite Z.div_add by lia. lia.
  - replace (n - k)%nat with O by lia.
    rewrite (Z.div_small (Z.of_nat 0 + Z.of_nat k - 1)) by lia.
    apply Z.div_unique with (r := Z.of_nat n - 1); lia.
Qed.

Lemma chunks_length {A} (k : nat) (fuel : nat) :
  (0 < k)%nat ->
  forall l : list A,
    (length l <= fuel)%nat ->
    Z.of_nat (length (DataLoader.chunks k l fuel))
    = (Z.of_nat (length l) + Z.of_nat k - 1) / Z.of_nat k.
Proof.
  intros Hk. induction fuel as [|fuel IH]; intros l Hl.
  - destruct l; simpl in *; [|lia].
    symmetry. apply Z.div_small. lia.
  - destruct l as [|x l].
    + simpl. symmetry. apply Z.div_small. lia.
    + cbn [DataLoader.chunks length] in *.
      rewrite Nat2Z.inj_succ, IH by (rewrite length_drop; simpl; lia).
      rewrite length_drop. cbn [length].
      apply (ceil_div_step (S (length l)) k); lia.
Qed.

Lemma map_result_length {X Y} (f : X -> result Y) (l : list X) (ys : list Y) :
  Py.map_result f l = Ok ys -> length ys = length l.
Proof.
  intros Hm. apply map_result_Forall2 in Hm.
  symmetry. eapply Forall2_length. exact Hm.
Qed.

(** [len(loader)] is the number of batches a pass yields. *)
Lemma loader_len_batches (h : heap) (loader : DataLoader.t) (draws : list nat)
    (batches : list (tensor * list string)) :
  0 < DataLoader.batch_size loader ->
  DataLoader.__iter__ h loader draws = Ok batches ->
  DataLoader.__len__ h loader = Ok (Z.of_nat (length batches)).
Proof.
  unfold DataLoader.__iter__, DataLoader.__len__. intros Hbs Hi.
  destruct (len h (DataLoader.dataset loader)) as [n|] eqn:En; simpl in *;
    [|discriminate].
  assert (Hn : 0 <= n).
  { unfold len in En.
    destruct (h !! DataLoader.dataset loader) as [[d|s]|]; inversion En;
      unfold ImageCaptionDataset.__len__; lia. }
  apply map_result_length in Hi. rewrite Hi.
  set (order := if DataLoader.shuffle loader then Py.randperm draws n
                else Py.range 0 n).
  assert (Ho : length order = Z.to_nat n).
  { unfold order. destruct (DataLoader.shuffle loader).
    - apply randperm_length.
    - rewrite range_length. f_equal. lia. }
  rewrite chunks_length by lia.
  rewrite Ho. rewrite !Z2Nat.id by lia. reflexivity.
Qed.

End PassFacts.

Section StepFacts.

Context `{Extern}.

(** Running the monad one operation at a time. *)
Lemma bind_torch_op {A B} (o : op) (v : A) (k : A -> T B) (g : bool)
    (l : list (op * bool)) :
  (x ← torch_op o v; k x) (mk_runtime g l) = k v (mk_runtime g (l ++ [(o, g)])).
Proof. reflexivity. Qed.

Lemma bind_is_grad_enabled {B} (k : bool -> T B) (g : bool) (l : list (op * bool)) :
  (x ← is_grad_enabled; k x) (mk_runtime g l) = k g (mk_runtime g l).
Proof. reflexivity. Qed.

Lemma bind_Ok {A B} (m : T A) (k : A -> T B) (rt rt' : runtime) (a : A) :
  m rt = Ok (a, rt') -> (x ← m; k x) rt = k a rt'.
Proof. intros Hm. unfold mbind, T_bind. rewrite Hm. reflexivity. Qed.

Lemma bind_Raise {A B} (m : T A) (k : A -> T B) (rt : runtime) (e : exn) :
  m rt = Raise e -> (x ← m; k x) rt = Raise e.
Proof. intros Hm. unfold mbind, T_bind. rewrite Hm. reflexivity. Qed.

Local Ltac step := rewrite bind_torch_op; cbv beta.

(** The ten operations that compute the loss of a batch, in [_train] and
    in [_validate] alike. *)
Lemma loss_prefix {B} (w : state_dict) (training : bool)
    (images : tensor) (texts : list string)
    (k : tensor -> tensor -> tensor -> T B)
    (g : bool) (l : list (op * bool)) :
  (images ← torch_op OpToDevice (to_device images);
   texts ← torch_op OpTokenize (clip_tokenize texts);
   texts ← torch_op OpToDevice (to_device texts);
   '(logits_per_image, logits_per_text) ←
     torch_op OpModelCall (model_call w training images texts);
   ground_truth ←
     torch_op OpArange (long_tensor (Py.range 0 (tensor_len images)));
   ground_truth ← torch_op OpToDevice (to_device ground_truth);
   loss_img ← torch_op OpCrossEntropy (cross_entropy logits_per_image ground_truth);
   loss_txt ← torch_op OpCrossEntropy (cross_entropy logits_per_text ground_truth);
   sum ← torch_op OpAdd (tensor_add loss_img loss_txt);
   loss ← torch_op OpDivInt (tensor_div_int sum 2);
   k images texts loss) (mk_runtime g l)
  = k (to_device images) (to_device (clip_tokenize texts))
      (symmetric_loss w training (images, texts))
      (mk_runtime g (l ++ under g loss_ops)).
Proof.
  unfold symmetric_loss, batch_inputs. cbn [fst snd].
  do 4 step.
  destruct (model_call w training (to_device images)
              (to_device (clip_tokenize texts))) as [lpi lpt].
  do 6 step. rewrite <- !app_assoc. reflexivity.
Qed.

(** [_clip_score]: the two encoders run with the autograd mode disabled,
    the rest under the mode of the caller, which is put back. *)
Lemma clip_score_run (self : CLIPFinetuner.t) (images : tensor)
    (texts : list string) (g : bool) (l : list (op * bool)) :
  CLIPFinetuner._clip_score self (to_device images)
    (to_device (clip_tokenize texts)) (mk_runtime g l)
  = Ok (cosine_score (CLIPFinetuner.weights (CLIPFinetuner._model self))
          (CLIPFinetuner.training (CLIPFinetuner._model self)) (images, texts),
        mk_runtime g
          (l ++ [(OpEncodeImage, false); (OpEncodeText, false)]
             ++ under g [OpNorm; OpDiv; OpNorm; OpDiv; OpTranspose; OpMatmul;
                         OpDiag; OpMean])).
Proof.
  unfold CLIPFinetuner._clip_score, cosine_score, batch_inputs. cbn [fst snd].
  erewrite bind_Ok; [|unfold no_grad; cbn [grad_enabled ops];
                      do 2 step; reflexivity].
  cbv beta iota. cbn [ops]. do 8 step.
  unfold mret, T_ret. rewrite <- !app_assoc. reflexivity.
Qed.

(** One training step, in every case. *)
Lemma train_step_value (self : CLIPFinetuner.t) (total : float)
    (batch : tensor * list string) (g : bool) (l : list (op * bool)) :
  CLIPFinetuner.train_step (self, total) batch (mk_runtime g l)
  = if g && CLIP.any_trainable
              (CLIPFinetuner.requires_grad (CLIPFinetuner._model self))
    then Ok ((optimization_step self batch,
              (total + item (symmetric_loss
                               (CLIPFinetuner.weights (CLIPFinetuner._model self))
                               (CLIPFinetuner.training (CLIPFinetuner._model self))
                               batch))%float),
             mk_runtime g (l ++ under g train_step_ops))
    else Raise RuntimeError.
Proof.
  destruct batch as [images texts].
  unfold CLIPFinetuner.train_step. rewrite loss_prefix.
  step. rewrite bind_is_grad_enabled.
  cbn [CLIPFinetuner.set_model CLIPFinetuner._model CLIPFinetuner.set_grad
       CLIPFinetuner.requires_grad CLIPFinetuner.grad CLIPFinetuner.weights
       CLIPFinetuner._optimizer CLIPFinetuner.training].
  destruct (g && CLIP.any_trainable _).
  - step. unfold optimization_step.
    cbn [CLIPFinetuner.set_model CLIPFinetuner._model CLIPFinetuner.set_grad
         CLIPFinetuner.requires_grad CLIPFinetuner.grad CLIPFinetuner.weights
         CLIPFinetuner._optimizer CLIPFinetuner.training].
    step. destruct (adam_step _ _ _) as [w o]. step.
    unfold mret, T_ret. unfold train_step_ops, under.
    rewrite map_app, <- !app_assoc. reflexivity.
  - apply bind_Raise. reflexivity.
Qed.

(** One training step under an enabled autograd mode and with a trainable
    parameter: it does not raise, and it is the optimization step on the
    symmetric loss. *)
Lemma train_step_run (self : CLIPFinetuner.t) (total : float)
    (batch : tensor * list string) (rt : runtime) :
  grad_enabled rt = true ->
  CLIP.any_trainable (CLIPFinetuner.requires_grad (CLIPFinetuner._model self)) = true ->
  CLIPFinetuner.train_step (self, total) batch rt
  = Ok ((optimization_step self batch,
         (total + item (symmetric_loss
                          (CLIPFinetuner.weights (CLIPFinetuner._model self))
                          (CLIPFinetuner.training (CLIPFinetuner._model self))
                          batch))%float),
        mk_runtime true (ops rt ++ under true train_step_ops)).
Proof.
  intros Hg Ht. destruct rt as [g l]. cbn [grad_enabled ops] in *. subst g.
  rewrite train_step_value, Ht. reflexivity.
Qed.

(** One validation step under a disabled autograd mode: the loss is the
    symmetric loss, the score the cosine score, the mode stays disabled
    (the [no_grad] block of [_clip_score] finds it disabled and leaves it
    so), and every operation ran with it disabled. *)
Lemma validate_step_run (self : CLIPFinetuner.t) (total_loss total_score : float)
    (batch : tensor * list string) (rt : runtime) :
  grad_enabled rt = false ->
  CLIPFinetuner.validate_step self (total_loss, total_score) batch rt
  = Ok (((total_loss + item (symmetric_loss
                               (CLIPFinetuner.weights (CLIPFinetuner._model self))
                               (CLIPFinetuner.training (CLIPFinetuner._model self))
                               batch))%float,
         (total_score + item (cosine_score
                                (CLIPFinetuner.weights (CLIPFinetuner._model self))
                                (CLIPFinetuner.training (CLIPFinetuner._model self))
                                batch))%float),
        mk_runtime false (ops rt ++ under false validate_step_ops)).
Proof.
  intros Hg. destruct rt as [g l]. cbn [grad_enabled ops] in *. subst g.
  destruct batch as [images texts].
  unfold CLIPFinetuner.validate_step.
  rewrite loss_prefix.
  erewrite bind_Ok; [|apply clip_score_run].
  do 2 step. unfold mret, T_ret.
  unfold validate_step_ops, under. rewrite !map_app, <- !app_assoc.
  reflexivity.
Qed.

(** The loop of [_train]. *)
Lemma train_loop_run (batches : list (tensor * list string)) :
  forall (self : CLIPFinetuner.t) (total : float) (rt : runtime),
    grad_enabled rt = true ->
    CLIP.any_trainable (CLIPFinetuner.requires_grad (CLIPFinetuner._model self)) = true ->
    CLIPFinetuner.for_each_T CLIPFinetuner.train_step (self, total) batches rt
    = Ok (((training_pass self batches).1,
           fold_left PrimFloat.add (training_pass self batches).2 total),
          mk_runtime true
            (ops rt ++ concat (map (fun _ => under true train_step_ops) batches))).
Proof.
  induction batches as [|batch batches IH]; intros self total rt Hg Ht.
  - simpl. unfold mret, T_ret. rewrite app_nil_r.
    destruct rt; simpl in *; subst; reflexivity.
  - cbn [CLIPFinetuner.for_each_T]. unfold mbind, T_bind.
    rewrite train_step_run by assumption.
    rewrite IH.
    + cbn [training_pass].
      destruct (training_pass (optimization_step self batch) batches) as [s l].
      cbn [fst snd fold_left ops map concat]. rewrite <- app_assoc. reflexivity.
    + reflexivity.
    + unfold optimization_step. destruct (adam_step _ _ _). exact Ht.
Qed.

(** The loop of [_validate]. *)
Lemma validate_loop_run (self : CLIPFinetuner.t)
    (batches : list (tensor * list string)) :
  forall (total_loss total_score : float) (rt : runtime),
    grad_enabled rt = false ->
    CLIPFinetuner.for_each_T (CLIPFinetuner.validate_step self)
      (total_loss, total_score) batches rt
    = Ok ((fold_left PrimFloat.add
             (map (fun b => item (symmetric_loss
                                    (CLIPFinetuner.weights (CLIPFinetuner._model self))
                                    (CLIPFinetuner.training (CLIPFinetuner._model self))
                                    b)) batches) total_loss,
           fold_left PrimFloat.add
             (map (fun b => item (cosine_score
                                    (CLIPFinetuner.weights (CLIPFinetuner._model self))
                                    (CLIPFinetuner.training (CLIPFinetuner._model self))
                                    b)) batches) total_score),
          mk_runtime false
            (ops rt ++ concat (map (fun _ => under false validate_step_ops) batches))).
Proof.
  induction batches as [|batch batches IH]; intros total_loss total_score rt Hg.
  - simpl. unfold mret, T_ret. rewrite app_nil_r.
    destruct rt; simpl in *; subst; reflexivity.
  - cbn [CLIPFinetuner.for_each_T]. unfold mbind, T_bind.
    rewrite validate_step_run by assumption.
    rewrite IH by reflexivity.
    cbn [fst snd fold_left ops map concat]. rewrite <- app_assoc. reflexivity.
Qed.

(** A pass keeps every field of the trainer but the network's parameter
    values and gradients and the optimizer's state. *)
Lemma training_pass_keeps (batches : list (tensor * list string)) :
  forall self : CLIPFinetuner.t,
    let self' := (training_pass self batches).1 in
    CLIPFinetuner.requires_grad (CLIPFinetuner._model self')
      = CLIPFinetuner.requires_grad (CLIPFinetuner._model self)
    /\ CLIPFinetuner.training (CLIPFinetuner._model self')
       = CLIPFinetuner.training (CLIPFinetuner._model self)
    /\ CLIPFinetuner._tot_blocks self' = CLIPFinetuner._tot_blocks self
    /\ CLIPFinetuner._unfreeze_from self' = CLIPFinetuner._unfreeze_from self
    /\ CLIPFinetuner._unfreeze_every self' = CLIPFinetuner._unfreeze_every self
    /\ CLIPFinetuner._early_stopping self' = CLIPFinetuner._early_stopping self
    /\ CLIPFinetuner._train_loader self' = CLIPFinetuner._train_loader self
    /\ CLIPFinetuner._val_loader self' = CLIPFinetuner._val_loader self.
Proof.
  induction batches as [|batch batches IH]; intros self; cbn [training_pass].
  - simpl. auto 10.
  - specialize (IH (optimization_step self batch)).
    destruct (training_pass (optimization_step self batch) batches) as [s l].
    cbn [fst] in *. unfold optimization_step in IH.
    destruct (adam_step _ _ _) as [w o]. simpl in IH. exact IH.
Qed.

End StepFacts.

Section PassTheorems.

Context `{Extern}.

Lemma training_pass_losses_length (batches : list (tensor * list string)) :
  forall self : CLIPFinetuner.t,
    length (training_pass self batches).2 = length batches.
Proof.
  induction batches as [|batch batches IH]; intros self; cbn [training_pass].
  - reflexivity.
  - specialize (IH (optimization_step self batch)).
    destruct (training_pass (optimization_step self batch) batches) as [s l].
    simpl in *. congruence.
Qed.

Lemma truediv_mean (l : list float) :
  l <> [] ->
  Py.truediv (fold_left PrimFloat.add l 0%float) (Z.of_nat (length l))
  = Ok (float_mean l).
Proof.
  intros Hl. unfold Py.truediv, float_mean, float_sum.
  destruct (Z.of_nat (length l) =? 0) eqn:E; [|reflexivity].
  destruct l; [contradiction|]. simpl in E. lia.
Qed.

(** [_train], whatever the loader yields. *)
Lemma train_run (h : heap) (self : CLIPFinetuner.t) (draws : list nat)
    (rt : runtime) (batches : list (tensor * list string)) :
  grad_enabled rt = true ->
  CLIP.any_trainable (CLIPFinetuner.requires_grad (CLIPFinetuner._model self)) = true ->
  0 < DataLoader.batch_size (CLIPFinetuner._train_loader self) ->
  DataLoader.__iter__ h (CLIPFinetuner._train_loader self) draws = Ok batches ->
  let start :=
    CLIPFinetuner.set_model self
      (CLIPFinetuner.set_training (CLIPFinetuner._model self) true) in
  let pass := training_pass start batches in
  CLIPFinetuner._train h self draws rt
  = match batches with
    | [] => Raise ZeroDivisionError
    | _ :: _ =>
        Ok ((pass.1, float_mean pass.2),
            mk_runtime true
              (ops rt ++ concat (map (fun _ => under true train_step_ops) batches)))
    end.
Proof.
  intros Hg Ht Hbs Hi start pass.
  pose proof (loader_len_batches _ _ _ _ Hbs Hi) as Hlen.
  unfold CLIPFinetuner._train. fold start.
  change (CLIPFinetuner._train_loader start) with (CLIPFinetuner._train_loader self).
  unfold mbind at 1. unfold T_bind at 1. unfold lift at 1. rewrite Hi.
  unfold mbind at 1. unfold T_bind at 1.
  rewrite train_loop_run by assumption. fold pass.
  destruct pass as [s losses] eqn:Ep.
  assert (Hll : length losses = length batches).
  { pose proof (training_pass_losses_length batches start) as Hl.
    fold pass in Hl. rewrite Ep in Hl. exact Hl. }
  pose proof (training_pass_keeps batches start) as Hk. cbv zeta in Hk.
  fold pass in Hk. rewrite Ep in Hk. cbn [fst snd] in *.
  destruct Hk as (_ & _ & _ & _ & _ & _ & Htl & _).
  unfold mbind, T_bind, lift, mret, T_ret.
  rewrite Htl. change (CLIPFinetuner._train_loader start)
    with (CLIPFinetuner._train_loader self).
  rewrite Hlen. rewrite <- Hll.
  destruct batches as [|b bs].
  - destruct losses; [|discriminate]. reflexivity.
  - rewrite truediv_mean by (destruct losses; [discriminate|congruence]).
    reflexivity.
Qed.

(** [_validate], whatever the loader yields. *)
Lemma validate_run (h : heap) (self : CLIPFinetuner.t)
    (rt : runtime) (batches : list (tensor * list string)) :
  0 < DataLoader.batch_size (CLIPFinetuner._val_loader self) ->
  DataLoader.__iter__ h (CLIPFinetuner._val_loader self) [] = Ok batches ->
  let w := CLIPFinetuner.weights (CLIPFinetuner._model self) in
  CLIPFinetuner._validate h self rt
  = match batches with
    | [] => Raise ZeroDivisionError
    | _ :: _ =>
        Ok ((CLIPFinetuner.set_model self
               (CLIPFinetuner.set_training (CLIPFinetuner._model self) false),
             float_mean (map (fun b => item (symmetric_loss w false b)) batches),
             float_mean (map (fun b => item (cosine_score w false b)) batches)),
            mk_runtime (grad_enabled rt)
              (ops rt ++ concat (map (fun _ => under false validate_step_ops) batches)))
    end.
Proof.
  intros Hbs Hi w.
  pose proof (loader_len_batches _ _ _ _ Hbs Hi) as Hlen.
  unfold CLIPFinetuner._validate.
  cbn [CLIPFinetuner._val_loader CLIPFinetuner.set_model].
  unfold mbind at 1. unfold T_bind at 1. unfold lift at 1. rewrite Hi.
  unfold mbind at 1. unfold T_bind at 1. unfold no_grad.
  rewrite validate_loop_run by reflexivity.
  cbn [CLIPFinetuner._model CLIPFinetuner.set_model CLIPFinetuner.weights
       CLIPFinetuner.set_training CLIPFinetuner.training ops].
  fold w.
  unfold mbind, T_bind, lift, mret, T_ret. rewrite Hlen.
  destruct batches as [|b bs]; [reflexivity|].
  set (losses := map (fun b => item (symmetric_loss w false b)) (b :: bs)).
  set (scores := map (fun b => item (cosine_score w false b)) (b :: bs)).
  replace (length (b :: bs)) with (length scores)
    by (unfold scores; apply length_map).
  rewrite truediv_mean by (unfold scores; discriminate).
  replace (length scores) with (length losses)
    by (unfold scores, losses; rewrite !length_map; reflexivity).
  rewrite truediv_mean by (unfold losses; discriminate).
  reflexivity.
Qed.

End PassTheorems.

Example toy_trainer_built :
  @CLIPFinetuner.__init__ Toy.extern Toy.store "ViT-B/32" 0%nat 0.25%float 2
    0.5%float 3 2 [3; 1; 2]%nat
  = Ok (Toy.store_built, Toy.trainer).
Proof. vm_compute. reflexivity. Qed.

(** C8.  Under the interpreter's enabled autograd mode and with a
    trainable parameter, [_train] on a loader that yields the non-empty
    list [batches] puts the network in training mode and, batch after
    batch, computes the loss (cross_entropy(logits_per_image, g) +
    cross_entropy(logits_per_text, g)) / 2 with g = [0, ..., B-1] for a
    batch of B images ([symmetric_loss]), clears the gradients,
    backpropagates that loss and steps the optimizer
    ([optimization_step], iterated by [training_pass]); it returns the
    losses of the batches summed from 0.0 and divided by the number of
    batches.  Each step runs its operations in the order of
    [train_step_ops], under the enabled mode. *)
Theorem train_reports_mean_symmetric_loss `{Extern}
    (h : heap) (self : CLIPFinetuner.t) (draws : list nat)
    (rt : runtime) (batches : list (tensor * list string)) :
  grad_enabled rt = true ->
  CLIP.any_trainable (CLIPFinetuner.requires_grad (CLIPFinetuner._model self)) = true ->
  0 < DataLoader.batch_size (CLIPFinetuner._train_loader self) ->
  DataLoader.__iter__ h (CLIPFinetuner._train_loader self) draws = Ok batches ->
  batches <> [] ->
  let start :=
    CLIPFinetuner.set_model self
      (CLIPFinetuner.set_training (CLIPFinetuner._model self) true) in
  let pass := training_pass start batches in
  CLIPFinetuner._train h self draws rt
  = Ok ((pass.1, float_mean pass.2),
        mk_runtime true
          (ops rt ++ concat (map (fun _ => under true train_step_ops) batches)))
  /\ length pass.2 = length batches
  /\ DataLoader.__len__ h (CLIPFinetuner._train_loader self)
     = Ok (Z.of_nat (length batches)).
Proof.
  intros Hg Ht Hbs Hi Hne start pass.
  split; [|split].
  - pose proof (train_run h self draws rt batches Hg Ht Hbs Hi) as Hr.
    cbv zeta in Hr. fold start pass in Hr. rewrite Hr.
    destruct batches; [contradiction|reflexivity].
  - apply training_pass_losses_length.
  - eapply loader_len_batches; eassumption.
Qed.

(** C8 on the toy trainer: two batches, losses 3 and 4, reported 3.5. *)
Lemma train_reports_mean_symmetric_loss_witness :
  exists self' rt',
    @CLIPFinetuner._train Toy.extern Toy.store_built Toy.trainer [1; 1]%nat
      Toy.fresh = Ok ((self', 3.5%float), rt')
    /\ @CLIPFinetuner.weights Toy.extern (@CLIPFinetuner._model Toy.extern self') = 2.
Proof.
  destruct (@train_reports_mean_symmetric_loss Toy.extern Toy.store_built
              Toy.trainer [1; 1]%nat Toy.fresh
              [(2, ["augmented:a dog"; "augmented:a cat"]);
               (1, ["augmented:a boat"])]
              eq_refl eq_refl eq_refl eq_refl
              ltac:(discriminate)) as (Hrun & _ & _).
  eexists _, _. split; [exact Hrun|reflexivity].
Defined.

(** C7.  [_validate] on a loader that yields the non-empty list [batches]
    puts the network in evaluation mode and returns, for the loss, the
    mean over the batches of the same symmetric loss as a training step
    computes (on the evaluation-mode network, a training step on the same
    batch adds that very loss to its running total), and for the score the
    mean over the batches of the mean diagonal of the cosine-similarity
    matrix of the L2-normalized features ([cosine_score]).  Every
    operation of the pass runs with the autograd mode disabled, whatever
    the mode was before, and that mode is put back at the end. *)
Theorem validate_reports_means_without_grad `{Extern}
    (h : heap) (self : CLIPFinetuner.t)
    (rt : runtime) (batches : list (tensor * list string)) :
  0 < DataLoader.batch_size (CLIPFinetuner._val_loader self) ->
  DataLoader.__iter__ h (CLIPFinetuner._val_loader self) [] = Ok batches ->
  batches <> [] ->
  let w := CLIPFinetuner.weights (CLIPFinetuner._model self) in
  let evaluating :=
    CLIPFinetuner.set_model self
      (CLIPFinetuner.set_training (CLIPFinetuner._model self) false) in
  CLIPFinetuner._validate h self rt
  = Ok ((evaluating,
         float_mean (map (fun b => item (symmetric_loss w false b)) batches),
         float_mean (map (fun b => item (cosine_score w false b)) batches)),
        mk_runtime (grad_enabled rt)
          (ops rt ++ concat (map (fun _ => under false validate_step_ops) batches)))
  /\ DataLoader.__len__ h (CLIPFinetuner._val_loader self)
     = Ok (Z.of_nat (length batches))
  /\ forall batch total rt1,
       grad_enabled rt1 = true ->
       CLIP.any_trainable
         (CLIPFinetuner.requires_grad (CLIPFinetuner._model self)) = true ->
       exists self' rt1',
         CLIPFinetuner.train_step (evaluating, total) batch rt1
         = Ok ((self', (total + item (symmetric_loss w false batch))%float), rt1').
Proof.
  intros Hbs Hi Hne w evaluating.
  split; [|split].
  - pose proof (validate_run h self rt batches Hbs Hi) as Hr.
    cbv zeta in Hr. fold w evaluating in Hr. rewrite Hr.
    destruct batches; [contradiction|reflexivity].
  - eapply loader_len_batches; eassumption.
  - intros batch total rt1 Hg Ht.
    eexists _, _. rewrite train_step_run; [reflexivity|exact Hg|exact Ht].
Qed.

(** C7 on the toy trainer: one batch, loss 2 and score 1, and the 22
    operations of the pass all ran with the autograd mode disabled. *)
Lemma validate_reports_means_without_grad_witness :
  exists self' trace,
    @CLIPFinetuner._validate Toy.extern Toy.store_built Toy.trainer Toy.fresh
    = Ok ((self', 2%float, 1%float), mk_runtime true trace)
    /\ forallb (fun e => negb (snd e)) trace = true
    /\ length trace = 22%nat.
Proof.
  destruct (@validate_reports_means_without_grad Toy.extern Toy.store_built
              Toy.trainer Toy.fresh [(1, ["augmented:a tree"])]
              eq_refl eq_refl ltac:(discriminate)) as (Hrun & _ & _).
  eexists _, _. split; [exact Hrun|]. split; reflexivity.
Defined.

(** ** The loop of [fit] *)

Section FitFacts.

Context `{Extern}.

Lemma same_schedule_trans a b c :
  same_schedule a b -> same_schedule b c -> same_schedule a c.
Proof.
  intros (H1 & H2 & H3 & H4) (G1 & G2 & G3 & G4).
  repeat split; congruence.
Qed.

(** A training step that returns ran under an enabled autograd mode with
    a trainable parameter. *)
Lemma train_step_Ok_inv (self : CLIPFinetuner.t) (total : float)
    (batch : tensor * list string) (rt : runtime) x :
  CLIPFinetuner.train_step (self, total) batch rt = Ok x ->
  grad_enabled rt = true
  /\ CLIP.any_trainable (CLIPFinetuner.requires_grad (CLIPFinetuner._model self)) = true.
Proof.
  destruct rt as [g l]. rewrite train_step_value. cbn [grad_enabled].
  destruct g; [|discriminate].
  destruct (CLIP.any_trainable _); [auto|discriminate].
Qed.

Lemma train_loop_Ok_inv (batches : list (tensor * list string)) :
  forall (self : CLIPFinetuner.t) (total : float) (rt : runtime) self' total' rt',
    CLIPFinetuner.for_each_T CLIPFinetuner.train_step (self, total) batches rt
      = Ok ((self', total'), rt') ->
    self' = (training_pass self batches).1.
Proof.
  induction batches as [|batch batches IH]; intros self total rt self' total' rt' Hr.
  - simpl in Hr. inversion Hr. reflexivity.
  - cbn [CLIPFinetuner.for_each_T] in Hr. unfold mbind, T_bind in Hr.
    destruct (CLIPFinetuner.train_step (self, total) batch rt) as [[[s t] r]|] eqn:Es;
      [|discriminate].
    destruct (train_step_Ok_inv _ _ _ _ _ Es) as [Hg Ht].
    rewrite train_step_run in Es by assumption. inversion Es; subst.
    apply IH in Hr. cbn [training_pass].
    destruct (training_pass (optimization_step self batch) batches). exact Hr.
Qed.

(** [_train] and [_validate], when they return, leave the schedule's
    fields and the flags as they found them. *)
Lemma train_same_schedule (h : heap) (self : CLIPFinetuner.t) (draws : list nat)
    (rt : runtime) self' loss rt' :
  CLIPFinetuner._train h self draws rt = Ok ((self', loss), rt') ->
  same_schedule self self'.
Proof.
  unfold CLIPFinetuner._train. unfold mbind, T_bind, lift, mret, T_ret.
  intros Hr.
  destruct (DataLoader.__iter__ _ _ _) as [batches|]; [|discriminate].
  destruct (CLIPFinetuner.for_each_T _ _ _ _) as [[[s t] r]|] eqn:El; [|discriminate].
  destruct (DataLoader.__len__ _ _); [|discriminate].
  destruct (Py.truediv _ _); [|discriminate].
  inversion Hr; subst. apply train_loop_Ok_inv in El. subst.
  pose proof (training_pass_keeps batches
                (CLIPFinetuner.set_model self
                   (CLIPFinetuner.set_training (CLIPFinetuner._model self) true)))
    as Hk.
  cbv zeta in Hk. destruct Hk as (K1 & _ & K3 & K4 & K5 & _).
  split; [exact K1|]. split; [exact K3|]. split; [exact K4|exact K5].
Qed.

Lemma validate_same_schedule (h : heap) (self : CLIPFinetuner.t)
    (rt : runtime) self' loss score rt' :
  CLIPFinetuner._validate h self rt = Ok ((self', loss, score), rt') ->
  same_schedule self self'.
Proof.
  unfold CLIPFinetuner._validate. unfold mbind, T_bind, lift, mret, T_ret, no_grad.
  intros Hr.
  destruct (DataLoader.__iter__ _ _ _) as [batches|]; [|discriminate].
  destruct (CLIPFinetuner.for_each_T _ _ _ _) as [[[l s] r]|]; [|discriminate].
  destruct (DataLoader.__len__ _ _); [|discriminate].
  destruct (Py.truediv _ _); [|discriminate].
  destruct (Py.truediv _ _); [|discriminate].
  inversion Hr; subst. repeat split.
Qed.

Lemma partial_unfreeze_fields (self self' : CLIPFinetuner.t) (epoch : Z) :
  CLIPFinetuner._partial_unfreeze self epoch = Ok self' ->
  CLIPFinetuner._tot_blocks self' = CLIPFinetuner._tot_blocks self
  /\ CLIPFinetuner._unfreeze_from self' = CLIPFinetuner._unfreeze_from self
  /\ CLIPFinetuner._unfreeze_every self' = CLIPFinetuner._unfreeze_every self.
Proof.
  unfold CLIPFinetuner._partial_unfreeze. intros Hp.
  destruct (_ >=? _).
  - destruct (Py.modulo _ _) as [r|]; simpl in Hp; [|discriminate].
    destruct (r =? 0).
    + destruct (Py.floordiv _ _) as [q|]; simpl in Hp; [|discriminate].
      destruct (q + 1 <=? _).
      * destruct (CLIPFinetuner._unfreeze_blocks _ _ _) as [m|];
          simpl in Hp; [|discriminate].
        inversion Hp; subst. auto.
      * inversion Hp. auto.
    + inversion Hp. auto.
  - simpl in Hp. inversion Hp. auto.
Qed.

(** One iteration of [fit]: the flags and the schedule's fields at its
    end are those that [_partial_unfreeze] left at its start. *)
Lemma fit_epoch_inv (h : heap) (draws : Z -> list nat) (self : CLIPFinetuner.t)
    (epoch : Z) (rt : runtime) self' out stop rt' :
  CLIPFinetuner.fit_epoch h draws self epoch rt = Ok ((self', out, stop), rt') ->
  exists self1,
    CLIPFinetuner._partial_unfreeze self epoch = Ok self1
    /\ same_schedule self1 self'.
Proof.
  unfold CLIPFinetuner.fit_epoch. unfold mbind at 1. unfold T_bind at 1.
  unfold lift at 1. intros Hr.
  destruct (CLIPFinetuner._partial_unfreeze self epoch) as [self1|]; [|discriminate].
  exists self1. split; [reflexivity|].
  unfold mbind at 1 in Hr. unfold T_bind at 1 in Hr.
  destruct (CLIPFinetuner._train h self1 (draws epoch) rt) as [[[s2 tl] r2]|] eqn:Et;
    [|discriminate].
  unfold mbind at 1 in Hr. unfold T_bind at 1 in Hr.
  destruct (CLIPFinetuner._validate h s2 r2) as [[[[s3 vl] vs] r3]|] eqn:Ev;
    [|discriminate].
  unfold mbind, T_bind, lift, mret, T_ret in Hr.
  destruct (EarlyStopping.__call__ _ _ _ _ _) as [[[es o] st]|]; [|discriminate].
  inversion Hr; subst.
  apply train_same_schedule in Et. apply validate_same_schedule in Ev.
  eapply same_schedule_trans; [exact Et|].
  eapply same_schedule_trans; [exact Ev|]. repeat split.
Qed.

(** The trace of the loop: its entry number [k] comes from one iteration,
    on the epoch number [k] of the list, started from the trainer that the
    previous entry holds. *)
Lemma fit_loop_inv (h : heap) (draws : Z -> list nat) (epochs : list Z) :
  forall (self : CLIPFinetuner.t) (rt : runtime) trace rt',
    CLIPFinetuner.fit_loop h draws self epochs rt = Ok (trace, rt') ->
    (length trace <= length epochs)%nat
    /\ forall k self_k out,
         trace !! k = Some (self_k, out) ->
         exists epoch self1,
           epochs !! k = Some epoch
           /\ CLIPFinetuner._partial_unfreeze (trainer_before self trace k) epoch
              = Ok self1
           /\ same_schedule self1 self_k.
Proof.
  induction epochs as [|epoch epochs IH]; intros self rt trace rt' Hr.
  - simpl in Hr. inversion Hr; subst. split; [simpl; lia|].
    intros k self_k out Hk. rewrite lookup_nil in Hk. discriminate.
  - cbn [CLIPFinetuner.fit_loop] in Hr. unfold mbind at 1 in Hr.
    unfold T_bind at 1 in Hr.
    destruct (CLIPFinetuner.fit_epoch h draws self epoch rt)
      as [[[[s1 o1] stop] r1]|] eqn:Ee; [|discriminate].
    destruct (fit_epoch_inv _ _ _ _ _ _ _ _ _ Ee) as (self1 & Hp & Hs).
    destruct stop.
    + inversion Hr; subst. split; [simpl; lia|].
      intros k self_k out Hk. destruct k as [|k]; simpl in Hk; [|discriminate].
      inversion Hk; subst. exists epoch, self1. auto.
    + unfold mbind, T_bind, mret, T_ret in Hr.
      destruct (CLIPFinetuner.fit_loop h draws s1 epochs r1) as [[rest r2]|] eqn:El;
        [|discriminate].
      inversion Hr; subst.
      destruct (IH _ _ _ _ El) as [Hlen Hrest].
      split; [simpl; lia|].
      intros k self_k out Hk. destruct k as [|k]; simpl in Hk.
      * inversion Hk; subst. exists epoch, self1. auto.
      * destruct (Hrest k self_k out Hk) as (e & s & He & Hpu & Hss).
        exists e, s. split; [exact He|]. split; [|exact Hss].
        destruct k as [|k]; simpl in *; [exact Hpu|].
        destruct (rest !! k) as [[sk ok]|] eqn:Ek; [exact Hpu|].
        apply lookup_ge_None in Ek. apply lookup_lt_Some in Hk. lia.
Qed.

End FitFacts.

Section Monotone.

Context `{Extern}.

Lemma trace_step_grows (h : heap) (draws : Z -> list nat) (epochs : list Z)
    (self : CLIPFinetuner.t) (rt : runtime) trace rt' :
  CLIPFinetuner.fit_loop h draws self epochs rt = Ok (trace, rt') ->
  forall k self_k out,
    trace !! k = Some (self_k, out) ->
    flags_le
      (CLIPFinetuner.requires_grad (CLIPFinetuner._model (trainer_before self trace k)))
      (CLIPFinetuner.requires_grad (CLIPFinetuner._model self_k)).
Proof.
  intros Hr k self_k out Hk.
  destruct (fit_loop_inv _ _ _ _ _ _ _ Hr) as [_ Hinv].
  destruct (Hinv k self_k out Hk) as (e & s1 & _ & Hp & (Hfl & _)).
  rewrite Hfl. eapply partial_unfreeze_grows. exact Hp.
Qed.

Lemma trace_grows (h : heap) (draws : Z -> list nat) (epochs : list Z)
    (self : CLIPFinetuner.t) (rt : runtime) trace rt' :
  CLIPFinetuner.fit_loop h draws self epochs rt = Ok (trace, rt') ->
  forall d i self_i out_i self_j out_j,
    trace !! i = Some (self_i, out_i) ->
    trace !! (i + d)%nat = Some (self_j, out_j) ->
    flags_le (CLIPFinetuner.requires_grad (CLIPFinetuner._model self_i))
             (CLIPFinetuner.requires_grad (CLIPFinetuner._model self_j)).
Proof.
  intros Hr. induction d as [|d IH]; intros i self_i out_i self_j out_j Hi Hj.
  - rewrite Nat.add_0_r in Hj. rewrite Hi in Hj. inversion Hj.
    apply flags_le_refl.
  - replace (i + S d)%nat with (S (i + d)) in Hj by lia.
    destruct (trace !! (i + d)%nat) as [[s o]|] eqn:Em.
    + eapply flags_le_trans; [eapply IH; [exact Hi|exact Em]|].
      pose proof (trace_step_grows _ _ _ _ _ _ _ Hr _ _ _ Hj) as Hs.
      simpl in Hs. rewrite Em in Hs. exact Hs.
    + apply lookup_ge_None in Em. apply lookup_lt_Some in Hj. lia.
Qed.

End Monotone.

(** C9.  Over the epochs of [fit] the set of trainable parameters never
    shrinks: a parameter trainable when [fit] starts is trainable after
    every epoch that runs, and for epochs [i <= j] that run, a parameter
    trainable after epoch [i] is trainable after epoch [j]. *)
Theorem trainable_set_never_shrinks `{Extern}
    (h : heap) (draws : Z -> list nat) (self : CLIPFinetuner.t) (epochs : Z)
    (verbose : bool) (rt : runtime)
    (trace : list (CLIPFinetuner.t * list (event state_dict))) (rt' : runtime)
    (i j : nat) (self_i self_j : CLIPFinetuner.t)
    (out_i out_j : list (event state_dict)) :
  CLIPFinetuner.fit h draws self epochs verbose rt = Ok (trace, rt') ->
  (i <= j)%nat ->
  trace !! i = Some (self_i, out_i) ->
  trace !! j = Some (self_j, out_j) ->
  forall p : CLIP.param,
    (CLIP.requires_grad
       (CLIPFinetuner.requires_grad (CLIPFinetuner._model self)) p = Some true ->
     CLIP.requires_grad
       (CLIPFinetuner.requires_grad (CLIPFinetuner._model self_i)) p = Some true)
    /\ (CLIP.requires_grad
          (CLIPFinetuner.requires_grad (CLIPFinetuner._model self_i)) p = Some true ->
        CLIP.requires_grad
          (CLIPFinetuner.requires_grad (CLIPFinetuner._model self_j)) p = Some true).
Proof.
  unfold CLIPFinetuner.fit. intros Hr Hij Hi Hj p. split.
  - revert self_i out_i Hi. clear Hij Hj. induction i as [|i IH]; intros self_i out_i Hi.
    + apply (trace_step_grows _ _ _ _ _ _ _ Hr _ _ _ Hi).
    + destruct (trace !! i) as [[s o]|] eqn:Em.
      * intros Hp. specialize (IH s o eq_refl Hp).
        pose proof (trace_step_grows _ _ _ _ _ _ _ Hr _ _ _ Hi) as Hs.
        simpl in Hs. rewrite Em in Hs. apply Hs. exact IH.
      * apply lookup_ge_None in Em. apply lookup_lt_Some in Hi. lia.
  - replace j with (i + (j - i))%nat in Hj by lia.
    apply (trace_grows _ _ _ _ _ _ _ Hr _ _ _ _ _ _ Hi Hj).
Qed.

(** C9 on the toy trainer: over seven epochs, the first parameter of the
    middle block of the visual tower, trainable after the fourth epoch,
    is trainable after the seventh. *)
Lemma trainable_set_never_shrinks_witness :
  CLIP.requires_grad
    (@CLIPFinetuner.requires_grad Toy.extern
       (@CLIPFinetuner._model Toy.extern (Toy.after 3))) (CLIP.VisualBlock 1 0)
  = Some true
  /\ CLIP.requires_grad
       (@CLIPFinetuner.requires_grad Toy.extern
          (@CLIPFinetuner._model Toy.extern (Toy.after 6))) (CLIP.VisualBlock 1 0)
     = Some true.
Proof.
  assert (H3 : CLIP.requires_grad
                 (@CLIPFinetuner.requires_grad Toy.extern
                    (@CLIPFinetuner._model Toy.extern (Toy.after 3)))
                 (CLIP.VisualBlock 1 0) = Some true)
    by (vm_compute; reflexivity).
  split; [exact H3|].
  refine (proj2 (@trainable_set_never_shrinks Toy.extern Toy.store_built
                   (fun _ => []) Toy.trainer 7 true Toy.fresh Toy.trace7
                   Toy.runtime7 3%nat 6%nat (Toy.after 3) (Toy.after 6)
                   (Toy.wrote 3) (Toy.wrote 6) _ _ _ _
                   (CLIP.VisualBlock 1 0)) H3).
  - vm_compute. reflexivity.
  - lia.
  - vm_compute. reflexivity.
  - vm_compute. reflexivity.
Defined.

(** ** The state of the towers under the schedule *)

Section ScheduleState.

Context `{Extern}.

Lemma existsb_const (b : bool) (blk : list bool) :
  blk <> [] -> Forall (fun f => f = b) blk -> existsb id blk = b.
Proof.
  intros Hne Hall. destruct blk as [|f blk]; [contradiction|].
  inversion Hall as [|? ? Hf Hrest]; subst. destruct b; [reflexivity|].
  simpl. clear Hne Hall. induction Hrest as [|g blk Hg _ IH]; [reflexivity|].
  subst. simpl. exact IH.
Qed.

(** Counting the unfrozen blocks of a tower in a known state. *)
Lemma tower_state_count (blocks : list (list bool)) :
  forall lo hi : nat,
    tower_state blocks lo hi ->
    Forall (fun blk => blk <> []) blocks ->
    (lo <= hi)%nat -> (hi <= length blocks)%nat ->
    CLIP.unfrozen_blocks blocks = Z.of_nat (hi - lo).
Proof.
  unfold CLIP.unfrozen_blocks.
  induction blocks as [|blk blocks IH]; intros lo hi Hst Hne Hlo Hhi.
  - simpl in *. f_equal. lia.
  - inversion Hne as [|? ? Hb Hrest]; subst.
    assert (Htail : tower_state blocks (lo - 1) (hi - 1)).
    { intros k b Hk. specialize (Hst (S k) b Hk).
      eapply Forall_impl; [exact Hst|]. intros f ->. simpl.
      destruct (lo <=? S k)%nat eqn:E1; destruct (lo - 1 <=? k)%nat eqn:E2;
        destruct (S k <? hi)%nat eqn:E3; destruct (k <? hi - 1)%nat eqn:E4;
        try reflexivity;
        apply Nat.leb_le in E1 || apply Nat.leb_gt in E1;
        apply Nat.leb_le in E2 || apply Nat.leb_gt in E2;
        apply Nat.ltb_lt in E3 || apply Nat.ltb_ge in E3;
        apply Nat.ltb_lt in E4 || apply Nat.ltb_ge in E4; lia. }
    pose proof (existsb_const _ blk Hb (Hst O blk eq_refl)) as Hhead.
    rewrite filter_cons.
    destruct (decide (existsb id blk = true)) as [Ht|Hf].
    + rewrite Ht in Hhead. symmetry in Hhead. apply andb_true_iff in Hhead.
      destruct Hhead as [E1 E2]. apply Nat.leb_le in E1. apply Nat.ltb_lt in E2.
      cbn [length]. rewrite Nat2Z.inj_succ.
      rewrite (IH (lo - 1)%nat (hi - 1)%nat Htail Hrest) by (simpl in Hhi; lia).
      lia.
    + rewrite (IH (lo - 1)%nat (hi - 1)%nat Htail Hrest) by (simpl in Hhi; lia).
      assert (Hc : ((lo <=? 0) && (0 <? hi))%nat = false)
        by (rewrite <- Hhead; destruct (existsb id blk); congruence).
      apply andb_false_iff in Hc. destruct Hc as [E|E].
      * apply Nat.leb_gt in E. lia.
      * apply Nat.ltb_ge in E. lia.
Qed.

(** After [_freeze_model] nothing is trainable. *)
Lemma freeze_all_state (fl : CLIP.flags) :
  Forall (fun blk => blk <> []) (CLIP.visual_resblocks fl) ->
  Forall (fun blk => blk <> []) (CLIP.resblocks fl) ->
  (length (CLIP.visual_resblocks fl) <= length (CLIP.resblocks fl))%nat ->
  unfrozen_last (CLIP.freeze_all fl) (length (CLIP.visual_resblocks fl)) 0.
Proof.
  intros Hv Ht Hlen. unfold unfrozen_last, CLIP.freeze_all.
  cbn [CLIP.visual_resblocks CLIP.resblocks].
  rewrite !length_map, Nat.sub_0_r.
  assert (Hfrozen : forall blocks : list (list bool),
             tower_state (map (map (fun _ => false)) blocks)
               (length (CLIP.visual_resblocks fl))
               (length (CLIP.visual_resblocks fl))).
  { intros blocks k blk Hk. rewrite list_lookup_fmap in Hk.
    destruct (blocks !! k) as [b|]; inversion Hk; subst.
    apply Forall_forall. intros f Hf. apply list_elem_of_In, in_map_iff in Hf.
    destruct Hf as (x & <- & _).
    destruct (_ <=? k)%nat eqn:E1; destruct (k <? _)%nat eqn:E2;
      try reflexivity.
    apply Nat.leb_le in E1. apply Nat.ltb_lt in E2. lia. }
  assert (Hnonempty : forall blocks : list (list bool),
             Forall (fun blk => blk <> []) blocks ->
             Forall (fun blk => blk <> []) (map (map (fun _ : bool => false)) blocks)).
  { intros blocks Hb. apply Forall_forall. intros blk Hin.
    apply list_elem_of_In, in_map_iff in Hin. destruct Hin as (b & <- & Hin).
    rewrite Forall_forall in Hb. specialize (Hb b (proj2 (list_elem_of_In _ _) Hin)).
    destruct b; [contradiction|discriminate]. }
  split; [reflexivity|]. split; [exact Hlen|]. split; [lia|].
  split; [apply Hfrozen|]. split; [apply Hfrozen|].
  split; apply Hnonempty; assumption.
Qed.

(** A tower in a known state after the blocks [lo', hi) were unfrozen. *)
Lemma unfreeze_tower_state (blocks : list (list bool)) (T c b : nat) :
  (T <= length blocks)%nat -> (c <= T)%nat -> (b <= T)%nat ->
  tower_state blocks (T - c) T ->
  Forall (fun blk => blk <> []) blocks ->
  exists blocks',
    unfreeze_tower (Py.range (Z.of_nat T - Z.of_nat b) (Z.of_nat T)) blocks
      = Ok blocks'
    /\ length blocks' = length blocks
    /\ tower_state blocks' (T - Nat.max c b) T
    /\ Forall (fun blk => blk <> []) blocks'.
Proof.
  intros HT Hc Hb Hst Hne.
  destruct (unfreeze_tower_Ok
              (Py.range (Z.of_nat T - Z.of_nat b) (Z.of_nat T)) blocks)
    as (blocks' & Hu & Hlen & Hlook).
  { intros i Hi. apply range_elem in Hi. lia. }
  exists blocks'. split; [exact Hu|]. split; [exact Hlen|]. split.
  - intros k blk Hk. rewrite Hlook in Hk.
    destruct (decide (Z.of_nat k ∈ Py.range (Z.of_nat T - Z.of_nat b) (Z.of_nat T)))
      as [Hin|Hout].
    + apply range_elem in Hin.
      destruct (blocks !! k) as [old|]; inversion Hk; subst.
      apply Forall_forall. intros f Hf. apply list_elem_of_In, in_map_iff in Hf.
      destruct Hf as (x & <- & _). symmetry. apply andb_true_iff. split.
      * apply Nat.leb_le. lia.
      * apply Nat.ltb_lt. lia.
    + rewrite range_elem in Hout.
      eapply Forall_impl; [exact (Hst k blk Hk)|]. intros f ->. simpl.
      destruct (T - c <=? k)%nat eqn:E1;
        destruct (T - Nat.max c b <=? k)%nat eqn:E2;
        destruct (k <? T)%nat eqn:E3; try reflexivity;
        apply Nat.leb_le in E1 || apply Nat.leb_gt in E1;
        apply Nat.leb_le in E2 || apply Nat.leb_gt in E2;
        apply Nat.ltb_lt in E3 || apply Nat.ltb_ge in E3; lia.
  - apply Forall_lookup. intros k blk Hk. rewrite Hlook in Hk.
    rewrite Forall_lookup in Hne.
    destruct (decide _).
    + destruct (blocks !! k) as [old|] eqn:Eo; inversion Hk; subst.
      specialize (Hne k old Eo). destruct old; [contradiction|discriminate].
    + exact (Hne k blk Hk).
Qed.

(** [_unfreeze_blocks] on towers in a known state: it returns, and the
    last [max c (min b T)] blocks are then the trainable ones. *)
Lemma unfreeze_blocks_last (m : CLIPFinetuner.model) (T c : nat) (b : Z) :
  unfrozen_last (CLIPFinetuner.requires_grad m) T c ->
  0 <= b ->
  exists m',
    CLIPFinetuner._unfreeze_blocks m (Z.of_nat T) b = Ok m'
    /\ unfrozen_last (CLIPFinetuner.requires_grad m') T
         (Nat.max c (Nat.min (Z.to_nat b) T))
    /\ CLIP.visual_proj (CLIPFinetuner.requires_grad m') = true
    /\ CLIP.text_projection (CLIPFinetuner.requires_grad m') = true
    /\ CLIP.others (CLIPFinetuner.requires_grad m')
       = CLIP.others (CLIPFinetuner.requires_grad m).
Proof.
  intros (Hlv & Hlt & Hc & Hsv & Hst & Hnv & Hnt) Hb.
  set (b' := Nat.min (Z.to_nat b) T).
  assert (Hb' : (if b >? Z.of_nat T then Z.of_nat T else b) = Z.of_nat b').
  { unfold b'. destruct (b >? Z.of_nat T) eqn:E.
    - apply Z.gtb_lt in E. lia.
    - rewrite Z.gtb_ltb in E. apply Z.ltb_ge in E. lia. }
  destruct (unfreeze_tower_state (CLIP.visual_resblocks (CLIPFinetuner.requires_grad m))
              T c b') as (vb & Hv & Hvl & Hvs & Hvn);
    try assumption; try lia.
  destruct (unfreeze_tower_state (CLIP.resblocks (CLIPFinetuner.requires_grad m))
              T c b') as (tb & Ht & Htl & Hts & Htn);
    try assumption; try lia.
  exists (CLIPFinetuner.set_requires_grad m
            (CLIP.mk_flags true true vb tb
               (CLIP.others (CLIPFinetuner.requires_grad m)))).
  split.
  - unfold CLIPFinetuner._unfreeze_blocks. rewrite Hb'.
    rewrite for_each_visual.
    cbn [CLIP.visual_resblocks CLIP.set_text_projection CLIP.set_visual_proj].
    rewrite Hv. cbn [mbind result_bind].
    rewrite for_each_text.
    cbn [CLIP.resblocks CLIP.set_visual_resblocks CLIP.set_text_projection
         CLIP.set_visual_proj].
    rewrite Ht. reflexivity.
  - cbn [CLIPFinetuner.requires_grad CLIPFinetuner.set_requires_grad
         CLIP.visual_proj CLIP.text_projection CLIP.others].
    split; [|auto].
    unfold unfrozen_last. cbn [CLIP.visual_resblocks CLIP.resblocks].
    split; [congruence|]. split; [lia|]. split; [lia|]. auto.
Qed.

End ScheduleState.

(** ** The constructor *)

Section ConstructorFacts.

Context `{Extern}.

Lemma unfreeze_tower_valid (idxs : list Z) :
  forall blocks blocks',
    unfreeze_tower idxs blocks = Ok blocks' ->
    (forall i, i ∈ idxs -> 0 <= i) ->
    forall i, i ∈ idxs -> 0 <= i < Z.of_nat (length blocks).
Proof.
  unfold unfreeze_tower.
  induction idxs as [|i0 idxs IH]; intros blocks blocks' Hu Hpos i Hi.
  - apply elem_of_nil in Hi. contradiction.
  - simpl in Hu.
    assert (H0 : 0 <= i0) by (apply Hpos; apply elem_of_cons; auto).
    destruct (Z_lt_le_dec i0 (Z.of_nat (length blocks))) as [Hlt|Hge].
    + destruct (unfreeze_block_Ok blocks i0) as (b1 & H1 & Hl1 & _); [lia|].
      rewrite H1 in Hu. simpl in Hu.
      apply elem_of_cons in Hi. destruct Hi as [->|Hi]; [lia|].
      rewrite <- Hl1. eapply IH; [exact Hu| |exact Hi].
      intros j Hj. apply Hpos. apply elem_of_cons. auto.
    + rewrite unfreeze_block_out_of_range in Hu by exact Hge. discriminate.
Qed.

Lemma unfreeze_tower_lookup (idxs : list Z) (blocks blocks' : list (list bool)) :
  unfreeze_tower idxs blocks = Ok blocks' ->
  (forall i, i ∈ idxs -> 0 <= i) ->
  forall k,
    blocks' !! k
    = if decide (Z.of_nat k ∈ idxs)
      then map (fun _ => true) <$> blocks !! k
      else blocks !! k.
Proof.
  intros Hu Hpos.
  destruct (unfreeze_tower_Ok idxs blocks) as (b2 & H2 & _ & Hlook).
  { eapply unfreeze_tower_valid; eassumption. }
  rewrite Hu in H2. inversion H2; subst. exact Hlook.
Qed.

Lemma const_block_flag (o : option (list bool)) (b : bool) (j : nat) :
  (blk ← (map (fun _ => b) <$> o); blk !! j)
  = (fun _ => b) <$> (blk ← o; blk !! j).
Proof.
  destruct o as [blk|]; simpl; [|reflexivity].
  apply list_lookup_fmap.
Qed.

(** The flags after [_freeze_model] and [_unfreeze_blocks(1)]. *)
Lemma freeze_then_unfreeze_one (m m' : CLIPFinetuner.model) :
  let fl := CLIPFinetuner.requires_grad m in
  let T := length (CLIP.visual_resblocks fl) in
  CLIPFinetuner._unfreeze_blocks (CLIPFinetuner._freeze_model m) (Z.of_nat T) 1
    = Ok m' ->
  forall p,
    CLIP.requires_grad (CLIPFinetuner.requires_grad m') p
    = (fun _ => trainable_after_init T p) <$> CLIP.requires_grad fl p.
Proof.
  intros fl T Hu p.
  destruct (unfreeze_blocks_inv _ _ _ _ Hu) as (vb & tb & Hv & Ht & ->).
  cbn [CLIPFinetuner._freeze_model CLIPFinetuner.requires_grad
       CLIPFinetuner.set_requires_grad CLIP.freeze_all CLIP.visual_resblocks
       CLIP.resblocks CLIP.others] in *.
  fold fl in Hv, Ht. fold T in Hv, Ht.
  set (idxs := Py.range (Z.of_nat T - (if 1 >? Z.of_nat T then Z.of_nat T else 1))
                 (Z.of_nat T)) in *.
  assert (Hpos : forall i, i ∈ idxs -> 0 <= i).
  { intros i Hi. apply range_elem in Hi.
    destruct (1 >? Z.of_nat T) eqn:E; [lia|].
    rewrite Z.gtb_ltb in E. apply Z.ltb_ge in E. lia. }
  assert (Hin : forall k : nat,
             Z.of_nat k ∈ idxs <-> ((T - 1 <=? k) && (k <? T))%nat = true).
  { intros k. unfold idxs. rewrite range_elem, andb_true_iff.
    rewrite Nat.leb_le, Nat.ltb_lt.
    destruct (1 >? Z.of_nat T) eqn:E.
    - apply Z.gtb_lt in E. lia.
    - rewrite Z.gtb_ltb in E. apply Z.ltb_ge in E. lia. }
  pose proof (unfreeze_tower_lookup _ _ _ Hv Hpos) as Lv.
  pose proof (unfreeze_tower_lookup _ _ _ Ht Hpos) as Lt.
  assert (Hblock : forall (blocks blocks' : list (list bool)) i j,
             (forall k, blocks' !! k
                        = if decide (Z.of_nat k ∈ idxs)
                          then map (fun _ => true)
                                 <$> map (map (fun _ => false)) blocks !! k
                          else map (map (fun _ => false)) blocks !! k) ->
             (blk ← blocks' !! i; blk !! j)
             = (fun _ => ((T - 1 <=? i) && (i <? T))%nat)
                 <$> (blk ← blocks !! i; blk !! j)).
  { intros blocks blocks' i j Hl. rewrite Hl, list_lookup_fmap.
    destruct (decide (Z.of_nat i ∈ idxs)) as [Hi|Hi].
    - apply Hin in Hi. rewrite Hi.
      destruct (blocks !! i) as [blk|]; simpl; [|reflexivity].
      rewrite map_map, list_lookup_fmap. reflexivity.
    - assert (Hf : ((T - 1 <=? i) && (i <? T))%nat = false).
      { destruct ((T - 1 <=? i) && (i <? T))%nat eqn:E; [|reflexivity].
        apply Hin in E. contradiction. }
      rewrite Hf. apply const_block_flag. }
  destruct p as [| |i j|i j|j]; cbn [CLIP.requires_grad trainable_after_init
    CLIP.visual_proj CLIP.text_projection CLIP.visual_resblocks CLIP.resblocks
    CLIP.others].
  - reflexivity.
  - reflexivity.
  - apply Hblock. exact Lv.
  - apply Hblock. exact Lt.
  - apply list_lookup_fmap.
Qed.

End ConstructorFacts.

(** C5, the claim as stated fails: the number of trailing blocks that the
    constructor unfreezes is not configurable.  On the toy network of
    three blocks per tower, two constructions that differ in every
    argument but the network and the dataset both leave exactly one block
    of each tower trainable. *)
Example constructor_unfreezes_one_block_whatever_the_arguments :
  (match @CLIPFinetuner.__init__ Toy.extern Toy.store "ViT-B/32" 0%nat
           0.25%float 2 0.5%float 3 2 [3; 1; 2]%nat with
   | Ok (_, self) =>
       Some (@CLIPFinetuner.requires_grad Toy.extern
               (@CLIPFinetuner._model Toy.extern self))
   | Raise _ => None
   end,
   match @CLIPFinetuner.__init__ Toy.extern Toy.store "ViT-B/32" 0%nat
           0.5%float 1 0.125%float 1 1 [0; 0; 1]%nat with
   | Ok (_, self) =>
       Some (@CLIPFinetuner.requires_grad Toy.extern
               (@CLIPFinetuner._model Toy.extern self))
   | Raise _ => None
   end,
   CLIP.unfrozen_blocks (CLIP.visual_resblocks Toy.built_flags),
   CLIP.unfrozen_blocks (CLIP.resblocks Toy.built_flags))
  = (Some Toy.built_flags, Some Toy.built_flags, 1, 1).
Proof. vm_compute. reflexivity. Qed.

(** C5, amended.  When the constructor returns, a parameter of the loaded
    network is trainable exactly when it is the image projection, the text
    projection, or a parameter of the last block of the visual tower or of
    the block of the same index of the text tower (one block per tower,
    whatever the constructor's arguments); every other parameter is
    frozen.  No parameter is added or dropped. *)
Theorem constructor_leaves_projections_and_one_block `{Extern}
    (h : heap) (model_name : string) (dataset : loc) (val_split : float)
    (batch_size : Z) (lr : float) (unfreeze_from unfreeze_every : Z)
    (draws : list nat) (fl0 : CLIP.flags) (w0 : state_dict)
    (h' : heap) (self : CLIPFinetuner.t) :
  clip_load model_name = Ok (fl0, w0) ->
  CLIPFinetuner.__init__ h model_name dataset val_split batch_size lr
    unfreeze_from unfreeze_every draws = Ok (h', self) ->
  CLIPFinetuner._tot_blocks self = Z.of_nat (length (CLIP.visual_resblocks fl0))
  /\ forall p,
       CLIP.requires_grad
         (CLIPFinetuner.requires_grad (CLIPFinetuner._model self)) p
       = (fun _ => trainable_after_init (length (CLIP.visual_resblocks fl0)) p)
           <$> CLIP.requires_grad fl0 p.
Proof.
  intros Hload Hinit. unfold CLIPFinetuner.__init__ in Hinit.
  rewrite Hload in Hinit. cbn [mbind result_bind] in Hinit.
  cbn [CLIPFinetuner.requires_grad CLIPFinetuner.set_weights
       CLIPFinetuner.weights CLIPFinetuner.grad CLIPFinetuner.training] in Hinit.
  destruct (CLIPFinetuner._unfreeze_blocks _ _ 1) as [m|] eqn:Eu;
    [|discriminate].
  cbn [mbind result_bind] in Hinit.
  destruct (CLIPFinetuner._get_data_loaders _ _ _ _ _) as [[[h1 tl] vl]|];
    [|discriminate].
  cbn [mbind result_bind] in Hinit. inversion Hinit; subst.
  cbn [CLIPFinetuner._tot_blocks CLIPFinetuner._model].
  split; [reflexivity|].
  apply (freeze_then_unfreeze_one
           (CLIPFinetuner.mk_model fl0 (to_float w0) empty_grads false) m Eu).
Qed.

(** C5 on the toy network: the second parameter of the last block of the
    text tower is trainable after the construction, the first parameter of
    its first block is frozen. *)
Lemma constructor_leaves_projections_and_one_block_witness :
  CLIP.requires_grad Toy.built_flags (CLIP.TextBlock 2 1) = Some true
  /\ CLIP.requires_grad Toy.built_flags (CLIP.TextBlock 0 0) = Some false.
Proof.
  pose proof (@constructor_leaves_projections_and_one_block Toy.extern
                Toy.store "ViT-B/32" 0%nat 0.25%float 2 0.5%float 3 2
                [3; 1; 2]%nat Toy.loaded_flags 0 Toy.store_built Toy.trainer
                eq_refl eq_refl) as [_ Hp].
  split; [exact (Hp (CLIP.TextBlock 2 1))|exact (Hp (CLIP.TextBlock 0 0))].
Defined.

(** ** The unfreezing schedule *)

Section ScheduleArithmetic.

Variables F N : Z.
Hypothesis HF : 1 <= F.
Hypothesis HN : 1 <= N.

Lemma firings_S (n : nat) :
  firings F N (S n)
  = firings F N n + (if due F N (Z.of_nat (S n)) then 1 else 0).
Proof.
  unfold firings. rewrite seq_S, filter_app, length_app, Nat2Z.inj_add.
  f_equal. cbn [Nat.add]. rewrite filter_cons, filter_nil.
  destruct (decide (due F N (Z.of_nat (S n)) = true)) as [Hd|Hd].
  - rewrite Hd. reflexivity.
  - destruct (due F N (Z.of_nat (S n))); [contradiction|reflexivity].
Qed.

Lemma div_step_due (e : Z) :
  0 <= e -> (e + 1) mod N = 0 -> (e + 1) / N = e / N + 1.
Proof.
  intros He Hm.
  pose proof (Z.div_mod (e + 1) N ltac:(lia)) as Hd. rewrite Hm in Hd.
  assert (Hq : e / N = (e + 1) / N - 1).
  { symmetry. apply Z.div_unique with (r := N - 1); lia. }
  lia.
Qed.

Lemma div_step_not_due (e : Z) :
  0 <= e -> (e + 1) mod N <> 0 -> (e + 1) / N = e / N.
Proof.
  intros He Hm.
  pose proof (Z.div_mod (e + 1) N ltac:(lia)) as Hd.
  pose proof (Z.mod_pos_bound (e + 1) N ltac:(lia)) as Hb.
  apply Z.div_unique with (r := (e + 1) mod N - 1); lia.
Qed.

Lemma first_multiple_bounds :
  N * (first_multiple F N) - N < F <= N * (first_multiple F N).
Proof.
  unfold first_multiple.
  pose proof (Z.div_mod (F + N - 1) N ltac:(lia)) as Hd.
  pose proof (Z.mod_pos_bound (F + N - 1) N ltac:(lia)) as Hb.
  lia.
Qed.

Lemma firings_closed (n : nat) :
  firings F N n = Z.max 0 (Z.of_nat n / N - (first_multiple F N) + 1).
Proof.
  pose proof first_multiple_bounds as Hc.
  induction n as [|n IH].
  - unfold firings. simpl. rewrite Z.div_0_l by lia.
    assert (1 <= (first_multiple F N)) by nia. lia.
  - rewrite firings_S, IH. rewrite Nat2Z.inj_succ, <- Z.add_1_r.
    unfold due. destruct (F <=? Z.of_nat n + 1) eqn:E1;
      destruct ((Z.of_nat n + 1) mod N =? 0) eqn:E2; cbn [andb].
    + apply Z.leb_le in E1. apply Z.eqb_eq in E2.
      rewrite (div_step_due (Z.of_nat n)) by lia.
      pose proof (Z.div_mod (Z.of_nat n + 1) N ltac:(lia)) as Hd.
      rewrite E2, (div_step_due (Z.of_nat n)) in Hd by lia.
      assert ((first_multiple F N) <= Z.of_nat n / N + 1) by nia.
      lia.
    + apply Z.eqb_neq in E2.
      rewrite (div_step_not_due (Z.of_nat n)) by lia. lia.
    + apply Z.leb_gt in E1. apply Z.eqb_eq in E2.
      rewrite (div_step_due (Z.of_nat n)) by lia.
      pose proof (Z.div_mod (Z.of_nat n + 1) N ltac:(lia)) as Hd.
      rewrite E2, (div_step_due (Z.of_nat n)) in Hd by lia.
      assert (Z.of_nat n / N + 1 < (first_multiple F N)) by nia.
      lia.
    + apply Z.eqb_neq in E2.
      rewrite (div_step_not_due (Z.of_nat n)) by lia. lia.
Qed.

(** At an epoch at which the schedule is due, the number of blocks that
    [_partial_unfreeze] computes is one more than what the epochs before
    it had reached. *)
Lemma blocks_to_unfreeze_value (n : nat) :
  due F N (Z.of_nat n + 1) = true ->
  (Z.of_nat n + 1 - F + N) / N + 1 = firings F N n + 2.
Proof.
  intros Hd. unfold due in Hd. apply andb_true_iff in Hd.
  destruct Hd as [E1 E2]. apply Z.leb_le in E1. apply Z.eqb_eq in E2.
  pose proof first_multiple_bounds as Hc.
  pose proof (Z.div_mod (Z.of_nat n + 1) N ltac:(lia)) as Hk.
  rewrite E2, (div_step_due (Z.of_nat n)) in Hk by lia.
  assert (Hle : (first_multiple F N) <= Z.of_nat n / N + 1) by nia.
  rewrite firings_closed.
  assert (Hq : (Z.of_nat n + 1 - F + N) / N
               = Z.of_nat n / N + 1 - (first_multiple F N) + 1).
  { symmetry.
    apply Z.div_unique
      with (r := Z.of_nat n + 1 - F + N
                 - N * (Z.of_nat n / N + 1 - (first_multiple F N) + 1)); nia. }
  lia.
Qed.

End ScheduleArithmetic.

Section ScheduleFacts.

Context `{Extern}.

Lemma firings_nonneg (F N : Z) (n : nat) : 0 <= firings F N n.
Proof. unfold firings. lia. Qed.

Lemma range_lookup (n : Z) (k : nat) (e : Z) :
  Py.range 0 n !! k = Some e -> e = Z.of_nat k.
Proof.
  unfold Py.range. intros Hk. rewrite list_lookup_fmap in Hk.
  destruct (seq 0 (Z.to_nat (n - 0)) !! k) as [j|] eqn:Ej; inversion Hk; subst.
  apply lookup_seq in Ej. lia.
Qed.

(** One call of [_partial_unfreeze] on a trainer that is on schedule: it
    does not raise, and the trainer is on schedule one epoch later. *)
Lemma partial_unfreeze_on_schedule (self : CLIPFinetuner.t) (n : nat) :
  1 <= CLIPFinetuner._unfreeze_from self ->
  1 <= CLIPFinetuner._unfreeze_every self ->
  on_schedule self n ->
  exists self1,
    CLIPFinetuner._partial_unfreeze self (Z.of_nat n) = Ok self1
    /\ on_schedule self1 (S n).
Proof.
  intros HF HN [Htot Hlast].
  set (F := CLIPFinetuner._unfreeze_from self) in *.
  set (N := CLIPFinetuner._unfreeze_every self) in *.
  set (fl := CLIPFinetuner.requires_grad (CLIPFinetuner._model self)) in *.
  set (T := length (CLIP.visual_resblocks fl)) in *.
  pose proof (firings_nonneg F N n) as Hfn.
  pose proof (firings_S F N n) as HS.
  rewrite Nat2Z.inj_succ, <- Z.add_1_r in HS.
  unfold CLIPFinetuner._partial_unfreeze. fold F N. rewrite Htot.
  assert (Hdue : (if Z.of_nat n + 1 >=? F
                  then r ← Py.modulo (Z.of_nat n + 1) N; Ok (r =? 0)
                  else Ok false)
                 = Ok (due F N (Z.of_nat n + 1))).
  { unfold due, Py.modulo. rewrite Z.geb_leb.
    destruct (F <=? Z.of_nat n + 1); [|reflexivity].
    destruct (N =? 0) eqn:E; [lia|]. reflexivity. }
  rewrite Hdue. cbn [mbind result_bind].
  destruct (due F N (Z.of_nat n + 1)) eqn:Ed.
  - unfold Py.floordiv. destruct (N =? 0) eqn:E; [lia|].
    cbn [mbind result_bind].
    rewrite (blocks_to_unfreeze_value F N HF HN n Ed).
    destruct (firings F N n + 2 <=? Z.of_nat T) eqn:Eb.
    + apply Z.leb_le in Eb.
      destruct (unfreeze_blocks_last (CLIPFinetuner._model self) T _
                  (firings F N n + 2) Hlast ltac:(lia))
        as (m' & Hu & Hl' & _).
      fold fl T in Hu. rewrite Hu. cbn [mbind result_bind].
      exists (CLIPFinetuner.set_model self m'). split; [reflexivity|].
      unfold on_schedule.
      cbn [CLIPFinetuner.set_model CLIPFinetuner._model
           CLIPFinetuner._tot_blocks CLIPFinetuner._unfreeze_from
           CLIPFinetuner._unfreeze_every].
      fold F N.
      assert (HT : length (CLIP.visual_resblocks (CLIPFinetuner.requires_grad m')) = T)
        by (destruct Hl' as [HT _]; exact HT).
      rewrite HT. split; [exact Htot|].
      replace (Z.to_nat (scheduled_blocks F N (Z.of_nat T) (S n)))
        with (Nat.max (Z.to_nat (scheduled_blocks F N (Z.of_nat T) n))
                (Nat.min (Z.to_nat (firings F N n + 2)) T)); [exact Hl'|].
      unfold scheduled_blocks. rewrite HS. lia.
    + apply Z.leb_gt in Eb. exists self. split; [reflexivity|].
      unfold on_schedule. fold F N fl T. split; [exact Htot|].
      replace (Z.to_nat (scheduled_blocks F N (Z.of_nat T) (S n)))
        with (Z.to_nat (scheduled_blocks F N (Z.of_nat T) n)); [exact Hlast|].
      unfold scheduled_blocks. rewrite HS. lia.
  - exists self. split; [reflexivity|].
    unfold on_schedule. fold F N fl T. split; [exact Htot|].
    replace (Z.to_nat (scheduled_blocks F N (Z.of_nat T) (S n)))
      with (Z.to_nat (scheduled_blocks F N (Z.of_nat T) n)); [exact Hlast|].
    unfold scheduled_blocks. rewrite HS. lia.
Qed.

Lemma on_schedule_same (a b : CLIPFinetuner.t) (n : nat) :
  same_schedule a b -> on_schedule a n -> on_schedule b n.
Proof.
  intros (Hfl & Ht & Hf & He) Ha. unfold on_schedule in *.
  rewrite Hfl, Ht, Hf, He. exact Ha.
Qed.

(** The trainer that the constructor built is on schedule before the
    first epoch. *)
Lemma init_on_schedule
    (h : heap) (model_name : string) (dataset : loc) (val_split : float)
    (batch_size : Z) (lr : float) (unfreeze_from unfreeze_every : Z)
    (draws : list nat) (fl0 : CLIP.flags) (w0 : state_dict)
    (h' : heap) (self : CLIPFinetuner.t) :
  clip_load model_name = Ok (fl0, w0) ->
  Forall (fun blk => blk <> []) (CLIP.visual_resblocks fl0) ->
  Forall (fun blk => blk <> []) (CLIP.resblocks fl0) ->
  CLIPFinetuner.__init__ h model_name dataset val_split batch_size lr
    unfreeze_from unfreeze_every draws = Ok (h', self) ->
  on_schedule self 0
  /\ CLIPFinetuner._unfreeze_from self = unfreeze_from
  /\ CLIPFinetuner._unfreeze_every self = unfreeze_every.
Proof.
  intros Hload Hnv Hnt Hinit. unfold CLIPFinetuner.__init__ in Hinit.
  rewrite Hload in Hinit. cbn [mbind result_bind] in Hinit.
  unfold CLIPFinetuner.set_weights in Hinit.
  cbn [CLIPFinetuner.requires_grad CLIPFinetuner.weights CLIPFinetuner.grad
       CLIPFinetuner.training] in Hinit.
  set (m0 := CLIPFinetuner.mk_model fl0 (to_float w0) empty_grads false) in *.
  set (T := length (CLIP.visual_resblocks fl0)) in *.
  destruct (CLIPFinetuner._unfreeze_blocks (CLIPFinetuner._freeze_model m0)
              (Z.of_nat T) 1) as [m|] eqn:Eu; [|discriminate].
  cbn [mbind result_bind] in Hinit.
  destruct (CLIPFinetuner._get_data_loaders _ _ _ _ _) as [[[h1 tl] vl]|];
    [|discriminate].
  cbn [mbind result_bind] in Hinit. inversion Hinit; subst h' self. clear Hinit.
  split; [|split; reflexivity].
  assert (Hlen : (T <= length (CLIP.resblocks fl0))%nat).
  { destruct (unfreeze_blocks_inv _ _ _ _ Eu) as (vb & tb & _ & Ht & _).
    cbn [CLIPFinetuner._freeze_model CLIPFinetuner.requires_grad
         CLIPFinetuner.set_requires_grad CLIP.freeze_all CLIP.resblocks m0] in Ht.
    destruct T as [|T']; [lia|].
    assert (Hin : Z.of_nat T'
                  ∈ Py.range (Z.of_nat (S T')
                              - (if 1 >? Z.of_nat (S T') then Z.of_nat (S T') else 1))
                      (Z.of_nat (S T'))).
    { apply range_elem. destruct (1 >? Z.of_nat (S T')) eqn:E; [|lia].
      apply Z.gtb_lt in E. lia. }
    pose proof (unfreeze_tower_valid _ _ _ Ht) as Hvalid.
    specialize (Hvalid ltac:(intros i Hi; apply range_elem in Hi;
                             destruct (1 >? Z.of_nat (S T')); lia) _ Hin).
    rewrite length_map in Hvalid. lia. }
  pose proof (freeze_all_state fl0 Hnv Hnt Hlen) as Hfrozen. fold T in Hfrozen.
  destruct (unfreeze_blocks_last (CLIPFinetuner._freeze_model m0) T 0 1 Hfrozen
              ltac:(lia)) as (m' & Hu & Hl' & _).
  rewrite Eu in Hu. inversion Hu; subst m'. clear Hu.
  unfold on_schedule.
  cbn [CLIPFinetuner._model CLIPFinetuner._tot_blocks
       CLIPFinetuner._unfreeze_from CLIPFinetuner._unfreeze_every].
  assert (HT : length (CLIP.visual_resblocks (CLIPFinetuner.requires_grad m)) = T)
    by (destruct Hl' as [HT _]; exact HT).
  rewrite HT. split; [reflexivity|].
  replace (Z.to_nat (scheduled_blocks unfreeze_from unfreeze_every (Z.of_nat T) 0))
    with (Nat.max 0 (Nat.min (Z.to_nat 1) T)); [exact Hl'|].
  unfold scheduled_blocks, firings. simpl length. lia.
Qed.

(** Every entry of the trace of [fit] is on schedule. *)
Lemma trace_on_schedule (h : heap) (draws : Z -> list nat)
    (self : CLIPFinetuner.t) (epochs : Z) (rt : runtime) trace rt' :
  1 <= CLIPFinetuner._unfreeze_from self ->
  1 <= CLIPFinetuner._unfreeze_every self ->
  on_schedule self 0 ->
  CLIPFinetuner.fit_loop h draws self (Py.range 0 epochs) rt = Ok (trace, rt') ->
  forall k self_k out,
    trace !! k = Some (self_k, out) ->
    on_schedule self_k (S k)
    /\ CLIPFinetuner._unfreeze_from self_k = CLIPFinetuner._unfreeze_from self
    /\ CLIPFinetuner._unfreeze_every self_k = CLIPFinetuner._unfreeze_every self
    /\ CLIPFinetuner._tot_blocks self_k = CLIPFinetuner._tot_blocks self.
Proof.
  intros HF HN H0 Hr.
  destruct (fit_loop_inv _ _ _ _ _ _ _ Hr) as [_ Hinv].
  assert (Hstep : forall k prev self_k out,
             trace !! k = Some (self_k, out) ->
             prev = trainer_before self trace k ->
             on_schedule prev k ->
             CLIPFinetuner._unfreeze_from prev = CLIPFinetuner._unfreeze_from self ->
             CLIPFinetuner._unfreeze_every prev = CLIPFinetuner._unfreeze_every self ->
             CLIPFinetuner._tot_blocks prev = CLIPFinetuner._tot_blocks self ->
             on_schedule self_k (S k)
             /\ CLIPFinetuner._unfreeze_from self_k = CLIPFinetuner._unfreeze_from self
             /\ CLIPFinetuner._unfreeze_every self_k = CLIPFinetuner._unfreeze_every self
             /\ CLIPFinetuner._tot_blocks self_k = CLIPFinetuner._tot_blocks self).
  { intros k prev self_k out Hk -> Hon Hf He Ht.
    destruct (Hinv k self_k out Hk) as (e & s1 & Hek & Hp & Hsame).
    apply range_lookup in Hek. subst e.
    destruct (partial_unfreeze_on_schedule (trainer_before self trace k) k)
      as (s1' & Hp' & Hon'); [lia|lia|exact Hon|].
    rewrite Hp in Hp'. inversion Hp'; subst s1'. clear Hp'.
    destruct (partial_unfreeze_fields _ _ _ Hp) as (P1 & P2 & P3).
    split; [eapply on_schedule_same; eassumption|].
    destruct Hsame as (_ & S1 & S2 & S3). repeat split; congruence. }
  induction k as [|k IH]; intros self_k out Hk.
  - eapply Hstep; [exact Hk|reflexivity|exact H0|reflexivity..].
  - destruct (trace !! k) as [[s o]|] eqn:Ek.
    + destruct (IH s o eq_refl) as (I1 & I2 & I3 & I4).
      eapply Hstep; [exact Hk| |exact I1|exact I2|exact I3|exact I4].
      simpl. rewrite Ek. reflexivity.
    + apply lookup_ge_None in Ek. apply lookup_lt_Some in Hk. lia.
Qed.

End ScheduleFacts.

(** C1, the schedule of the code against the schedule of the claim.  The
    constructor is given [unfreeze_from = 3] and [unfreeze_every = 2] on
    the toy network of three blocks, and [fit] runs four epochs: one block
    is unfrozen after each of the first three epochs and two after the
    fourth.  The schedule of the claim, which is the one the docstring of
    [_partial_unfreeze] announces ("every [unfreeze_every] epochs,
    starting from [unfreeze_from]"), has two blocks from the third epoch
    on: the test [epoch % unfreeze_every == 0] makes the code wait for the
    next multiple of [unfreeze_every]. *)
Example schedule_waits_for_a_multiple_of_unfreeze_every :
  @CLIPFinetuner.__init__ Toy.extern Toy.store "ViT-B/32" 0%nat 0.25%float 2
    0.5%float 3 2 [3; 1; 2]%nat
  = Ok (Toy.store_built, Toy.trainer)
  /\ (match @CLIPFinetuner.fit Toy.extern Toy.store_built (fun _ => [])
              Toy.trainer 4 true Toy.fresh with
      | Ok (trace, _) => map (fun x => @unfrozen_counts Toy.extern (fst x)) trace
      | Raise _ => []
      end,
      map (claimed_blocks 3 2 3) [1; 2; 3; 4]%nat)
     = ([(1, 1); (1, 1); (1, 1); (2, 2)], [1; 1; 2; 2]).
Proof. split; vm_compute; reflexivity. Qed.

(** X23.  Let the trainer be the one the constructor built on a network
    whose blocks all have parameters, with [unfreeze_from >= 1] and
    [unfreeze_every >= 1], and let [fit] run on it for the first time.
    After the epoch number [k + 1] (epochs counted from 1), the number of
    unfrozen blocks in each tower is the one block of the constructor plus
    one block for each epoch so far that was at least [unfreeze_from] and
    a multiple of [unfreeze_every], capped at [tot_blocks]: each such
    epoch unfreezes exactly one more block while some are left, the other
    epochs none, and the number never exceeds [tot_blocks]. *)
Theorem schedule_unfreezes_one_block_per_due_epoch `{Extern}
    (h : heap) (model_name : string) (dataset : loc) (val_split : float)
    (batch_size : Z) (lr : float) (unfreeze_from unfreeze_every : Z)
    (draws : list nat) (fl0 : CLIP.flags) (w0 : state_dict)
    (h' : heap) (self : CLIPFinetuner.t)
    (shuffles : Z -> list nat) (epochs : Z) (verbose : bool) (rt : runtime)
    (trace : list (CLIPFinetuner.t * list (event state_dict))) (rt' : runtime)
    (k : nat) (self_k : CLIPFinetuner.t) (out : list (event state_dict)) :
  clip_load model_name = Ok (fl0, w0) ->
  Forall (fun blk => blk <> []) (CLIP.visual_resblocks fl0) ->
  Forall (fun blk => blk <> []) (CLIP.resblocks fl0) ->
  CLIPFinetuner.__init__ h model_name dataset val_split batch_size lr
    unfreeze_from unfreeze_every draws = Ok (h', self) ->
  1 <= unfreeze_from ->
  1 <= unfreeze_every ->
  CLIPFinetuner.fit h' shuffles self epochs verbose rt = Ok (trace, rt') ->
  trace !! k = Some (self_k, out) ->
  let T := CLIPFinetuner._tot_blocks self in
  let blocks := scheduled_blocks unfreeze_from unfreeze_every T in
  unfrozen_counts self_k = (blocks (S k), blocks (S k))
  /\ blocks (S k) <= T
  /\ blocks (S k)
     = blocks k
       + (if due unfreeze_from unfreeze_every (Z.of_nat k + 1) && (blocks k <? T)
          then 1 else 0).
Proof.
  intros Hload Hnv Hnt Hinit HF HN Hfit Hk T blocks.
  destruct (init_on_schedule _ _ _ _ _ _ _ _ _ _ _ _ _ Hload Hnv Hnt Hinit)
    as (H0 & Hf & He).
  unfold CLIPFinetuner.fit in Hfit.
  assert (HF' : 1 <= CLIPFinetuner._unfreeze_from self) by (rewrite Hf; exact HF).
  assert (HN' : 1 <= CLIPFinetuner._unfreeze_every self) by (rewrite He; exact HN).
  destruct (trace_on_schedule _ _ _ _ _ _ _ HF' HN' H0 Hfit
              k self_k out Hk) as ([Htot Hlast] & Hfk & Hek & Htk).
  rewrite Hfk, Hek, Hf, He in Hlast.
  assert (HT : Z.of_nat
                 (length (CLIP.visual_resblocks
                            (CLIPFinetuner.requires_grad
                               (CLIPFinetuner._model self_k)))) = T)
    by (unfold T; congruence).
  rewrite HT in Hlast. fold blocks in Hlast.
  pose proof (firings_nonneg unfreeze_from unfreeze_every (S k)) as Hfn.
  pose proof (firings_nonneg unfreeze_from unfreeze_every k) as Hfn'.
  assert (HT0 : 0 <= T) by lia.
  destruct Hlast as (Hlv & Hlt & Hc & Hsv & Hst & Hbv & Hbt).
  split; [|split].
  - unfold unfrozen_counts.
    rewrite (tower_state_count _ _ _ Hsv Hbv) by lia.
    rewrite (tower_state_count _ _ _ Hst Hbt) by lia.
    assert (Hb : 0 <= blocks (S k) <= T)
      by (unfold blocks, scheduled_blocks; lia).
    f_equal; lia.
  - unfold blocks, scheduled_blocks. lia.
  - unfold blocks, scheduled_blocks.
    rewrite (firings_S unfreeze_from unfreeze_every k).
    rewrite Nat2Z.inj_succ, <- Z.add_1_r.
    destruct (due unfreeze_from unfreeze_every (Z.of_nat k + 1)); cbn [andb].
    + destruct (Z.min T (1 + firings unfreeze_from unfreeze_every k) <? T) eqn:E.
      * apply Z.ltb_lt in E. lia.
      * apply Z.ltb_ge in E. lia.
    + lia.
Qed.

(** X23 on the toy trainer ([unfreeze_from = 3], [unfreeze_every = 2],
    three blocks): after the sixth epoch all three blocks are unfrozen. *)
Lemma schedule_unfreezes_one_block_per_due_epoch_witness :
  @unfrozen_counts Toy.extern (Toy.after 5) = (3, 3).
Proof.
  refine (proj1 (@schedule_unfreezes_one_block_per_due_epoch Toy.extern
                   Toy.store "ViT-B/32" 0%nat 0.25%float 2 0.5%float 3 2
                   [3; 1; 2]%nat Toy.loaded_flags 0 Toy.store_built Toy.trainer
                   (fun _ => []) 7 true Toy.fresh Toy.trace7 Toy.runtime7
                   5%nat (Toy.after 5) (Toy.wrote 5) _ _ _ _ _ _ _ _)).
  - reflexivity.
  - repeat constructor; discriminate.
  - repeat constructor; discriminate.
  - vm_compute. reflexivity.
  - lia.
  - lia.
  - vm_compute. reflexivity.
  - vm_compute. reflexivity.
Defined.

(** * Further properties of the module *)

(** ** Early stopping: the histories and the patience *)

Section StopperRuns.

Import EarlyStopping.

Context {W : Type}.

(** A call appends its three numbers to the three histories and leaves the
    directory. *)
Lemma call_appends (model : W) (self : t) (tl vl vs : float) self' out stop :
  __call__ model self tl vl vs = Ok (self', out, stop) ->
  _train_loss self' = _train_loss self ++ [tl]
  /\ _val_loss self' = _val_loss self ++ [vl]
  /\ _val_scores self' = _val_scores self ++ [vs]
  /\ _dir_path self' = _dir_path self.
Proof.
  unfold __call__, _is_improvement.
  destruct self as [p best c mode st dir l1 l2 l3]; simpl.
  destruct best as [b|]; simpl.
  - destruct (String.eqb mode "max"); simpl.
    + destruct (PrimFloat.ltb b vs); simpl.
      * intros Hc; inversion Hc; subst; simpl; auto.
      * destruct (c + 1 >=? p); simpl; intros Hc; inversion Hc; subst; simpl; auto.
    + destruct (PrimFloat.ltb vs b); simpl.
      * intros Hc; inversion Hc; subst; simpl; auto.
      * destruct (c + 1 >=? p); simpl; intros Hc; inversion Hc; subst; simpl; auto.
  - intros Hc; inversion Hc; subst; simpl; auto.
Qed.

Lemma calls_lists (rs : list (report W)) :
  forall (self : t) results,
    calls self rs = Ok results ->
    forall n self_n out stop,
      results !! n = Some (self_n, out, stop) ->
      _train_loss self_n = _train_loss self ++ map train_loss (take (S n) rs)
      /\ _val_loss self_n = _val_loss self ++ map val_loss (take (S n) rs)
      /\ _val_scores self_n = _val_scores self ++ map val_score (take (S n) rs)
      /\ _dir_path self_n = _dir_path self.
Proof.
  induction rs as [|r rs IH]; intros self results Hrun n self_n out stop Hn.
  - simpl in Hrun. inversion Hrun; subst. rewrite lookup_nil in Hn. discriminate.
  - simpl in Hrun.
    destruct (__call__ (model_now r) self (train_loss r) (val_loss r) (val_score r))
      as [[[s1 o1] b1]|] eqn:Hc; simpl in Hrun; [|discriminate].
    destruct (calls s1 rs) as [rest|] eqn:Hrest; simpl in Hrun; [|discriminate].
    inversion Hrun; subst. clear Hrun.
    destruct (call_appends _ _ _ _ _ _ _ _ Hc) as (A1 & A2 & A3 & A4).
    destruct n as [|n]; simpl in Hn.
    + inversion Hn; subst. simpl. auto.
    + destruct (IH s1 rest Hrest n self_n out stop Hn) as (B1 & B2 & B3 & B4).
      rewrite B1, B2, B3, B4, A1, A2, A3, A4.
      cbn [take map]. rewrite <- !app_assoc. simpl. auto.
Qed.

Lemma stagnation_count_nonneg mode past : 0 <= stagnation_count mode past.
Proof.
  induction past as [|s older IH]; cbn [stagnation_count]; [lia|].
  destruct (non_improving mode s older); lia.
Qed.

Lemma stagnation_count_bound mode past :
  stagnation_count mode past <= Z.max 0 (Z.of_nat (length past) - 1).
Proof.
  induction past as [|s older IH]; cbn [stagnation_count]; [lia|].
  destruct (non_improving mode s older) eqn:E; [|lia].
  destruct older as [|s' older]; [discriminate E|].
  cbn [length] in *. lia.
Qed.

(** The patience is reached only by a history longer than it, and never by
    a first score. *)
Lemma patience_reached_length mode patience past :
  patience_reached mode patience past = true ->
  (2 <= length past)%nat /\ patience < Z.of_nat (length past).
Proof.
  induction past as [|s older IH]; cbn [patience_reached]; [discriminate|].
  intros Hr. apply orb_true_iff in Hr. destruct Hr as [Hr|Hr].
  - destruct (IH Hr). cbn [length]. lia.
  - apply andb_true_iff in Hr. destruct Hr as [Hn Hp].
    apply Z.leb_le in Hp.
    pose proof (stagnation_count_bound mode (s :: older)) as Hb.
    destruct older as [|s' older]; [discriminate Hn|].
    cbn [length] in *. lia.
Qed.

Lemma patience_reached_low mode patience past :
  patience <= 1 ->
  patience_reached mode patience past = patience_reached mode 1 past.
Proof.
  intros Hp. induction past as [|s older IH]; [reflexivity|].
  cbn [patience_reached stagnation_count]. rewrite IH. f_equal.
  destruct (non_improving mode s older); [|reflexivity].
  pose proof (stagnation_count_nonneg mode older) as H0. cbn [andb].
  destruct (Z.leb_spec patience (stagnation_count mode older + 1));
    destruct (Z.leb_spec 1 (stagnation_count mode older + 1));
    try reflexivity; lia.
Qed.

Lemma strictly_improves_other_mode mode s best :
  mode <> "max" ->
  strictly_improves mode s best = strictly_improves "min" s best.
Proof.
  intros Hm. unfold strictly_improves. destruct best as [b|]; [|reflexivity].
  destruct (String.eqb_spec mode "max"); [contradiction|reflexivity].
Qed.

Lemma best_so_far_other_mode mode past :
  mode <> "max" -> best_so_far mode past = best_so_far "min" past.
Proof.
  intros Hm. induction past as [|s older IH]; [reflexivity|].
  cbn [best_so_far]. rewrite IH.
  destruct (best_so_far "min" older); [|reflexivity].
  rewrite strictly_improves_other_mode by exact Hm. reflexivity.
Qed.

Lemma non_improving_other_mode mode s older :
  mode <> "max" -> non_improving mode s older = non_improving "min" s older.
Proof.
  intros Hm. unfold non_improving.
  rewrite best_so_far_other_mode by exact Hm.
  destruct (best_so_far "min" older); [|reflexivity].
  rewrite strictly_improves_other_mode by exact Hm. reflexivity.
Qed.

Lemma stagnation_count_other_mode mode past :
  mode <> "max" -> stagnation_count mode past = stagnation_count "min" past.
Proof.
  intros Hm. induction past as [|s older IH]; [reflexivity|].
  cbn [stagnation_count]. rewrite IH, non_improving_other_mode by exact Hm.
  reflexivity.
Qed.

Lemma patience_reached_other_mode mode patience past :
  mode <> "max" ->
  patience_reached mode patience past = patience_reached "min" patience past.
Proof.
  intros Hm. induction past as [|s older IH]; [reflexivity|].
  cbn [patience_reached]. rewrite IH.
  rewrite non_improving_other_mode by exact Hm.
  rewrite (stagnation_count_other_mode mode (s :: older)) by exact Hm.
  reflexivity.
Qed.

Lemma scores_before_length (rs : list (report W)) (n : nat) :
  (n <= length rs)%nat -> length (scores_before rs n) = n.
Proof.
  intros Hn. unfold scores_before.
  rewrite length_rev, length_map, length_take. lia.
Qed.

(** A run of calls on a fresh object, as its caller observes it. *)
Lemma calls_observed (patience : Z) (dir_path mode : string) (rs : list (report W)) :
  exists results,
    calls (__init__ patience dir_path mode) rs = Ok results
    /\ length results = length rs
    /\ map (fun x => (snd (fst x), snd x)) results
       = imap (observed mode patience dir_path rs) rs.
Proof.
  destruct (calls_track rs (__init__ patience dir_path mode) []
              (tracks_init patience dir_path mode))
    as (results & Hrun & Hlen & Hres).
  exists results. split; [exact Hrun|]. split; [exact Hlen|].
  apply list_eq. intros n.
  rewrite list_lookup_fmap, list_lookup_imap.
  destruct (results !! n) as [[[self out] stop]|] eqn:En.
  - assert (Hlt : (n < length rs)%nat)
      by (rewrite <- Hlen; eapply lookup_lt_Some; exact En).
    destruct (lookup_lt_is_Some_2 rs n Hlt) as [r Hr]. rewrite Hr.
    destruct (Hres n r self out stop Hr En) as (Hs & Hm & Hp & Htr & Hout).
    rewrite !app_nil_r in *. cbn [_mode _patience _dir_path __init__] in *.
    destruct Htr as (_ & _ & Hst). rewrite Hm, Hp in Hst.
    cbn [fmap option_fmap option_map snd fst]. unfold observed.
    f_equal. f_equal; [|congruence].
    destruct (strictly_improves mode (val_score r)
                (best_so_far mode (scores_before rs n)));
      [destruct Hout as (-> & _); reflexivity|exact Hout].
  - apply lookup_ge_None in En. rewrite Hlen in En.
    apply lookup_ge_None in En. rewrite En. reflexivity.
Qed.

(** A call on a fresh object that returns [True] is not the first one and
    comes after more than [patience] calls. *)
Lemma fresh_stop_late (patience : Z) (dir_path mode : string)
    (rs : list (report W)) results n self out :
  calls (__init__ patience dir_path mode) rs = Ok results ->
  results !! n = Some (self, out, true) ->
  (1 <= n)%nat /\ patience <= Z.of_nat n.
Proof.
  intros Hrun0 Hn.
  destruct (calls_track rs (__init__ patience dir_path mode) []
              (tracks_init patience dir_path mode))
    as (results' & Hrun & Hlen & Hres).
  rewrite Hrun0 in Hrun. inversion Hrun; subst results'. clear Hrun.
  assert (Hlt : (n < length rs)%nat)
    by (rewrite <- Hlen; eapply lookup_lt_Some; exact Hn).
  destruct (lookup_lt_is_Some_2 rs n Hlt) as [r Hr].
  destruct (Hres n r self out true Hr Hn) as (Hs & Hm & Hp & (_ & _ & Hst) & _).
  rewrite app_nil_r, <- Hs in Hst. symmetry in Hst.
  apply patience_reached_length in Hst.
  rewrite scores_before_length in Hst by lia.
  rewrite Hp in Hst. cbn [_patience __init__] in Hst.
  lia.
Qed.

(** A run of calls none of which improves on the stored best score: no
    call writes, the best score stays, the counter grows by one per call
    and the flag is set once the counter reaches the patience. *)
Lemma stagnant_calls (rs : list (report W)) :
  forall (self : t) (best : float),
    _best_score self = Some best ->
    Forall (fun r => strictly_improves (_mode self) (val_score r) (Some best) = false) rs ->
    exists results,
      calls self rs = Ok results
      /\ length results = length rs
      /\ forall n self_n out stop,
           results !! n = Some (self_n, out, stop) ->
           out = []
           /\ _best_score self_n = Some best
           /\ _counter self_n = _counter self + Z.of_nat (S n)
           /\ stop = (_stop self || (_patience self <=? _counter self + Z.of_nat (S n))).
Proof.
  induction rs as [|r rs IH]; intros self best Hb Hall.
  - exists []. split; [reflexivity|]. split; [reflexivity|].
    intros n self_n out stop Hn. rewrite lookup_nil in Hn. discriminate.
  - inversion Hall as [|? ? Hr Hrest]; subst.
    destruct (call_cases (model_now r) self (train_loss r) (val_loss r) (val_score r))
      as (self' & out & Hcall & Hm & Hp & _ & Hcase).
    rewrite Hb, Hr in Hcase. destruct Hcase as (-> & Hb' & Hc' & Hs').
    rewrite <- Hm in Hrest.
    destruct (IH self' best Hb' Hrest) as (results & Hrun & Hlen & Hres).
    exists ((self', [], _stop self') :: results).
    split; [simpl; rewrite Hcall; simpl; rewrite Hrun; reflexivity|].
    split; [simpl; congruence|].
    intros n self_n out stop Hn. destruct n as [|n]; simpl in Hn.
    + inversion Hn; subst. clear Hn.
      split; [reflexivity|]. split; [exact Hb'|].
      split; [rewrite Hc'; lia|]. rewrite Hs'. reflexivity.
    + destruct (Hres n self_n out stop Hn) as (-> & Hbn & Hcn & ->).
      split; [reflexivity|]. split; [exact Hbn|].
      split; [rewrite Hcn, Hc'; lia|].
      rewrite Hs', Hp, Hc'.
      destruct (_stop self); [reflexivity|]. cbn [orb].
      destruct (Z.leb_spec (_patience self) (_counter self + 1));
        destruct (Z.leb_spec (_patience self) (_counter self + 1 + Z.of_nat (S n)));
        destruct (Z.leb_spec (_patience self) (_counter self + Z.of_nat (S (S n))));
        try reflexivity; lia.
Qed.

Lemma stagnant_run (patience : Z) (dir_path mode : string)
    (r0 : report W) (rs : list (report W)) :
  (forall r, r ∈ rs ->
     strictly_improves mode (val_score r) (Some (val_score r0)) = false) ->
  exists results,
    calls (__init__ patience dir_path mode) (r0 :: rs) = Ok results
    /\ length results = S (length rs)
    /\ forall n self out stop,
         results !! n = Some (self, out, stop) ->
         out = []
         /\ _best_score self = Some (val_score r0)
         /\ _counter self = Z.of_nat n
         /\ stop = (Z.max patience 1 <=? Z.of_nat n).
Proof.
  intros Hall.
  destruct (call_cases (model_now r0) (__init__ patience dir_path mode)
              (train_loss r0) (val_loss r0) (val_score r0))
    as (self' & out & Hcall & Hm & Hp & _ & Hcase).
  cbn [_best_score __init__ _counter _stop _mode _patience] in Hcase, Hm, Hp.
  destruct Hcase as (-> & Hb' & Hc' & Hs').
  rewrite <- Hm in Hall. apply Forall_forall in Hall.
  destruct (stagnant_calls rs self' (val_score r0) Hb' Hall)
    as (results & Hrun & Hlen & Hres).
  exists ((self', [], _stop self') :: results).
  split; [cbn [calls]; rewrite Hcall; simpl; rewrite Hrun; reflexivity|].
  split; [simpl; congruence|].
  intros n self out stop Hn. destruct n as [|n]; simpl in Hn.
  - inversion Hn; subst. clear Hn.
    split; [reflexivity|]. split; [exact Hb'|]. split; [exact Hc'|].
    rewrite Hs'. symmetry. apply Z.leb_gt. lia.
  - destruct (Hres n self out stop Hn) as (-> & Hbn & Hcn & ->).
    split; [reflexivity|]. split; [exact Hbn|].
    split; [rewrite Hcn, Hc'; lia|].
    rewrite Hs', Hp, Hc'. cbn [orb].
    destruct (Z.leb_spec patience (0 + Z.of_nat (S n)));
      destruct (Z.leb_spec (Z.max patience 1) (Z.of_nat (S n)));
      try reflexivity; lia.
Qed.

End StopperRuns.

Section FloatFacts.

(** A NaN is neither smaller nor greater than any float. *)
Lemma ltb_nan (b x : float) :
  PrimFloat.is_nan b = true ->
  PrimFloat.ltb b x = false /\ PrimFloat.ltb x b = false.
Proof.
  unfold PrimFloat.is_nan. intros Hn. apply negb_true_iff in Hn.
  rewrite FloatAxioms.eqb_spec in Hn. apply SFeqb_refl_nan in Hn.
  rewrite !ltb_spec, Hn. unfold SFltb. cbn [SFcompare].
  split; [reflexivity|]. destruct (Prim2SF x); reflexivity.
Qed.

Lemma nothing_improves_on_nan mode (b vs : float) :
  PrimFloat.is_nan b = true -> strictly_improves mode vs (Some b) = false.
Proof.
  intros Hn. destruct (ltb_nan b vs Hn) as [H1 H2].
  unfold strictly_improves. rewrite H1, H2. destruct (String.eqb mode "max"); reflexivity.
Qed.

End FloatFacts.

(** X1.  After each call of a run of calls on a freshly built
    [EarlyStopping], the three histories hold the training losses, the
    validation losses and the validation scores of all the calls made so
    far, in order (the calls made after the stop flag was set included),
    so that [_save_lists] dumps exactly them: the pair of the two loss
    histories to "loss.pkl" and the scores to "score.pkl", both in the
    directory of the object. *)
Theorem save_lists_dumps_the_history {W : Type}
    (patience : Z) (dir_path mode : string)
    (rs : list (EarlyStopping.report W)) :
  exists results,
    EarlyStopping.calls (EarlyStopping.__init__ patience dir_path mode) rs
      = Ok results
    /\ length results = length rs
    /\ forall n self out stop,
         results !! n = Some (self, out, stop) ->
         EarlyStopping._save_lists self
         = [EarlyStopping.PickleDump
              (EarlyStopping.PLosses
                 (map EarlyStopping.train_loss (take (S n) rs))
                 (map EarlyStopping.val_loss (take (S n) rs)))
              (Py.os_path_join dir_path "loss.pkl");
            EarlyStopping.PickleDump
              (EarlyStopping.PScores
                 (map EarlyStopping.val_score (take (S n) rs)))
              (Py.os_path_join dir_path "score.pkl")].
Proof.
  destruct (calls_unfold rs (EarlyStopping.__init__ patience dir_path mode))
    as (results & Hrun & Hlen & _).
  exists results. split; [exact Hrun|]. split; [exact Hlen|].
  intros n self out stop Hn.
  destruct (calls_lists rs _ _ Hrun n self out stop Hn) as (A1 & A2 & A3 & A4).
  unfold EarlyStopping._save_lists. rewrite A1, A2, A3, A4. reflexivity.
Qed.

(** X2.  A freshly built [EarlyStopping] never returns [True] on its first
    call, nor on any of its first [patience] calls: a call that returns
    [True] is at least the call number [patience + 1] (the calls are
    numbered from 0 here, so its index is at least [patience]) and at
    least the second. *)
Theorem no_stop_within_patience {W : Type}
    (patience : Z) (dir_path mode : string)
    (rs : list (EarlyStopping.report W)) :
  exists results,
    EarlyStopping.calls (EarlyStopping.__init__ patience dir_path mode) rs
      = Ok results
    /\ length results = length rs
    /\ forall n self out,
         results !! n = Some (self, out, true) ->
         (1 <= n)%nat /\ patience <= Z.of_nat n.
Proof.
  destruct (calls_unfold rs (EarlyStopping.__init__ patience dir_path mode))
    as (results & Hrun & Hlen & _).
  exists results. split; [exact Hrun|]. split; [exact Hlen|].
  intros n self out Hn. eapply fresh_stop_late; eassumption.
Qed.

(** X3.  A patience of 0 or less behaves as a patience of 1: on the same
    reports, a fresh object built with [patience <= 1] writes the same
    checkpoints and returns the same flags as one built with patience 1
    (the first non-improving call sets the flag). *)
Theorem patience_below_one_is_one {W : Type}
    (patience : Z) (dir_path mode : string)
    (rs : list (EarlyStopping.report W)) :
  patience <= 1 ->
  exists results results1,
    EarlyStopping.calls (EarlyStopping.__init__ patience dir_path mode) rs
      = Ok results
    /\ EarlyStopping.calls (EarlyStopping.__init__ 1 dir_path mode) rs
       = Ok results1
    /\ map (fun x => (snd (fst x), snd x)) results
       = map (fun x => (snd (fst x), snd x)) results1.
Proof.
  intros Hp.
  destruct (calls_observed patience dir_path mode rs) as (results & Hrun & _ & Hobs).
  destruct (calls_observed 1 dir_path mode rs) as (results1 & Hrun1 & _ & Hobs1).
  exists results, results1. split; [exact Hrun|]. split; [exact Hrun1|].
  rewrite Hobs, Hobs1. apply imap_ext. intros n r _. unfold observed.
  rewrite patience_reached_low by exact Hp. reflexivity.
Qed.

(** X3 on a run: with patience -3 as with patience 1, the scores 1.0, 2.0,
    2.0, 3.0 in mode "max" give the flags False, False, True, True. *)
Lemma patience_below_one_is_one_witness :
  exists results results1,
    EarlyStopping.calls (EarlyStopping.__init__ (-3) "models" "max")
      [scored 1.0; scored 2.0; scored 2.0; scored 3.0] = Ok results
    /\ EarlyStopping.calls (EarlyStopping.__init__ 1 "models" "max")
         [scored 1.0; scored 2.0; scored 2.0; scored 3.0] = Ok results1
    /\ map snd results = [false; false; true; true]
    /\ map snd results1 = [false; false; true; true].
Proof.
  destruct (patience_below_one_is_one (-3) "models" "max"
              [scored 1.0; scored 2.0; scored 2.0; scored 3.0] ltac:(lia))
    as (results & results1 & Hrun & Hrun1 & _).
  exists results, results1. split; [exact Hrun|]. split; [exact Hrun1|].
  vm_compute in Hrun, Hrun1. inversion Hrun; inversion Hrun1. split; reflexivity.
Defined.

(** X4.  Every mode other than "max" ("min", but also "MAX" or a
    misspelling) selects the comparison of "min": on the same reports, a
    fresh object built with such a mode writes the same checkpoints and
    returns the same flags as one built with mode "min". *)
Theorem other_modes_minimise {W : Type}
    (patience : Z) (dir_path mode : string)
    (rs : list (EarlyStopping.report W)) :
  mode <> "max" ->
  exists results results_min,
    EarlyStopping.calls (EarlyStopping.__init__ patience dir_path mode) rs
      = Ok results
    /\ EarlyStopping.calls (EarlyStopping.__init__ patience dir_path "min") rs
       = Ok results_min
    /\ map (fun x => (snd (fst x), snd x)) results
       = map (fun x => (snd (fst x), snd x)) results_min.
Proof.
  intros Hm.
  destruct (calls_observed patience dir_path mode rs) as (results & Hrun & _ & Hobs).
  destruct (calls_observed patience dir_path "min" rs) as (results1 & Hrun1 & _ & Hobs1).
  exists results, results1. split; [exact Hrun|]. split; [exact Hrun1|].
  rewrite Hobs, Hobs1. apply imap_ext. intros n r _. unfold observed.
  rewrite strictly_improves_other_mode, best_so_far_other_mode,
    patience_reached_other_mode by exact Hm.
  reflexivity.
Qed.

(** X4 on a run: in mode "MAX" the scores 1.0, 2.0, 0.5 save a checkpoint
    at the third call only, the one with the smallest score. *)
Lemma other_modes_minimise_witness :
  exists results results_min,
    EarlyStopping.calls (EarlyStopping.__init__ 2 "models" "MAX")
      [scored 1.0; scored 2.0; scored 0.5] = Ok results
    /\ EarlyStopping.calls (EarlyStopping.__init__ 2 "models" "min")
         [scored 1.0; scored 2.0; scored 0.5] = Ok results_min
    /\ map (fun x => snd (fst x)) results
       = [[]; []; [TorchSave tt "models/checkpoint.pt"]].
Proof.
  destruct (other_modes_minimise 2 "models" "MAX"
              [scored 1.0; scored 2.0; scored 0.5] ltac:(discriminate))
    as (results & results1 & Hrun & Hrun1 & _).
  exists results, results1. split; [exact Hrun|]. split; [exact Hrun1|].
  vm_compute in Hrun. inversion Hrun. reflexivity.
Defined.

(** X5.  If no score after the first strictly improves on the first one,
    a run of calls on a fresh object never writes a checkpoint (the network
    of the first call, the best of the run, is not saved either), the best
    score stays the first score, the counter after the call of index [n]
    is [n], and the calls return [True] exactly from the index
    [max(patience, 1)] on. *)
Theorem stagnant_run_stops_after_patience {W : Type}
    (patience : Z) (dir_path mode : string)
    (r0 : EarlyStopping.report W) (rs : list (EarlyStopping.report W)) :
  Forall (fun r => strictly_improves mode (EarlyStopping.val_score r)
                     (Some (EarlyStopping.val_score r0)) = false) rs ->
  exists results,
    EarlyStopping.calls (EarlyStopping.__init__ patience dir_path mode) (r0 :: rs)
      = Ok results
    /\ length results = S (length rs)
    /\ forall n self out stop,
         results !! n = Some (self, out, stop) ->
         out = []
         /\ EarlyStopping._best_score self = Some (EarlyStopping.val_score r0)
         /\ EarlyStopping._counter self = Z.of_nat n
         /\ stop = (Z.max patience 1 <=? Z.of_nat n).
Proof.
  intros Hall. apply stagnant_run. intros r Hr.
  rewrite Forall_forall in Hall. apply Hall. exact Hr.
Qed.

(** X5 on a run: patience 2 in mode "max", the scores 3.0, 1.0, 3.0, 2.0
    (an equal score is no improvement). *)
Lemma stagnant_run_stops_after_patience_witness :
  exists results,
    EarlyStopping.calls (EarlyStopping.__init__ 2 "models" "max")
      [scored 3.0; scored 1.0; scored 3.0; scored 2.0] = Ok results
    /\ map snd results = [false; false; true; true]
    /\ map (fun x => snd (fst x)) results = [[]; []; []; []].
Proof.
  destruct (stagnant_run_stops_after_patience 2 "models" "max"
              (scored 3.0) [scored 1.0; scored 3.0; scored 2.0])
    as (results & Hrun & _).
  - repeat constructor.
  - exists results. split; [exact Hrun|].
    vm_compute in Hrun. inversion Hrun. split; reflexivity.
Defined.

(** X6.  If the first validation score is a NaN, then whatever the later
    scores are, in either mode: no checkpoint is ever written, the NaN
    stays the best score, and the calls return [True] exactly from the
    index [max(patience, 1)] on. *)
Theorem nan_first_score_never_saves {W : Type}
    (patience : Z) (dir_path mode : string)
    (r0 : EarlyStopping.report W) (rs : list (EarlyStopping.report W)) :
  PrimFloat.is_nan (EarlyStopping.val_score r0) = true ->
  exists results,
    EarlyStopping.calls (EarlyStopping.__init__ patience dir_path mode) (r0 :: rs)
      = Ok results
    /\ length results = S (length rs)
    /\ forall n self out stop,
         results !! n = Some (self, out, stop) ->
         out = []
         /\ EarlyStopping._best_score self = Some (EarlyStopping.val_score r0)
         /\ EarlyStopping._counter self = Z.of_nat n
         /\ stop = (Z.max patience 1 <=? Z.of_nat n).
Proof.
  intros Hn. apply stagnant_run. intros r _.
  apply nothing_improves_on_nan. exact Hn.
Qed.

(** X6 on a run: patience 2 in mode "max", a NaN followed by 1.0, 2.0,
    3.0. *)
Lemma nan_first_score_never_saves_witness :
  exists results,
    EarlyStopping.calls (EarlyStopping.__init__ 2 "models" "max")
      [scored nan; scored 1.0; scored 2.0; scored 3.0] = Ok results
    /\ map snd results = [false; false; true; true]
    /\ map (fun x => snd (fst x)) results = [[]; []; []; []].
Proof.
  destruct (nan_first_score_never_saves 2 "models" "max"
              (scored nan) [scored 1.0; scored 2.0; scored 3.0] eq_refl)
    as (results & Hrun & _).
  exists results. split; [exact Hrun|].
  vm_compute in Hrun. inversion Hrun. split; reflexivity.
Defined.

(** ** The captions file and the samples *)

Section LineFacts.

Lemma split_cases (sep : ascii) (s : string) :
  Py.split sep s
  = before sep s
      :: match after sep s with
         | Some rest => Py.split sep rest
         | None => []
         end.
Proof.
  induction s as [|c s IH]; [reflexivity|].
  cbn [Py.split before after]. destruct (Ascii.eqb c sep); [reflexivity|].
  rewrite IH. reflexivity.
Qed.

Lemma index_in_range (n i : Z) :
  0 <= i < n -> Py.index n i = Ok (Z.to_nat i).
Proof.
  intros Hi. unfold Py.index.
  destruct (Z.leb_spec 0 i); [|lia]. destruct (Z.ltb_spec i n); [|lia].
  reflexivity.
Qed.

Lemma index_out_of_range (n i : Z) :
  ~ (- n <= i < n) -> Py.index n i = Raise IndexError.
Proof.
  intros Hi. unfold Py.index.
  destruct (Z.leb_spec 0 i); destruct (Z.ltb_spec i n);
    destruct (Z.leb_spec (- n) i); destruct (Z.ltb_spec i 0);
    cbn [andb]; try reflexivity; lia.
Qed.

Lemma index_negative (n i : Z) :
  - n <= i < 0 -> Py.index n i = Py.index n (i + n).
Proof.
  intros Hi. rewrite (index_in_range n (i + n)) by lia. unfold Py.index.
  destruct (Z.leb_spec 0 i); [lia|]. cbn [andb].
  destruct (Z.leb_spec (- n) i); [|lia]. destruct (Z.ltb_spec i 0); [|lia].
  reflexivity.
Qed.

(** A line is parsed into its record, or raises [IndexError] when it holds
    no tab. *)
Lemma parse_line_fields (line : string) :
  ImageCaptionDataset.parse_line line
  = if has_tab line then Ok (record_of line) else Raise IndexError.
Proof.
  unfold ImageCaptionDataset.parse_line, has_tab, record_of.
  rewrite split_cases.
  destruct (after Py.tab line) as [rest|].
  - rewrite (split_cases Py.tab rest).
    set (tl := match after Py.tab rest with Some r => Py.split Py.tab r | None => [] end).
    unfold Py.getitem. cbn [length].
    rewrite (index_in_range _ 0), (index_in_range _ 1) by lia. reflexivity.
  - unfold Py.getitem. cbn [length].
    rewrite (index_in_range _ 0), (index_out_of_range _ 1) by lia. reflexivity.
Qed.

Lemma parse_lines_fields (lines : list string) :
  ImageCaptionDataset.parse_lines lines
  = if forallb has_tab lines then Ok (map record_of lines) else Raise IndexError.
Proof.
  induction lines as [|line lines IH]; [reflexivity|].
  cbn [ImageCaptionDataset.parse_lines forallb map].
  rewrite parse_line_fields. destruct (has_tab line); [|reflexivity].
  cbn [mbind result_bind andb]. rewrite IH.
  destruct (forallb has_tab lines); reflexivity.
Qed.

Lemma string_append_nil (s : string) : "" +:+ s = s.
Proof. reflexivity. Qed.

Lemma string_append_cons (c : ascii) (s1 s2 : string) :
  String c s1 +:+ s2 = String c (s1 +:+ s2).
Proof. reflexivity. Qed.

Lemma string_append_assoc (s1 s2 s3 : string) :
  (s1 +:+ s2) +:+ s3 = s1 +:+ (s2 +:+ s3).
Proof.
  induction s1 as [|c s1 IH]; [reflexivity|].
  rewrite !string_append_cons, IH. reflexivity.
Qed.

Lemma string_rev_app_append (s1 s2 acc : string) :
  String.rev_app (s1 +:+ s2) acc = String.rev_app s2 (String.rev_app s1 acc).
Proof.
  revert acc. induction s1 as [|c s1 IH]; intros acc; [reflexivity|].
  rewrite string_append_cons. cbn [String.rev_app]. apply IH.
Qed.

Lemma string_rev_app_acc (s acc : string) :
  String.rev_app s acc = String.rev s +:+ acc.
Proof.
  unfold String.rev. revert acc.
  induction s as [|c s IH]; intros acc; [reflexivity|].
  cbn [String.rev_app]. rewrite IH, (IH (String c "")).
  rewrite string_append_assoc. reflexivity.
Qed.

Lemma string_rev_snoc (s : string) (c : ascii) :
  String.rev (s +:+ String c "") = String c (String.rev s).
Proof. unfold String.rev. rewrite string_rev_app_append. reflexivity. Qed.

Lemma string_rev_cons (s : string) (c : ascii) :
  String.rev (String c s) = String.rev s +:+ String c "".
Proof. unfold String.rev at 1. cbn [String.rev_app]. apply string_rev_app_acc. Qed.

Lemma string_rev_involutive (s : string) : String.rev (String.rev s) = s.
Proof.
  induction s as [|c s IH]; [reflexivity|].
  rewrite string_rev_cons, string_rev_snoc, IH. reflexivity.
Qed.

Lemma strip_start_facts (cs : list string) (n : nat) :
  forall s, (String.length s <= n)%nat ->
    kept cs (Py.strip_start cs s) = true
    /\ exists p, s = p +:+ Py.strip_start cs s.
Proof.
  induction n as [|n IH]; intros s Hs.
  - destruct s; [|simpl in Hs; lia]. split; [reflexivity|exists ""; reflexivity].
  - destruct s as [|a s1]; [split; [reflexivity|exists ""; reflexivity]|].
    cbn [Py.strip_start]. simpl in Hs.
    destruct (Py.member (String a "") cs) eqn:E1.
    { destruct (IH s1 ltac:(lia)) as [Hk [p Hp]]. split; [exact Hk|].
      exists (String a p). rewrite string_append_cons, <- Hp. reflexivity. }
    destruct s1 as [|b s2].
    { split; [cbn [kept]; rewrite E1; reflexivity|exists ""; reflexivity]. }
    simpl in Hs.
    destruct (Py.member (String a (String b "")) cs) eqn:E2.
    { destruct (IH s2 ltac:(lia)) as [Hk [p Hp]]. split; [exact Hk|].
      exists (String a (String b p)).
      rewrite !string_append_cons, <- Hp. reflexivity. }
    destruct s2 as [|c s3].
    { split; [cbn [kept]; rewrite E1, E2; reflexivity|exists ""; reflexivity]. }
    simpl in Hs.
    destruct (Py.member (String a (String b (String c ""))) cs) eqn:E3.
    { destruct (IH s3 ltac:(lia)) as [Hk [p Hp]]. split; [exact Hk|].
      exists (String a (String b (String c p))).
      rewrite !string_append_cons, <- Hp. reflexivity. }
    split; [cbn [kept]; rewrite E1, E2, E3; reflexivity|exists ""; reflexivity].
Qed.

Lemma strip_start_kept (cs : list string) (s : string) : kept cs (Py.strip_start cs s) = true.
Proof. apply (strip_start_facts cs (String.length s) s). lia. Qed.

Lemma strip_start_suffix (cs : list string) (s : string) : exists p, s = p +:+ Py.strip_start cs s.
Proof. apply (strip_start_facts cs (String.length s) s). lia. Qed.

Lemma kept_strip_start (cs : list string) (s : string) :
  kept cs s = true -> Py.strip_start cs s = s.
Proof.
  destruct s as [|a [|b [|c s]]]; cbn [kept Py.strip_start]; try reflexivity.
  - destruct (Py.member _ cs); [discriminate|reflexivity].
  - destruct (Py.member (String a "") cs); [discriminate|].
    destruct (Py.member _ cs); [discriminate|reflexivity].
  - destruct (Py.member (String a "") cs); [discriminate|].
    destruct (Py.member (String a (String b "")) cs); [discriminate|].
    destruct (Py.member _ cs); [discriminate|reflexivity].
Qed.

Lemma strip_start_idempotent (cs : list string) (s : string) :
  Py.strip_start cs (Py.strip_start cs s) = Py.strip_start cs s.
Proof. apply kept_strip_start, strip_start_kept. Qed.

Lemma kept_prefix (cs : list string) (v x : string) : kept cs (v +:+ x) = true -> kept cs v = true.
Proof.
  destruct v as [|a [|b [|c v]]]; rewrite ?string_append_cons, ?string_append_nil;
    cbn [kept]; try reflexivity.
  - destruct (Py.member (String a "") cs); [destruct x; discriminate|reflexivity].
  - destruct (Py.member (String a "") cs); [discriminate|].
    destruct (Py.member (String a (String b "")) cs);
      [destruct x; discriminate|reflexivity].
  - auto.
Qed.

(** A text that starts with one of [cs] is not kept. *)
Lemma kept_member (cs : list string) (e t : string) :
  Py.member e cs = true -> (1 <= String.length e <= 3)%nat ->
  kept cs (e +:+ t) = false.
Proof.
  intros He Hl.
  destruct e as [|a [|b [|c [|d e]]]]; simpl in Hl; try lia;
    rewrite ?string_append_cons, ?string_append_nil; cbn [kept].
  - rewrite He. reflexivity.
  - destruct (Py.member (String a "") cs); [reflexivity|]. rewrite He. reflexivity.
  - destruct (Py.member (String a "") cs); [reflexivity|].
    destruct (Py.member (String a (String b "")) cs); [reflexivity|].
    rewrite He. reflexivity.
Qed.


Lemma string_rev_append (s1 s2 : string) :
  String.rev (s1 +:+ s2) = String.rev s2 +:+ String.rev s1.
Proof.
  unfold String.rev at 1. rewrite string_rev_app_append, string_rev_app_acc.
  reflexivity.
Qed.

Lemma member_In (c : string) (cs : list string) :
  Py.member c cs = true <-> In c cs.
Proof.
  unfold Py.member. rewrite existsb_exists. split.
  - intros (e & He & Heq). apply String.eqb_eq in Heq. subst. exact He.
  - intros Hc. exists c. split; [exact Hc|apply String.eqb_refl].
Qed.

Lemma member_rev (c : string) (cs : list string) :
  Py.member c cs = true -> Py.member (String.rev c) (map String.rev cs) = true.
Proof. rewrite !member_In. apply in_map. Qed.

(** Every white-space character is encoded on one to three bytes. *)
Lemma isspace_length (c : string) :
  Py.isspace c = true -> (1 <= String.length c <= 3)%nat.
Proof.
  unfold Py.isspace. rewrite member_In. unfold Py.spaces. cbn [In].
  intros Hc. repeat (destruct Hc as [<-|Hc]; [simpl; lia|]). contradiction.
Qed.

Lemma spaces_split_at_line_feed (cs : list string) :
  cs = Py.spaces \/ cs = map String.rev Py.spaces -> splits_at_line_feed cs.
Proof.
  intros Hcs. split; [destruct Hcs as [-> | ->]; reflexivity|].
  split; intros; (destruct (Py.member _ cs) eqn:E; [|reflexivity]);
    apply member_In in E; exfalso;
    (destruct Hcs as [-> | ->]; cbn in E;
     repeat (destruct E as [E|E]; [discriminate E|]); exact E).
Qed.

Lemma strip_start_line_feed (cs : list string) (n : nat) :
  splits_at_line_feed cs ->
  forall s, (String.length s <= n)%nat ->
    Py.strip_start cs (s +:+ String line_feed "")
    = match Py.strip_start cs s with
      | EmptyString => EmptyString
      | String a t => String a t +:+ String line_feed ""
      end.
Proof.
  intros (H1 & H2 & H3).
  induction n as [|n IH]; intros s Hs.
  - destruct s; [|simpl in Hs; lia]. rewrite string_append_nil.
    cbn [Py.strip_start]. rewrite H1. reflexivity.
  - destruct s as [|a s1].
    { rewrite string_append_nil. cbn [Py.strip_start]. rewrite H1. reflexivity. }
    simpl in Hs. rewrite string_append_cons. cbn [Py.strip_start].
    destruct (Py.member (String a "") cs) eqn:E1; [apply IH; lia|].
    destruct s1 as [|b s2].
    { rewrite string_append_nil, H2. reflexivity. }
    simpl in Hs. rewrite string_append_cons.
    destruct (Py.member (String a (String b "")) cs) eqn:E2; [apply IH; lia|].
    destruct s2 as [|c s3].
    { rewrite string_append_nil, H3. reflexivity. }
    simpl in Hs. rewrite string_append_cons.
    destruct (Py.member (String a (String b (String c ""))) cs) eqn:E3;
      [apply IH; lia|reflexivity].
Qed.

(** Stripping twice is stripping once. *)
Lemma strip_idempotent (s : string) : Py.strip (Py.strip s) = Py.strip s.
Proof.
  unfold Py.strip, Py.rstrip, Py.lstrip.
  set (u := Py.strip_start Py.spaces s).
  set (w := Py.strip_start (map String.rev Py.spaces) (String.rev u)).
  assert (Hu : kept Py.spaces u = true) by apply strip_start_kept.
  assert (Hw : kept (map String.rev Py.spaces) w = true) by apply strip_start_kept.
  destruct (strip_start_suffix (map String.rev Py.spaces) (String.rev u)) as [p Hp].
  fold w in Hp.
  assert (Hv : kept Py.spaces (String.rev w) = true).
  { apply (kept_prefix _ _ (String.rev p)).
    rewrite <- string_rev_append, <- Hp, string_rev_involutive. exact Hu. }
  rewrite (kept_strip_start _ _ Hv), string_rev_involutive.
  rewrite (kept_strip_start _ _ Hw). reflexivity.
Qed.

(** The line feed that ends a line does not change what [strip] returns. *)
Lemma strip_trailing_line_feed (s : string) :
  Py.strip (s +:+ String line_feed "") = Py.strip s.
Proof.
  unfold Py.strip, Py.rstrip, Py.lstrip.
  rewrite (strip_start_line_feed Py.spaces (String.length s)
             (spaces_split_at_line_feed _ (or_introl eq_refl)) s (le_n _)).
  destruct (Py.strip_start Py.spaces s) as [|a t]; [reflexivity|].
  rewrite string_rev_snoc. cbn [Py.strip_start].
  replace (Py.member (String line_feed "") (map String.rev Py.spaces))
    with true by reflexivity.
  reflexivity.
Qed.

(** What [strip] returns neither starts nor ends with a white-space
    character. *)
Lemma strip_no_space_at_ends (s c t : string) :
  Py.isspace c = true ->
  Py.strip s <> c +:+ t /\ Py.strip s <> t +:+ c.
Proof.
  intros Hc. pose proof (isspace_length c Hc) as Hl.
  unfold Py.strip, Py.rstrip, Py.lstrip.
  set (u := Py.strip_start Py.spaces s).
  set (w := Py.strip_start (map String.rev Py.spaces) (String.rev u)).
  assert (Hu : kept Py.spaces u = true) by apply strip_start_kept.
  assert (Hw : kept (map String.rev Py.spaces) w = true) by apply strip_start_kept.
  destruct (strip_start_suffix (map String.rev Py.spaces) (String.rev u)) as [p Hp].
  fold w in Hp.
  assert (Hv : kept Py.spaces (String.rev w) = true).
  { apply (kept_prefix _ _ (String.rev p)).
    rewrite <- string_rev_append, <- Hp, string_rev_involutive. exact Hu. }
  split; intros E.
  - rewrite E, (kept_member _ c t Hc Hl) in Hv. discriminate.
  - apply (f_equal String.rev) in E.
    rewrite string_rev_involutive, string_rev_append in E.
    rewrite E, (kept_member _ (String.rev c) (String.rev t)) in Hw;
      [discriminate|apply member_rev; exact Hc|].
    clear -Hl. destruct c as [|a [|b [|d [|e c]]]]; simpl in *; lia.
Qed.

Lemma before_append (sep : ascii) (a b : string) :
  after sep a = None ->
  before sep (a +:+ String sep b) = a
  /\ after sep (a +:+ String sep b) = Some b.
Proof.
  induction a as [|c a IH]; rewrite ?string_append_nil, ?string_append_cons;
    cbn [before after]; intros Ha.
  - rewrite Ascii.eqb_refl. auto.
  - destruct (Ascii.eqb c sep); [discriminate|].
    destruct (IH Ha) as [-> ->]. auto.
Qed.

Lemma before_all (sep : ascii) (a : string) :
  after sep a = None -> before sep a = a.
Proof.
  induction a as [|c a IH]; cbn [before after]; [reflexivity|].
  destruct (Ascii.eqb c sep); [discriminate|]. intros Ha. rewrite IH by exact Ha.
  reflexivity.
Qed.

Lemma after_append_no_sep (sep : ascii) (a b : string) :
  after sep a = None -> after sep b = None -> after sep (a +:+ b) = None.
Proof.
  intros Ha Hb. induction a as [|c a IH];
    rewrite ?string_append_nil, ?string_append_cons;
    cbn [after] in *; [exact Hb|].
  destruct (Ascii.eqb c sep); [discriminate|]. apply IH. exact Ha.
Qed.

Lemma getitem_out_of_range_raises {A} (l : list A) (i : Z) :
  ~ (- Z.of_nat (length l) <= i < Z.of_nat (length l)) ->
  Py.getitem l i = Raise IndexError.
Proof.
  intros Hi. unfold Py.getitem. rewrite index_out_of_range by exact Hi.
  reflexivity.
Qed.

Lemma getitem_in_range {A} (l : list A) (i : Z) :
  - Z.of_nat (length l) <= i < Z.of_nat (length l) ->
  exists x, Py.getitem l i = Ok x.
Proof.
  intros Hi. unfold Py.getitem.
  destruct (Z.ltb_spec i 0).
  - rewrite index_negative, index_in_range by lia. cbn [mbind result_bind].
    destruct (l !! Z.to_nat (i + Z.of_nat (length l))) as [x|] eqn:E; [eauto|].
    apply lookup_ge_None in E. lia.
  - rewrite index_in_range by lia. cbn [mbind result_bind].
    destruct (l !! Z.to_nat i) as [x|] eqn:E; [eauto|].
    apply lookup_ge_None in E. lia.
Qed.

Lemma getitem_negative_index {A} (l : list A) (i : Z) :
  - Z.of_nat (length l) <= i < 0 ->
  Py.getitem l i = Py.getitem l (i + Z.of_nat (length l)).
Proof.
  intros Hi. unfold Py.getitem. rewrite index_negative by exact Hi. reflexivity.
Qed.

End LineFacts.

(** X7.  The constructor of [ImageCaptionDataset] raises
    [FileNotFoundError] when the captions file (under "data") cannot be
    opened and [IndexError] when one of its lines holds no tab character
    (a blank line, for instance); otherwise it returns a dataset in mode
    "train" with one record per line, in the order of the file: the file
    name is the text before the first tab, as it is, and the caption the
    text between the first and the second tab (or the end of the line),
    stripped. *)
Theorem dataset_init_outcome `{Extern} (images_dir captions_file : string) :
  ImageCaptionDataset.__init__ images_dir captions_file
  = match open_readlines (Py.os_path_join "data" captions_file) with
    | None => Raise FileNotFoundError
    | Some lines =>
        if forallb has_tab lines
        then Ok (ImageCaptionDataset.mk "train"
                   (Py.os_path_join "data" images_dir)
                   (Py.os_path_join "data" captions_file)
                   (map record_of lines))
        else Raise IndexError
    end.
Proof.
  unfold ImageCaptionDataset.__init__.
  destruct (open_readlines (Py.os_path_join "data" captions_file)) as [lines|];
    [|reflexivity].
  cbn [mbind result_bind]. rewrite parse_lines_fields.
  destruct (forallb has_tab lines); reflexivity.
Qed.

(** X8.  A line written as a file name, a tab and a caption, neither
    holding a tab, with or without the line feed at its end, is read back
    as the file name unchanged and the caption stripped of the white space
    around it. *)
Theorem parse_line_round_trip (name caption : string) :
  has_tab name = false ->
  has_tab caption = false ->
  ImageCaptionDataset.parse_line (name +:+ String Py.tab caption)
  = Ok (name, Py.strip caption)
  /\ ImageCaptionDataset.parse_line
       (name +:+ String Py.tab (caption +:+ String line_feed ""))
     = Ok (name, Py.strip caption).
Proof.
  unfold has_tab. intros Hn Hc.
  destruct (after Py.tab name) eqn:En; [discriminate|].
  destruct (after Py.tab caption) eqn:Ec; [discriminate|].
  rewrite !parse_line_fields. unfold has_tab, record_of.
  destruct (before_append Py.tab name caption En) as [-> ->].
  destruct (before_append Py.tab name (caption +:+ String line_feed "") En)
    as [-> ->].
  cbn [default from_option]. unfold id.
  rewrite !before_all
    by (exact Ec || (apply after_append_no_sep; [exact Ec|reflexivity])).
  rewrite strip_trailing_line_feed. auto.
Qed.

(** X8 on the second line of the toy captions file. *)
Lemma parse_line_round_trip_witness :
  ImageCaptionDataset.parse_line (Toy.caption_line "b.jpg" " a dog")
  = Ok ("b.jpg", "a dog").
Proof.
  exact (proj2 (parse_line_round_trip "b.jpg" " a dog" eq_refl eq_refl)).
Defined.

(** X9.  Every caption of a dataset that the constructor built is
    stripped: it neither starts nor ends with a white-space character
    (one of those that [str.isspace] accepts, the ones beyond ASCII
    included), and stripping it again changes nothing. *)
Theorem dataset_captions_are_stripped `{Extern}
    (images_dir captions_file : string) (ds : ImageCaptionDataset.t) :
  ImageCaptionDataset.__init__ images_dir captions_file = Ok ds ->
  Forall (fun pair =>
            Py.strip (snd pair) = snd pair
            /\ forall c t,
                 Py.isspace c = true ->
                 snd pair <> c +:+ t /\ snd pair <> t +:+ c)
    (ImageCaptionDataset._image_caption_pairs ds).
Proof.
  unfold ImageCaptionDataset.__init__. intros Hi.
  destruct (open_readlines (Py.os_path_join "data" captions_file)) as [lines|];
    cbn [mbind result_bind] in Hi; [|discriminate].
  rewrite parse_lines_fields in Hi.
  destruct (forallb has_tab lines); cbn [mbind result_bind] in Hi; [|discriminate].
  inversion Hi; subst. cbn [ImageCaptionDataset._image_caption_pairs].
  apply Forall_forall. intros pair Hin.
  apply list_elem_of_In, in_map_iff in Hin. destruct Hin as (line & <- & _).
  unfold record_of. cbn [snd]. split; [apply strip_idempotent|].
  intros c t Hc. apply strip_no_space_at_ends. exact Hc.
Qed.

(** X9 on the toy dataset, whose file has captions with white space at
    either end. *)
Lemma dataset_captions_are_stripped_witness :
  Forall (fun pair =>
            Py.strip (snd pair) = snd pair
            /\ forall c t,
                 Py.isspace c = true ->
                 snd pair <> c +:+ t /\ snd pair <> t +:+ c)
    (ImageCaptionDataset._image_caption_pairs Toy.dataset).
Proof.
  exact (@dataset_captions_are_stripped Toy.extern "images/imagesf2"
           "artwork_captions.txt" Toy.dataset eq_refl).
Defined.

(** X10.  [__getitem__] raises [IndexError] exactly when the index is
    outside [-len, len); on a valid index whose image file cannot be
    opened it raises [FileNotFoundError]; and a negative index in range
    reads the same record as that index plus the length. *)
Theorem getitem_errors `{Extern} (self : ImageCaptionDataset.t) (idx : Z) :
  let n := ImageCaptionDataset.__len__ self in
  (ImageCaptionDataset.__getitem__ self idx = Raise IndexError
   <-> ~ (- n <= idx < n))
  /\ (forall name text,
        Py.getitem (ImageCaptionDataset._image_caption_pairs self) idx
          = Ok (name, text) ->
        Image_open (Py.os_path_join (ImageCaptionDataset._images_dir self) name)
          = None ->
        ImageCaptionDataset.__getitem__ self idx = Raise FileNotFoundError)
  /\ (- n <= idx < 0 ->
      ImageCaptionDataset.__getitem__ self idx
      = ImageCaptionDataset.__getitem__ self (idx + n)).
Proof.
  intros n. unfold ImageCaptionDataset.__getitem__.
  unfold n, ImageCaptionDataset.__len__.
  split; [split|split].
  - intros Hr Hin.
    destruct (getitem_in_range (ImageCaptionDataset._image_caption_pairs self) idx Hin)
      as [[name text] Hg].
    rewrite Hg in Hr. cbn [mbind result_bind] in Hr.
    destruct (Image_open _); cbn [mbind result_bind] in Hr; [|discriminate].
    destruct (String.eqb _ _); discriminate.
  - intros Hout. rewrite getitem_out_of_range_raises by exact Hout. reflexivity.
  - intros name text Hg Ho. rewrite Hg. cbn [mbind result_bind].
    rewrite Ho. reflexivity.
  - intros Hneg. rewrite getitem_negative_index by exact Hneg. reflexivity.
Qed.

(** ** The split of the dataset *)

Section SplitFacts.

Lemma shuffled_perm {A} (fuel : nat) :
  forall (draws : list nat) (l : list A),
    (length l <= fuel)%nat -> Py.shuffled draws l fuel ≡ₚ l.
Proof.
  induction fuel as [|fuel IH]; intros draws l Hl.
  - destruct l; simpl in *; [reflexivity|lia].
  - destruct l as [|x l]; [reflexivity|].
    cbn [Py.shuffled].
    set (k := (hd O draws mod length (x :: l))%nat) in *.
    destruct ((x :: l) !! k) as [y|] eqn:Ek.
    + pose proof (lookup_lt_Some _ _ _ Ek) as Hlt.
      rewrite IH
        by (rewrite length_app, length_take, length_drop; simpl in *; lia).
      transitivity (take k (x :: l) ++ y :: drop (S k) (x :: l)).
      * apply Permutation_middle.
      * rewrite take_drop_middle by exact Ek. reflexivity.
    + apply lookup_ge_None in Ek.
      pose proof (Nat.mod_upper_bound (hd O draws) (length (x :: l))) as Hm.
      unfold k in Ek. simpl in *. lia.
Qed.

(** [torch.randperm(n)] is a permutation of [range(n)]. *)
Lemma randperm_perm (draws : list nat) (n : Z) :
  Py.randperm draws n ≡ₚ Py.range 0 n.
Proof.
  unfold Py.randperm. apply shuffled_perm. rewrite range_length. lia.
Qed.

Lemma slice_head {A} (l : list A) (a : Z) :
  0 <= a <= Z.of_nat (length l) ->
  Py.slice l (a - a) a = take (Z.to_nat a) l.
Proof.
  intros Ha. unfold Py.slice, Py.clamp. rewrite Z.sub_diag.
  destruct (Z.ltb_spec 0 0); [lia|]. destruct (Z.ltb_spec a 0); [lia|].
  rewrite !Z.min_l by lia. cbn [Z.to_nat]. rewrite drop_0. f_equal. lia.
Qed.

Lemma slice_tail {A} (l : list A) (a b : Z) :
  0 <= a -> a + b = Z.of_nat (length l) -> 0 <= b ->
  Py.slice l (a + b - b) (a + b) = drop (Z.to_nat a) l.
Proof.
  intros Ha Hn Hb. unfold Py.slice, Py.clamp.
  replace (a + b - b) with a by lia.
  destruct (Z.ltb_spec a 0); [lia|]. destruct (Z.ltb_spec (a + b) 0); [lia|].
  rewrite !Z.min_l by lia.
  apply take_ge. rewrite length_drop. lia.
Qed.

(** [_get_data_loaders], when it returns: the sizes it computed, the two
    subsets it stored and the two loaders. *)
Lemma get_data_loaders_indices (h : heap) (dataset : loc) (val_split : float)
    (batch_size : Z) (draws : list nat)
    (h' : heap) (tl vl : DataLoader.t) :
  CLIPFinetuner._get_data_loaders h dataset val_split batch_size draws
    = Ok (h', tl, vl) ->
  exists n a,
    len h dataset = Ok n
    /\ Py.int_of_float ((1 - val_split) * Py.float_of_Z n)%float = Ok a
    /\ h' !! DataLoader.dataset tl
       = Some (OSubset
                 (Subset.mk dataset
                    (Py.slice (Py.randperm draws (a + (n - a))) (a - a) a)
                    {["mode" := "train"]}))
    /\ h' !! DataLoader.dataset vl
       = Some (OSubset
                 (Subset.mk dataset
                    (Py.slice (Py.randperm draws (a + (n - a)))
                       (a + (n - a) - (n - a)) (a + (n - a)))
                    {["mode" := "val"]}))
    /\ tl = DataLoader.mk (length h) batch_size true
    /\ vl = DataLoader.mk (S (length h)) batch_size false
    /\ 0 < batch_size.
Proof.
  intros Hg.
  destruct (get_data_loaders_inv _ _ _ _ _ _ _ _ Hg)
    as (n & a & Hn & Ha & [_ ->] & -> & -> & Hb).
  exists n, a. cbn [DataLoader.dataset].
  split; [exact Hn|]. split; [exact Ha|].
  split; [|split; [|auto]].
  - rewrite list_lookup_insert_ne by lia.
    apply list_lookup_insert_eq. rewrite !length_app. simpl. lia.
  - apply list_lookup_insert_eq.
    rewrite length_insert, !length_app. simpl. lia.
Qed.

End SplitFacts.

(** X11.  Let the dataset hold [n] records and let
    [train_size = int((1 - val_split) * n)] lie between 0 and [n].  When
    [_get_data_loaders] returns, the training subset holds [train_size]
    indices, the validation subset the [n - train_size] others, and the
    two together are a permutation of [0, ..., n-1]: every record of the
    dataset is in exactly one of the two subsets, once. *)
Theorem split_partitions_dataset
    (h : heap) (dataset : loc) (val_split : float) (batch_size : Z)
    (draws : list nat) (n train_size : Z)
    (h' : heap) (tl vl : DataLoader.t) :
  len h dataset = Ok n ->
  Py.int_of_float ((1 - val_split) * Py.float_of_Z n)%float = Ok train_size ->
  0 <= train_size <= n ->
  CLIPFinetuner._get_data_loaders h dataset val_split batch_size draws
    = Ok (h', tl, vl) ->
  exists train_indices val_indices,
    h' !! DataLoader.dataset tl
    = Some (OSubset (Subset.mk dataset train_indices {["mode" := "train"]}))
    /\ h' !! DataLoader.dataset vl
       = Some (OSubset (Subset.mk dataset val_indices {["mode" := "val"]}))
    /\ Z.of_nat (length train_indices) = train_size
    /\ Z.of_nat (length val_indices) = n - train_size
    /\ train_indices ++ val_indices ≡ₚ Py.range 0 n.
Proof.
  intros Hn Ha Hrange Hg.
  destruct (get_data_loaders_indices _ _ _ _ _ _ _ _ Hg)
    as (n' & a' & Hn' & Ha' & Ht & Hv & _).
  rewrite Hn in Hn'. inversion Hn'; subst n'. clear Hn'.
  rewrite Ha in Ha'. inversion Ha'; subst a'. clear Ha'.
  set (idx := Py.randperm draws (train_size + (n - train_size))) in *.
  assert (Hlen : Z.of_nat (length idx) = n)
    by (unfold idx; rewrite randperm_length; lia).
  rewrite slice_head in Ht by lia.
  rewrite slice_tail in Hv by lia.
  eexists _, _. split; [exact Ht|]. split; [exact Hv|].
  split; [rewrite length_take; lia|].
  split; [rewrite length_drop; lia|].
  rewrite take_drop. unfold idx.
  replace (train_size + (n - train_size)) with n by lia.
  apply randperm_perm.
Qed.

(** X11 on the toy store: four records, [val_split = 0.25], three indices
    for training and one for validation. *)
Lemma split_partitions_dataset_witness :
  exists h' tl vl,
    CLIPFinetuner._get_data_loaders Toy.store 0%nat 0.25%float 2 [3; 1; 2]%nat
      = Ok (h', tl, vl)
    /\ h' !! DataLoader.dataset tl
       = Some (OSubset (Subset.mk 0%nat [3; 1; 0] {["mode" := "train"]}))
    /\ h' !! DataLoader.dataset vl
       = Some (OSubset (Subset.mk 0%nat [2] {["mode" := "val"]})).
Proof.
  destruct (CLIPFinetuner._get_data_loaders Toy.store 0%nat
              0.25%float 2 [3; 1; 2]%nat) as [[[h' tl] vl]|e] eqn:E;
    [|vm_compute in E; discriminate E].
  exists h', tl, vl. split; [reflexivity|].
  destruct (split_partitions_dataset Toy.store 0%nat 0.25%float 2
              [3; 1; 2]%nat 4 3 h' tl vl eq_refl eq_refl ltac:(lia) E)
    as (it & iv & Ht & Hv & _).
  vm_compute in E. inversion E; subst. split; vm_compute; reflexivity.
Defined.

(** X24.  When [train_size = int((1 - val_split) * len(dataset))] is 0
    (with [val_split = 1.0], for instance, or with a dataset of one record
    and the default [val_split]), [_get_data_loaders] raises
    [ValueError]: the training subset is empty and its loader, which
    shuffles, cannot be built. *)
Theorem empty_training_split_raises
    (h : heap) (dataset : loc) (val_split : float) (batch_size : Z)
    (draws : list nat) (n : Z) :
  len h dataset = Ok n ->
  Py.int_of_float ((1 - val_split) * Py.float_of_Z n)%float = Ok 0 ->
  CLIPFinetuner._get_data_loaders h dataset val_split batch_size draws
  = Raise ValueError.
Proof.
  intros Hn Ha. unfold CLIPFinetuner._get_data_loaders.
  rewrite Hn. cbn [mbind result_bind]. rewrite Ha. cbn [mbind result_bind].
  rewrite (random_split_of_sum h dataset n 0 (n - 0) draws Hn ltac:(lia)).
  replace ((0 + (n - 0) =? 1)
           && ((0 <? 0) || (1 <? 0) || ((n - 0 <? 0) || (1 <? n - 0))))
    with false
    by (destruct (Z.eqb_spec (0 + (n - 0)) 1) as [E|E]; [|reflexivity];
        assert (n = 1) as -> by lia; reflexivity).
  cbv zeta. cbn [mbind result_bind].
  set (indices := Py.randperm draws (0 + (n - 0))).
  assert (Hfirst : Py.slice indices (0 - 0) 0 = []).
  { unfold Py.slice, Py.clamp. change (0 - 0) with 0. change (0 <? 0) with false.
    cbv iota. rewrite !Z.min_l by lia. reflexivity. }
  rewrite Hfirst.
  set (second := Py.slice indices (0 + (n - 0) - (n - 0)) (0 + (n - 0))).
  set (s1 := Subset.mk dataset [] ∅).
  set (s2 := Subset.mk dataset second ∅).
  assert (H1 : ((h ++ [OSubset s1]) ++ [OSubset s2]) !! length h = Some (OSubset s1)).
  { rewrite lookup_app_l by (rewrite length_app; simpl; lia).
    rewrite lookup_app_r by lia.
    replace (length h - length h)%nat with O by lia. reflexivity. }
  assert (H2 : forall o,
             (<[length h := o]> ((h ++ [OSubset s1]) ++ [OSubset s2]))
               !! S (length h) = Some (OSubset s2)).
  { intros o. rewrite list_lookup_insert_ne by lia.
    rewrite lookup_app_r by (rewrite length_app; simpl; lia).
    rewrite length_app. simpl.
    replace (S (length h) - (length h + 1))%nat with O by lia. reflexivity. }
  unfold setattr_mode. rewrite H1. cbn [mbind result_bind]. rewrite H2.
  cbn [mbind result_bind].
  rewrite (loader_init_shuffled _ _ (Subset.setattr s1 "mode" "train"))
    by (rewrite list_lookup_insert_ne by lia;
        apply list_lookup_insert_eq; rewrite !length_app; simpl; lia).
  reflexivity.
Qed.

(** X24 on the toy store with [val_split = 1.0]. *)
Lemma empty_training_split_raises_witness :
  CLIPFinetuner._get_data_loaders Toy.store 0%nat 1.0%float 2 [3; 1; 2]%nat
  = Raise ValueError.
Proof.
  apply (empty_training_split_raises Toy.store 0%nat 1.0%float 2 [3; 1; 2]%nat 4).
  - reflexivity.
  - vm_compute. reflexivity.
Defined.

(** [random_split] reads two lengths that add up to 1 as fractions: on a
    dataset of one record the lengths 2 and -1 are refused, and the
    lengths 1 and 0 give the record to the first subset. *)
Example split_reads_fractions :
  let one := [ODataset (ImageCaptionDataset.mk "train" "data/images"
                          "data/captions.txt" [("a.jpg", "a cat")])] in
  (random_split one 0%nat (2, -1) [], random_split one 0%nat (1, 0) [])
  = (Raise ValueError,
     Ok (one ++ [OSubset (Subset.mk 0%nat [0] ∅); OSubset (Subset.mk 0%nat [] ∅)],
         1%nat, 2%nat)).
Proof. vm_compute. reflexivity. Qed.

(** ** Unfreezing: the effect of one call *)

Section UnfreezeEffect.

Context `{Extern}.

Lemma unfreeze_blocks_range (T : nat) (b : Z) (k : nat) :
  Z.of_nat k ∈ Py.range (Z.of_nat T - (if b >? Z.of_nat T then Z.of_nat T else b))
                 (Z.of_nat T)
  <-> (Z.of_nat T - b <=? Z.of_nat k) && (Z.of_nat k <? Z.of_nat T) = true.
Proof.
  rewrite range_elem, andb_true_iff, Z.leb_le, Z.ltb_lt.
  destruct (b >? Z.of_nat T) eqn:E.
  - apply Z.gtb_lt in E. lia.
  - rewrite Z.gtb_ltb in E. apply Z.ltb_ge in E. lia.
Qed.

Lemma unfreeze_tower_flag (idxs : list Z) (blocks blocks' : list (list bool))
    (cond : nat -> bool) :
  (forall k, blocks' !! k
             = if decide (Z.of_nat k ∈ idxs)
               then map (fun _ => true) <$> blocks !! k
               else blocks !! k) ->
  (forall k, Z.of_nat k ∈ idxs <-> cond k = true) ->
  forall i j,
    (blk ← blocks' !! i; blk !! j)
    = if cond i then (fun _ => true) <$> (blk ← blocks !! i; blk !! j)
      else (blk ← blocks !! i; blk !! j).
Proof.
  intros Hl Hc i j. rewrite Hl.
  destruct (decide (Z.of_nat i ∈ idxs)) as [Hi|Hi].
  - apply Hc in Hi. rewrite Hi. apply const_block_flag.
  - destruct (cond i) eqn:E; [|reflexivity]. apply Hc in E. contradiction.
Qed.

(** [_unfreeze_blocks] on a network whose text tower is at least as deep
    as its visual tower, for any number of blocks asked. *)
Lemma unfreeze_blocks_flags (m : CLIPFinetuner.model) (b : Z) :
  let fl := CLIPFinetuner.requires_grad m in
  let T := length (CLIP.visual_resblocks fl) in
  (T <= length (CLIP.resblocks fl))%nat ->
  exists m',
    CLIPFinetuner._unfreeze_blocks m (Z.of_nat T) b = Ok m'
    /\ forall p,
         CLIP.requires_grad (CLIPFinetuner.requires_grad m') p
         = if unfrozen_by T b p
           then (fun _ => true) <$> CLIP.requires_grad fl p
           else CLIP.requires_grad fl p.
Proof.
  intros fl T HT.
  set (idxs := Py.range (Z.of_nat T - (if b >? Z.of_nat T then Z.of_nat T else b))
                 (Z.of_nat T)).
  assert (Hvalid : forall i, i ∈ idxs -> 0 <= i < Z.of_nat T).
  { intros i Hi. apply range_elem in Hi.
    destruct (b >? Z.of_nat T) eqn:E; [lia|].
    rewrite Z.gtb_ltb in E. apply Z.ltb_ge in E. lia. }
  destruct (unfreeze_tower_Ok idxs (CLIP.visual_resblocks fl))
    as (vb & Hv & _ & Lv); [intros i Hi; apply Hvalid in Hi; fold T; lia|].
  destruct (unfreeze_tower_Ok idxs (CLIP.resblocks fl))
    as (tb & Ht & _ & Lt); [intros i Hi; apply Hvalid in Hi; lia|].
  exists (CLIPFinetuner.set_requires_grad m
            (CLIP.mk_flags true true vb tb (CLIP.others fl))).
  split.
  - unfold CLIPFinetuner._unfreeze_blocks. fold fl idxs.
    rewrite for_each_visual.
    cbn [CLIP.visual_resblocks CLIP.set_text_projection CLIP.set_visual_proj].
    rewrite Hv. cbn [mbind result_bind].
    rewrite for_each_text.
    cbn [CLIP.resblocks CLIP.set_visual_resblocks CLIP.set_text_projection
         CLIP.set_visual_proj].
    rewrite Ht. reflexivity.
  - intros p.
    cbn [CLIPFinetuner.requires_grad CLIPFinetuner.set_requires_grad].
    destruct p as [| |i j|i j|j];
      cbn [CLIP.requires_grad unfrozen_by CLIP.visual_proj CLIP.text_projection
           CLIP.visual_resblocks CLIP.resblocks CLIP.others];
      try reflexivity.
    + apply (unfreeze_tower_flag idxs _ _
               (fun k => (Z.of_nat T - b <=? Z.of_nat k)
                         && (Z.of_nat k <? Z.of_nat T)) Lv).
      intros k. apply unfreeze_blocks_range.
    + apply (unfreeze_tower_flag idxs _ _
               (fun k => (Z.of_nat T - b <=? Z.of_nat k)
                         && (Z.of_nat k <? Z.of_nat T)) Lt).
      intros k. apply unfreeze_blocks_range.
Qed.

(** Unfreezing a tower raises [IndexError] when one of the indices is
    beyond the tower. *)
Lemma unfreeze_tower_beyond (idxs : list Z) :
  forall blocks,
    (forall i, i ∈ idxs -> 0 <= i) ->
    (exists i, i ∈ idxs /\ Z.of_nat (length blocks) <= i) ->
    unfreeze_tower idxs blocks = Raise IndexError.
Proof.
  unfold unfreeze_tower.
  induction idxs as [|i0 idxs IH]; intros blocks Hpos (i & Hi & Hge).
  - apply elem_of_nil in Hi. contradiction.
  - cbn [Py.for_each].
    assert (H0 : 0 <= i0) by (apply Hpos; apply elem_of_cons; auto).
    destruct (Z_lt_le_dec i0 (Z.of_nat (length blocks))) as [Hlt|Hge0].
    + destruct (unfreeze_block_Ok blocks i0) as (b1 & H1 & Hl1 & _); [lia|].
      rewrite H1. cbn [mbind result_bind].
      apply IH.
      * intros j Hj. apply Hpos. apply elem_of_cons. auto.
      * apply elem_of_cons in Hi. destruct Hi as [->|Hi]; [lia|].
        exists i. rewrite Hl1. auto.
    + rewrite unfreeze_block_out_of_range by exact Hge0. reflexivity.
Qed.

Lemma unfreeze_blocks_shallow_text (m : CLIPFinetuner.model) (b : Z) :
  let fl := CLIPFinetuner.requires_grad m in
  let T := length (CLIP.visual_resblocks fl) in
  (length (CLIP.resblocks fl) < T)%nat ->
  1 <= b ->
  CLIPFinetuner._unfreeze_blocks m (Z.of_nat T) b = Raise IndexError.
Proof.
  intros fl T Hshallow Hb.
  set (idxs := Py.range (Z.of_nat T - (if b >? Z.of_nat T then Z.of_nat T else b))
                 (Z.of_nat T)).
  assert (Hvalid : forall i, i ∈ idxs -> 0 <= i < Z.of_nat T).
  { intros i Hi. apply range_elem in Hi.
    destruct (b >? Z.of_nat T) eqn:E; [lia|].
    rewrite Z.gtb_ltb in E. apply Z.ltb_ge in E. lia. }
  destruct (unfreeze_tower_Ok idxs (CLIP.visual_resblocks fl))
    as (vb & Hv & _ & _); [intros i Hi; apply Hvalid in Hi; fold T; lia|].
  unfold CLIPFinetuner._unfreeze_blocks. fold fl idxs.
  rewrite for_each_visual.
  cbn [CLIP.visual_resblocks CLIP.set_text_projection CLIP.set_visual_proj].
  rewrite Hv. cbn [mbind result_bind].
  rewrite for_each_text.
  cbn [CLIP.resblocks CLIP.set_visual_resblocks CLIP.set_text_projection
       CLIP.set_visual_proj].
  rewrite unfreeze_tower_beyond; [reflexivity| |].
  - intros i Hi. apply Hvalid in Hi. lia.
  - exists (Z.of_nat T - 1). split; [|lia].
    apply range_elem. destruct (b >? Z.of_nat T) eqn:E; [lia|]. lia.
Qed.

Lemma range_cons (lo hi : Z) :
  lo < hi -> Py.range lo hi = lo :: Py.range (lo + 1) hi.
Proof.
  intros Hlt. unfold Py.range.
  replace (Z.to_nat (hi - lo)) with (S (Z.to_nat (hi - (lo + 1)))) by lia.
  cbn [seq map]. f_equal; [lia|].
  rewrite <- seq_shift, map_map. apply map_ext. intros k. lia.
Qed.

Lemma range_empty (lo hi : Z) : hi <= lo -> Py.range lo hi = [].
Proof.
  intros Hle. unfold Py.range. replace (Z.to_nat (hi - lo)) with O by lia.
  reflexivity.
Qed.

End UnfreezeEffect.

(** X12.  On a network whose text tower is at least as deep as its visual
    tower of [T] blocks, [_unfreeze_blocks(b)] returns for every integer
    [b]; it sets trainable the two projections and every parameter of the
    blocks of index [T - b] to [T - 1] of each tower (no block when
    [b <= 0], the first [T] blocks of each tower when [b >= T]: the count
    is capped, not rejected), it sets nothing frozen, and it leaves the
    other parameters' flags, the parameter values, the gradients and the
    train/eval switch as they were. *)
Theorem unfreeze_blocks_effect `{Extern} (m : CLIPFinetuner.model) (b : Z) :
  let fl := CLIPFinetuner.requires_grad m in
  let T := length (CLIP.visual_resblocks fl) in
  (T <= length (CLIP.resblocks fl))%nat ->
  exists m',
    CLIPFinetuner._unfreeze_blocks m (Z.of_nat T) b = Ok m'
    /\ CLIPFinetuner.weights m' = CLIPFinetuner.weights m
    /\ CLIPFinetuner.grad m' = CLIPFinetuner.grad m
    /\ CLIPFinetuner.training m' = CLIPFinetuner.training m
    /\ forall p,
         CLIP.requires_grad (CLIPFinetuner.requires_grad m') p
         = if unfrozen_by T b p
           then (fun _ => true) <$> CLIP.requires_grad fl p
           else CLIP.requires_grad fl p.
Proof.
  intros fl T HT.
  destruct (unfreeze_blocks_flags m b HT) as (m' & Hu & Hp).
  exists m'. split; [exact Hu|].
  destruct (unfreeze_blocks_inv _ _ _ _ Hu) as (vb & tb & _ & _ & ->).
  do 3 (split; [reflexivity|]). exact Hp.
Qed.

(** X12 on the network of the toy trainer (three blocks per tower, the
    last one trainable): asking for seven blocks makes the first block of
    the text tower trainable and leaves the parameters outside the blocks
    frozen. *)
Lemma unfreeze_blocks_effect_witness :
  exists m',
    @CLIPFinetuner._unfreeze_blocks Toy.extern
      (@CLIPFinetuner._model Toy.extern Toy.trainer) 3 7 = Ok m'
    /\ CLIP.requires_grad (@CLIPFinetuner.requires_grad Toy.extern m')
         (CLIP.TextBlock 0 1) = Some true
    /\ CLIP.requires_grad (@CLIPFinetuner.requires_grad Toy.extern m')
         (CLIP.Other 0) = Some false.
Proof.
  destruct (@unfreeze_blocks_effect Toy.extern
              (@CLIPFinetuner._model Toy.extern Toy.trainer) 7 ltac:(simpl; lia))
    as (m' & Hu & _ & _ & _ & Hp).
  exists m'. split; [exact Hu|].
  split; [exact (Hp (CLIP.TextBlock 0 1))|exact (Hp (CLIP.Other 0))].
Defined.

(** X13.  When the network that [clip.load] returns has fewer blocks in
    its text tower than in its visual tower, the constructor raises
    [IndexError]: [_unfreeze_blocks(1)] indexes the text tower with the
    index of the last block of the visual tower. *)
Theorem constructor_raises_on_shallow_text_tower `{Extern}
    (h : heap) (model_name : string) (dataset : loc) (val_split : float)
    (batch_size : Z) (lr : float) (unfreeze_from unfreeze_every : Z)
    (draws : list nat) (fl0 : CLIP.flags) (w0 : state_dict) :
  clip_load model_name = Ok (fl0, w0) ->
  (length (CLIP.resblocks fl0) < length (CLIP.visual_resblocks fl0))%nat ->
  CLIPFinetuner.__init__ h model_name dataset val_split batch_size lr
    unfreeze_from unfreeze_every draws = Raise IndexError.
Proof.
  intros Hload Hshallow. unfold CLIPFinetuner.__init__.
  rewrite Hload. cbn [mbind result_bind].
  unfold CLIPFinetuner.set_weights, CLIPFinetuner._freeze_model,
    CLIPFinetuner.set_requires_grad.
  cbn [CLIPFinetuner.requires_grad CLIPFinetuner.weights CLIPFinetuner.grad
       CLIPFinetuner.training].
  pose proof (unfreeze_blocks_shallow_text
                (CLIPFinetuner.mk_model (CLIP.freeze_all fl0) (to_float w0)
                   empty_grads false) 1) as Hu.
  cbv zeta in Hu.
  cbn [CLIPFinetuner.requires_grad CLIP.freeze_all CLIP.visual_resblocks
       CLIP.resblocks] in Hu.
  rewrite !length_map in Hu.
  rewrite Hu by (exact Hshallow || lia). reflexivity.
Qed.

(** X13 on the toy network with three visual blocks and two text
    blocks. *)
Lemma constructor_raises_on_shallow_text_tower_witness :
  @CLIPFinetuner.__init__ Toy.extern_shallow_text Toy.store "ViT-L/14" 0%nat
    0.25%float 2 0.5%float 3 2 [3; 1; 2]%nat = Raise IndexError.
Proof.
  apply (@constructor_raises_on_shallow_text_tower Toy.extern_shallow_text
           Toy.store "ViT-L/14" 0%nat 0.25%float 2 0.5%float 3 2 [3; 1; 2]%nat
           Toy.shallow_text_flags 0 eq_refl).
  simpl. lia.
Defined.

(** X14.  With [unfreeze_every = 0], [_partial_unfreeze] does nothing at
    the epochs (counted from 1) before [unfreeze_from] and raises
    [ZeroDivisionError] at every epoch from [unfreeze_from] on; so [fit]
    raises it at its first epoch, before any training, when
    [unfreeze_from <= 1]. *)
Theorem zero_unfreeze_every_raises `{Extern} (self : CLIPFinetuner.t) (epoch : Z) :
  CLIPFinetuner._unfreeze_every self = 0 ->
  CLIPFinetuner._partial_unfreeze self epoch
  = (if CLIPFinetuner._unfreeze_from self <=? epoch + 1
     then Raise ZeroDivisionError else Ok self)
  /\ (CLIPFinetuner._unfreeze_from self <= 1 ->
      forall h draws epochs verbose rt,
        1 <= epochs ->
        CLIPFinetuner.fit h draws self epochs verbose rt = Raise ZeroDivisionError).
Proof.
  intros Hz.
  assert (Hp : forall e,
             CLIPFinetuner._partial_unfreeze self e
             = (if CLIPFinetuner._unfreeze_from self <=? e + 1
                then Raise ZeroDivisionError else Ok self)).
  { intros e. unfold CLIPFinetuner._partial_unfreeze. rewrite Hz, Z.geb_leb.
    destruct (CLIPFinetuner._unfreeze_from self <=? e + 1); reflexivity. }
  split; [apply Hp|].
  intros Hfrom h draws epochs verbose rt He.
  unfold CLIPFinetuner.fit. rewrite range_cons by lia.
  cbn [CLIPFinetuner.fit_loop]. unfold CLIPFinetuner.fit_epoch.
  rewrite Hp. destruct (Z.leb_spec (CLIPFinetuner._unfreeze_from self) (0 + 1)); [|lia].
  reflexivity.
Qed.

(** X14 on the toy trainer with [unfreeze_from = 3] and
    [unfreeze_every = 0]: nothing at the second epoch, an exception at the
    third. *)
Lemma zero_unfreeze_every_raises_witness :
  @CLIPFinetuner._partial_unfreeze Toy.extern Toy.trainer_every_0 1
  = Ok Toy.trainer_every_0
  /\ @CLIPFinetuner._partial_unfreeze Toy.extern Toy.trainer_every_0 2
     = Raise ZeroDivisionError.
Proof.
  split.
  - exact (proj1 (@zero_unfreeze_every_raises Toy.extern Toy.trainer_every_0 1
                    eq_refl)).
  - exact (proj1 (@zero_unfreeze_every_raises Toy.extern Toy.trainer_every_0 2
                    eq_refl)).
Defined.

(** X15.  Let [unfreeze_every >= 1], whatever [unfreeze_from] is, on a
    network whose text tower is at least as deep as its visual tower of
    [T = tot_blocks] blocks.  At the epoch [e = epoch + 1] (counted from
    1), [_partial_unfreeze] returns; it changes something only when [e] is
    at least [unfreeze_from] and a multiple of [unfreeze_every] and
    [request = (e - unfreeze_from) // unfreeze_every + 2] is at most [T]
    (a larger request is dropped, not capped), and then it makes trainable
    the two projections and the last [request] blocks of each tower,
    leaving every other flag as it was. *)
Theorem partial_unfreeze_effect `{Extern} (self : CLIPFinetuner.t) (epoch : Z) :
  let fl := CLIPFinetuner.requires_grad (CLIPFinetuner._model self) in
  let T := length (CLIP.visual_resblocks fl) in
  let request :=
    (epoch + 1 - CLIPFinetuner._unfreeze_from self)
    / CLIPFinetuner._unfreeze_every self + 2 in
  let fires :=
    due (CLIPFinetuner._unfreeze_from self) (CLIPFinetuner._unfreeze_every self)
      (epoch + 1)
    && (request <=? Z.of_nat T) in
  1 <= CLIPFinetuner._unfreeze_every self ->
  CLIPFinetuner._tot_blocks self = Z.of_nat T ->
  (T <= length (CLIP.resblocks fl))%nat ->
  exists self',
    CLIPFinetuner._partial_unfreeze self epoch = Ok self'
    /\ (fires = false -> self' = self)
    /\ forall p,
         CLIP.requires_grad
           (CLIPFinetuner.requires_grad (CLIPFinetuner._model self')) p
         = if fires && unfrozen_by T request p
           then (fun _ => true) <$> CLIP.requires_grad fl p
           else CLIP.requires_grad fl p.
Proof.
  intros fl T request fires HN Htot HT.
  set (F := CLIPFinetuner._unfreeze_from self) in *.
  set (N := CLIPFinetuner._unfreeze_every self) in *.
  unfold CLIPFinetuner._partial_unfreeze. fold F N. rewrite Htot.
  assert (Hdue : (if epoch + 1 >=? F
                  then r ← Py.modulo (epoch + 1) N; Ok (r =? 0)
                  else Ok false)
                 = Ok (due F N (epoch + 1))).
  { unfold due, Py.modulo. rewrite Z.geb_leb.
    destruct (F <=? epoch + 1); [|reflexivity].
    destruct (Z.eqb_spec N 0); [lia|]. reflexivity. }
  rewrite Hdue. cbn [mbind result_bind].
  assert (Hreq : (epoch + 1 - F + N) / N + 1 = request).
  { unfold request.
    replace (epoch + 1 - F + N) with (epoch + 1 - F + 1 * N) by lia.
    rewrite Z.div_add by lia. lia. }
  unfold fires. destruct (due F N (epoch + 1)) eqn:Ed; cbn [andb].
  - unfold Py.floordiv. destruct (Z.eqb_spec N 0); [lia|].
    cbn [mbind result_bind]. rewrite Hreq.
    destruct (request <=? Z.of_nat T) eqn:Er.
    + destruct (unfreeze_blocks_flags (CLIPFinetuner._model self) request HT)
        as (m' & Hu & Hp).
      fold fl T in Hu, Hp. rewrite Hu. cbn [mbind result_bind].
      exists (CLIPFinetuner.set_model self m').
      split; [reflexivity|]. split; [discriminate|].
      intros p. cbn [CLIPFinetuner.set_model CLIPFinetuner._model]. apply Hp.
    + exists self. split; [reflexivity|]. split; [reflexivity|].
      intros p. reflexivity.
  - exists self. split; [reflexivity|]. split; [reflexivity|].
    intros p. reflexivity.
Qed.

(** X15 on the toy trainer ([unfreeze_from = 3], [unfreeze_every = 2],
    three blocks, the last one trainable): at the fourth epoch the request
    is 2, the middle block of the visual tower becomes trainable and the
    first one stays frozen. *)
Lemma partial_unfreeze_effect_witness :
  exists self',
    @CLIPFinetuner._partial_unfreeze Toy.extern Toy.trainer 3 = Ok self'
    /\ CLIP.requires_grad
         (@CLIPFinetuner.requires_grad Toy.extern
            (@CLIPFinetuner._model Toy.extern self')) (CLIP.VisualBlock 1 0)
       = Some true
    /\ CLIP.requires_grad
         (@CLIPFinetuner.requires_grad Toy.extern
            (@CLIPFinetuner._model Toy.extern self')) (CLIP.VisualBlock 0 0)
       = Some false.
Proof.
  destruct (@partial_unfreeze_effect Toy.extern Toy.trainer 3
              ltac:(simpl; lia) eq_refl ltac:(simpl; lia))
    as (self' & Hp & _ & Hfl).
  exists self'. split; [exact Hp|].
  split; [exact (Hfl (CLIP.VisualBlock 1 0))|exact (Hfl (CLIP.VisualBlock 0 0))].
Defined.

(** ** The passes: what they raise and what they leave *)

(** X16.  [_clip_score] never raises.  Its two encoders run with the
    autograd mode disabled, whatever the mode of the caller; the
    normalisations, the product, the diagonal and the mean run under the
    caller's mode, which is in force again after the call.  The score is
    the mean of the diagonal of the product of the normalized image
    features with the transposed normalized text features. *)
Theorem clip_score_detaches_encoders `{Extern}
    (self : CLIPFinetuner.t) (images texts : tensor) (rt : runtime) :
  let m := CLIPFinetuner._model self in
  let image_features :=
    encode_image (CLIPFinetuner.weights m) (CLIPFinetuner.training m) images in
  let text_features :=
    encode_text (CLIPFinetuner.weights m) (CLIPFinetuner.training m) texts in
  let image_features := tensor_div image_features (norm_lastdim image_features) in
  let text_features := tensor_div text_features (norm_lastdim text_features) in
  CLIPFinetuner._clip_score self images texts rt
  = Ok (mean (diag (matmul image_features (transpose text_features))),
        mk_runtime (grad_enabled rt)
          (ops rt ++ [(OpEncodeImage, false); (OpEncodeText, false)]
             ++ under (grad_enabled rt)
                  [OpNorm; OpDiv; OpNorm; OpDiv; OpTranspose; OpMatmul;
                   OpDiag; OpMean])).
Proof.
  intros m fi ft fi' ft'. destruct rt as [g l].
  unfold CLIPFinetuner._clip_score. fold m.
  erewrite bind_Ok;
    [|unfold no_grad; cbn [grad_enabled ops];
      do 2 (rewrite bind_torch_op; cbv beta); reflexivity].
  cbv beta iota. cbn [ops grad_enabled].
  do 8 (rewrite bind_torch_op; cbv beta).
  unfold mret, T_ret. rewrite <- !app_assoc. reflexivity.
Qed.

Section PassErrors.

Context `{Extern}.


(** A loader over an empty dataset yields no batch. *)
Lemma iter_empty (h : heap) (loader : DataLoader.t) (draws : list nat) :
  len h (DataLoader.dataset loader) = Ok 0 ->
  DataLoader.__iter__ h loader draws = Ok [].
Proof.
  intros Hn. unfold DataLoader.__iter__. rewrite Hn. cbn [mbind result_bind].
  assert (Ho : (if DataLoader.shuffle loader then Py.randperm draws 0
                else Py.range 0 0) = [])
    by (destruct (DataLoader.shuffle loader); reflexivity).
  rewrite Ho. reflexivity.
Qed.


End PassErrors.

Example toy_split_without_validation :
  CLIPFinetuner._get_data_loaders Toy.store 0%nat 0%float 2 [3; 1; 2]%nat
  = Ok (Toy.store_no_val, DataLoader.mk 1%nat 2 true, DataLoader.mk 2%nat 2 false).
Proof. vm_compute. reflexivity. Qed.

(** X17.  When the validation subset is empty (as after a split with
    [val_split = 0]), [_validate] raises [ZeroDivisionError]: no batch is
    processed and the totals are divided by a length of 0. *)
Theorem validate_on_empty_split_raises `{Extern}
    (h : heap) (self : CLIPFinetuner.t) (rt : runtime) :
  len h (DataLoader.dataset (CLIPFinetuner._val_loader self)) = Ok 0 ->
  0 < DataLoader.batch_size (CLIPFinetuner._val_loader self) ->
  CLIPFinetuner._validate h self rt = Raise ZeroDivisionError.
Proof.
  intros Hn Hbs.
  exact (validate_run h self rt [] Hbs (iter_empty h _ [] Hn)).
Qed.

(** X17 on the toy trainer over the store that a split with
    [val_split = 0.0] leaves. *)
Lemma validate_on_empty_split_raises_witness :
  @CLIPFinetuner._validate Toy.extern Toy.store_no_val Toy.trainer Toy.fresh
  = Raise ZeroDivisionError.
Proof.
  apply (@validate_on_empty_split_raises Toy.extern Toy.store_no_val
           Toy.trainer Toy.fresh eq_refl).
  simpl. lia.
Defined.



(** ** The loop of [fit] and the early stopper *)

Section FitStopper.

Context `{Extern}.

(** [_partial_unfreeze], when it returns, has replaced at most the
    network, keeping its parameter values and its train/eval switch. *)
Lemma partial_unfreeze_keeps (self self' : CLIPFinetuner.t) (epoch : Z) :
  CLIPFinetuner._partial_unfreeze self epoch = Ok self' ->
  exists m, self' = CLIPFinetuner.set_model self m
            /\ CLIPFinetuner.weights m
               = CLIPFinetuner.weights (CLIPFinetuner._model self)
            /\ CLIPFinetuner.training m
               = CLIPFinetuner.training (CLIPFinetuner._model self).
Proof.
  assert (Hself : exists m, self = CLIPFinetuner.set_model self m
                  /\ CLIPFinetuner.weights m
                     = CLIPFinetuner.weights (CLIPFinetuner._model self)
                  /\ CLIPFinetuner.training m
                     = CLIPFinetuner.training (CLIPFinetuner._model self))
    by (exists (CLIPFinetuner._model self); destruct self; auto).
  unfold CLIPFinetuner._partial_unfreeze. intros Hp.
  destruct (_ >=? _).
  - destruct (Py.modulo _ _) as [r|]; simpl in Hp; [|discriminate].
    destruct (r =? 0).
    + destruct (Py.floordiv _ _) as [q|]; simpl in Hp; [|discriminate].
      destruct (q + 1 <=? _).
      * destruct (CLIPFinetuner._unfreeze_blocks _ _ _) as [m|] eqn:Eu;
          simpl in Hp; [|discriminate].
        inversion Hp; subst. exists m. split; [reflexivity|].
        destruct (unfreeze_blocks_inv _ _ _ _ Eu) as (vb & tb & _ & _ & ->).
        auto.
      * inversion Hp; subst. exact Hself.
    + inversion Hp; subst. exact Hself.
  - simpl in Hp. inversion Hp; subst. exact Hself.
Qed.

Lemma train_Ok_inv (h : heap) (self : CLIPFinetuner.t) (draws : list nat)
    (rt : runtime) self' loss rt' :
  CLIPFinetuner._train h self draws rt = Ok ((self', loss), rt') ->
  CLIPFinetuner._early_stopping self' = CLIPFinetuner._early_stopping self
  /\ CLIPFinetuner.training (CLIPFinetuner._model self') = true.
Proof.
  unfold CLIPFinetuner._train. unfold mbind, T_bind, lift, mret, T_ret.
  intros Hr.
  destruct (DataLoader.__iter__ _ _ _) as [batches|]; [|discriminate].
  destruct (CLIPFinetuner.for_each_T _ _ _ _) as [[[s t] r]|] eqn:El; [|discriminate].
  destruct (DataLoader.__len__ _ _); [|discriminate].
  destruct (Py.truediv _ _); [|discriminate].
  inversion Hr; subst. apply train_loop_Ok_inv in El. subst.
  pose proof (training_pass_keeps batches
                (CLIPFinetuner.set_model self
                   (CLIPFinetuner.set_training (CLIPFinetuner._model self) true)))
    as Hk.
  cbv zeta in Hk. destruct Hk as (_ & K2 & _ & _ & _ & K6 & _).
  split; [exact K6|exact K2].
Qed.

(** [_validate], when it returns, has changed nothing of the trainer but
    the train/eval switch of the network, which is off. *)
Lemma validate_Ok_inv (h : heap) (self : CLIPFinetuner.t)
    (rt : runtime) self' loss score rt' :
  CLIPFinetuner._validate h self rt = Ok ((self', loss, score), rt') ->
  self' = CLIPFinetuner.set_model self
            (CLIPFinetuner.set_training (CLIPFinetuner._model self) false).
Proof.
  unfold CLIPFinetuner._validate. unfold mbind, T_bind, lift, mret, T_ret, no_grad.
  intros Hr.
  destruct (DataLoader.__iter__ _ _ _) as [batches|]; [|discriminate].
  destruct (CLIPFinetuner.for_each_T _ _ _ _) as [[[l s] r]|]; [|discriminate].
  destruct (DataLoader.__len__ _ _); [|discriminate].
  destruct (Py.truediv _ _); [|discriminate].
  destruct (Py.truediv _ _); [|discriminate].
  inversion Hr; subst. reflexivity.
Qed.

(** One iteration of [fit]: the early stopper is called once, on the
    stopper that the iteration found and with the network as the iteration
    leaves it, and the network is left in evaluation mode. *)
Lemma fit_epoch_stopper (h : heap) (draws : Z -> list nat) (self : CLIPFinetuner.t)
    (epoch : Z) (rt : runtime) self' out stop rt' :
  CLIPFinetuner.fit_epoch h draws self epoch rt = Ok ((self', out, stop), rt') ->
  (exists tl vl vs,
     EarlyStopping.__call__
       (CLIPFinetuner.weights (CLIPFinetuner._model self'))
       (CLIPFinetuner._early_stopping self) tl vl vs
     = Ok (CLIPFinetuner._early_stopping self', out, stop))
  /\ CLIPFinetuner.training (CLIPFinetuner._model self') = false.
Proof.
  unfold CLIPFinetuner.fit_epoch. unfold mbind at 1. unfold T_bind at 1.
  unfold lift at 1. intros Hr.
  destruct (CLIPFinetuner._partial_unfreeze self epoch) as [self1|] eqn:Ep;
    [|discriminate].
  destruct (partial_unfreeze_keeps _ _ _ Ep) as (m1 & -> & _).
  unfold mbind at 1 in Hr. unfold T_bind at 1 in Hr.
  destruct (CLIPFinetuner._train h _ (draws epoch) rt) as [[[s2 tl] r2]|] eqn:Et;
    [|discriminate].
  unfold mbind at 1 in Hr. unfold T_bind at 1 in Hr.
  destruct (CLIPFinetuner._validate h s2 r2) as [[[[s3 vl] vs] r3]|] eqn:Ev;
    [|discriminate].
  unfold mbind, T_bind, lift, mret, T_ret in Hr.
  destruct (EarlyStopping.__call__ _ _ _ _ _) as [[[es o] st]|] eqn:Ec;
    [|discriminate].
  inversion Hr; subst. clear Hr.
  apply train_Ok_inv in Et. destruct Et as [Es _].
  apply validate_Ok_inv in Ev. subst s3.
  cbn [CLIPFinetuner._early_stopping CLIPFinetuner.set_model
       CLIPFinetuner.set_early_stopping CLIPFinetuner._model
       CLIPFinetuner.weights CLIPFinetuner.set_training
       CLIPFinetuner.training] in *.
  split; [|reflexivity].
  exists tl, vl, vs. rewrite <- Es. exact Ec.
Qed.

(** The trace of [fit] against the early stopper: the stopper is called
    once per epoch that ran, each call on the stopper that the previous one
    left, and the loop goes on exactly while the calls return [False]. *)
Lemma fit_loop_calls (h : heap) (draws : Z -> list nat) (epochs : list Z) :
  forall (self : CLIPFinetuner.t) (rt : runtime) trace rt',
    CLIPFinetuner.fit_loop h draws self epochs rt = Ok (trace, rt') ->
    (exists reports,
       EarlyStopping.calls (CLIPFinetuner._early_stopping self) reports
       = Ok (map stopper_entry trace))
    /\ (length trace <= length epochs)%nat
    /\ (epochs <> [] -> trace <> [])
    /\ (forall k self_k out,
          trace !! k = Some (self_k, out) ->
          CLIPFinetuner.training (CLIPFinetuner._model self_k) = false
          /\ (exists tl vl vs,
                EarlyStopping.__call__
                  (CLIPFinetuner.weights (CLIPFinetuner._model self_k))
                  (CLIPFinetuner._early_stopping (trainer_before self trace k))
                  tl vl vs
                = Ok (CLIPFinetuner._early_stopping self_k, out,
                      EarlyStopping._stop (CLIPFinetuner._early_stopping self_k)))
          /\ ((S k < length trace)%nat ->
              EarlyStopping._stop (CLIPFinetuner._early_stopping self_k) = false)
          /\ (S k = length trace -> (length trace < length epochs)%nat ->
              EarlyStopping._stop (CLIPFinetuner._early_stopping self_k) = true)).
Proof.
  induction epochs as [|epoch epochs IH]; intros self rt trace rt' Hr.
  - simpl in Hr. inversion Hr; subst.
    split; [exists []; reflexivity|].
    split; [simpl; lia|]. split; [congruence|].
    intros k self_k out Hk. rewrite lookup_nil in Hk. discriminate.
  - cbn [CLIPFinetuner.fit_loop] in Hr. unfold mbind at 1 in Hr.
    unfold T_bind at 1 in Hr.
    destruct (CLIPFinetuner.fit_epoch h draws self epoch rt)
      as [[[[s1 o1] stop] r1]|] eqn:Ee; [|discriminate].
    destruct (fit_epoch_stopper _ _ _ _ _ _ _ _ _ Ee) as [(tl & vl & vs & Hc) Htr].
    assert (Hstop : stop = EarlyStopping._stop (CLIPFinetuner._early_stopping s1)).
    { destruct (call_cases (CLIPFinetuner.weights (CLIPFinetuner._model s1))
                  (CLIPFinetuner._early_stopping self) tl vl vs)
        as (s & o & Hc' & _).
      rewrite Hc in Hc'. inversion Hc'; subst. reflexivity. }
    set (r := EarlyStopping.mk_report
                (CLIPFinetuner.weights (CLIPFinetuner._model s1)) tl vl vs).
    destruct stop.
    + inversion Hr; subst trace rt'. clear Hr.
      split.
      { exists [r].
        cbn [EarlyStopping.calls r EarlyStopping.model_now EarlyStopping.train_loss
             EarlyStopping.val_loss EarlyStopping.val_score].
        rewrite Hc. cbn [mbind result_bind map]. unfold stopper_entry.
        cbn [fst snd]. rewrite <- Hstop. reflexivity. }
      split; [simpl; lia|]. split; [discriminate|].
      intros k self_k out Hk. destruct k as [|k]; simpl in Hk; [|discriminate].
      inversion Hk; subst. split; [exact Htr|].
      split; [exists tl, vl, vs; rewrite <- Hstop; exact Hc|].
      split; [simpl; lia|]. intros _ _. symmetry. exact Hstop.
    + unfold mbind, T_bind, mret, T_ret in Hr.
      destruct (CLIPFinetuner.fit_loop h draws s1 epochs r1) as [[rest r2]|] eqn:El;
        [|discriminate].
      inversion Hr; subst trace rt'. clear Hr.
      destruct (IH _ _ _ _ El) as ((reports & Hcalls) & Hlen & Hne & Hrest).
      split.
      { exists (r :: reports).
        cbn [EarlyStopping.calls r EarlyStopping.model_now EarlyStopping.train_loss
             EarlyStopping.val_loss EarlyStopping.val_score].
        rewrite Hc. cbn [mbind result_bind]. rewrite Hcalls.
        cbn [mbind result_bind map]. unfold stopper_entry at 2.
        cbn [fst snd]. rewrite <- Hstop. reflexivity. }
      split; [simpl; lia|]. split; [discriminate|].
      intros k self_k out Hk. destruct k as [|k]; simpl in Hk.
      * inversion Hk; subst. split; [exact Htr|].
        split; [exists tl, vl, vs; rewrite <- Hstop; exact Hc|].
        split; [intros _; symmetry; exact Hstop|].
        intros Hlast Hshort. simpl in Hlast, Hshort.
        destruct rest; [|discriminate].
        destruct epochs; [simpl in Hshort; lia|]. exfalso. apply Hne; auto.
      * destruct (Hrest k self_k out Hk) as (R1 & R0 & R2 & R3).
        split; [exact R1|]. split.
        { destruct k as [|k]; simpl in *; [exact R0|].
          destruct (rest !! k) as [[sk ok]|] eqn:Ek; [exact R0|].
          apply lookup_ge_None in Ek. apply lookup_lt_Some in Hk. lia. }
        cbn [length]. split.
        -- intros Hlt. apply R2. lia.
        -- intros Hlast Hshort. apply R3; lia.
Qed.

(** The early stopper that the constructor builds. *)
Lemma init_stopper
    (h : heap) (model_name : string) (dataset : loc) (val_split : float)
    (batch_size : Z) (lr : float) (unfreeze_from unfreeze_every : Z)
    (draws : list nat) (h' : heap) (self : CLIPFinetuner.t) :
  CLIPFinetuner.__init__ h model_name dataset val_split batch_size lr
    unfreeze_from unfreeze_every draws = Ok (h', self) ->
  CLIPFinetuner._early_stopping self = EarlyStopping.__init__ 50 "models" "max".
Proof.
  unfold CLIPFinetuner.__init__. intros Hinit.
  destruct (clip_load model_name) as [[fl w]|]; cbn [mbind result_bind] in Hinit;
    [|discriminate].
  destruct (CLIPFinetuner._unfreeze_blocks _ _ 1) as [m|]; [|discriminate].
  cbn [mbind result_bind] in Hinit.
  destruct (CLIPFinetuner._get_data_loaders _ _ _ _ _) as [[[h1 tl] vl]|];
    [|discriminate].
  cbn [mbind result_bind] in Hinit. inversion Hinit; subst. reflexivity.
Qed.

(** The directory of the stopper does not change along the trace. *)
Lemma trace_stopper_dir (self : CLIPFinetuner.t)
    (trace : list (CLIPFinetuner.t * list (event state_dict)))
    (reports : list (EarlyStopping.report state_dict)) (k : nat) :
  EarlyStopping.calls (CLIPFinetuner._early_stopping self) reports
    = Ok (map stopper_entry trace) ->
  EarlyStopping._dir_path (CLIPFinetuner._early_stopping (trainer_before self trace k))
  = EarlyStopping._dir_path (CLIPFinetuner._early_stopping self).
Proof.
  intros Hcalls. destruct k as [|k]; [reflexivity|]. cbn [trainer_before].
  destruct (trace !! k) as [[sk ok]|] eqn:Ek; [|reflexivity].
  assert (Hk : map stopper_entry trace !! k
               = Some (CLIPFinetuner._early_stopping sk, ok,
                       EarlyStopping._stop (CLIPFinetuner._early_stopping sk)))
    by (rewrite list_lookup_fmap, Ek; reflexivity).
  destruct (calls_lists reports _ _ Hcalls k _ _ _ Hk) as (_ & _ & _ & Hd).
  exact Hd.
Qed.

End FitStopper.

(** X19.  [fit] runs its epochs in order and calls the early stopper once
    at the end of each, on the stopper that the previous epoch left and
    with the network as the epoch leaves it; it goes on while the stopper
    returns [False] and breaks at the first epoch at which it returns
    [True].  So at most [epochs] epochs run (none, and nothing else
    happens, when [epochs <= 0]; at least one when [epochs >= 1]), the
    stopper's flag is unset after every epoch but the last one that ran,
    and it is set after the last one whenever fewer than [epochs] epochs
    ran. *)
Theorem fit_runs_until_first_stop `{Extern}
    (h : heap) (draws : Z -> list nat) (self : CLIPFinetuner.t) (epochs : Z)
    (verbose : bool) (rt : runtime)
    (trace : list (CLIPFinetuner.t * list (event state_dict))) (rt' : runtime) :
  CLIPFinetuner.fit h draws self epochs verbose rt = Ok (trace, rt') ->
  (length trace <= Z.to_nat epochs)%nat
  /\ (1 <= epochs -> trace <> [])
  /\ (epochs <= 0 -> rt' = rt)
  /\ forall k self_k out,
       trace !! k = Some (self_k, out) ->
       (exists train_loss val_loss val_score,
          EarlyStopping.__call__
            (CLIPFinetuner.weights (CLIPFinetuner.get_model self_k))
            (CLIPFinetuner._early_stopping (trainer_before self trace k))
            train_loss val_loss val_score
          = Ok (CLIPFinetuner._early_stopping self_k, out,
                EarlyStopping._stop (CLIPFinetuner._early_stopping self_k)))
       /\ ((S k < length trace)%nat ->
           EarlyStopping._stop (CLIPFinetuner._early_stopping self_k) = false)
       /\ (S k = length trace -> (length trace < Z.to_nat epochs)%nat ->
           EarlyStopping._stop (CLIPFinetuner._early_stopping self_k) = true).
Proof.
  unfold CLIPFinetuner.fit. intros Hr.
  destruct (fit_loop_calls _ _ _ _ _ _ _ Hr) as (_ & Hlen & Hne & Hk).
  rewrite range_length, Z.sub_0_r in Hlen.
  split; [exact Hlen|]. split; [|split].
  - intros He. apply Hne. rewrite range_cons by lia. discriminate.
  - intros He. rewrite range_empty in Hr by lia. simpl in Hr.
    inversion Hr. reflexivity.
  - intros k self_k out Hlook.
    destruct (Hk k self_k out Hlook) as (_ & Hc & H1 & H2).
    split; [exact Hc|]. split; [exact H1|].
    intros Hlast Hshort. apply H2; [exact Hlast|].
    rewrite range_length, Z.sub_0_r. exact Hshort.
Qed.

(** X19 on the toy trainer with an early stopper of patience 2 that
    minimises: of the seven epochs asked three run, and the flag is set
    after the third. *)
Lemma fit_runs_until_first_stop_witness :
  EarlyStopping._stop
    (@CLIPFinetuner._early_stopping Toy.extern
       (match Toy.trace_impatient !! 2%nat with
        | Some (self_k, _) => self_k
        | None => Toy.impatient
        end)) = true.
Proof.
  destruct (@fit_runs_until_first_stop Toy.extern Toy.store_built (fun _ => [])
              Toy.impatient 7 true Toy.fresh Toy.trace_impatient
              Toy.runtime_impatient) as (_ & _ & _ & Hk).
  - vm_compute. reflexivity.
  - destruct (Hk 2%nat
                (match Toy.trace_impatient !! 2%nat with
                 | Some (self_k, _) => self_k
                 | None => Toy.impatient
                 end)
                (match Toy.trace_impatient !! 2%nat with
                 | Some (_, out) => out
                 | None => []
                 end)) as (_ & _ & Hstop).
    + vm_compute. reflexivity.
    + apply Hstop; vm_compute; [reflexivity|lia].
Defined.

(** X20.  After every epoch of [fit] that ran, hence when [fit] returns
    after at least one epoch, the network that [get_model] returns is in
    evaluation mode: the last switch of the epoch is the [eval()] of
    [_validate]. *)
Theorem fit_leaves_network_in_eval_mode `{Extern}
    (h : heap) (draws : Z -> list nat) (self : CLIPFinetuner.t) (epochs : Z)
    (verbose : bool) (rt : runtime)
    (trace : list (CLIPFinetuner.t * list (event state_dict))) (rt' : runtime)
    (k : nat) (self_k : CLIPFinetuner.t) (out : list (event state_dict)) :
  CLIPFinetuner.fit h draws self epochs verbose rt = Ok (trace, rt') ->
  trace !! k = Some (self_k, out) ->
  CLIPFinetuner.training (CLIPFinetuner.get_model self_k) = false.
Proof.
  unfold CLIPFinetuner.fit. intros Hr Hk.
  destruct (fit_loop_calls _ _ _ _ _ _ _ Hr) as (_ & _ & _ & Hall).
  destruct (Hall k self_k out Hk) as (Htr & _). exact Htr.
Qed.

(** X20 on the seven epochs of the toy trainer. *)
Lemma fit_leaves_network_in_eval_mode_witness :
  @CLIPFinetuner.training Toy.extern
    (@CLIPFinetuner.get_model Toy.extern (Toy.after 6)) = false.
Proof.
  apply (@fit_leaves_network_in_eval_mode Toy.extern Toy.store_built
           (fun _ => []) Toy.trainer 7 true Toy.fresh Toy.trace7 Toy.runtime7
           6%nat (Toy.after 6) (Toy.wrote 6)).
  - vm_compute. reflexivity.
  - vm_compute. reflexivity.
Defined.

(** X21.  [fit] on a trainer fresh from the constructor, whose early
    stopper has the patience 50, never stops early within its first 50
    epochs: when it returns, either all the [epochs] asked ran or at least
    51 did. *)
Theorem fresh_trainer_runs_fifty_epochs `{Extern}
    (h : heap) (model_name : string) (dataset : loc) (val_split : float)
    (batch_size : Z) (lr : float) (unfreeze_from unfreeze_every : Z)
    (draws : list nat) (h' : heap) (self : CLIPFinetuner.t)
    (shuffles : Z -> list nat) (epochs : Z) (verbose : bool) (rt : runtime)
    (trace : list (CLIPFinetuner.t * list (event state_dict))) (rt' : runtime) :
  CLIPFinetuner.__init__ h model_name dataset val_split batch_size lr
    unfreeze_from unfreeze_every draws = Ok (h', self) ->
  CLIPFinetuner.fit h' shuffles self epochs verbose rt = Ok (trace, rt') ->
  length trace = Z.to_nat epochs \/ (51 <= length trace)%nat.
Proof.
  intros Hinit Hfit. apply init_stopper in Hinit.
  unfold CLIPFinetuner.fit in Hfit.
  destruct (fit_loop_calls _ _ _ _ _ _ _ Hfit)
    as ((reports & Hcalls) & Hlen & Hne & Hall).
  rewrite range_length, Z.sub_0_r in Hlen, Hall.
  destruct (Nat.eq_dec (length trace) (Z.to_nat epochs)) as [He|He]; [left; exact He|].
  right. assert (Hshort : (length trace < Z.to_nat epochs)%nat) by lia.
  destruct trace as [|x trace] using rev_ind.
  - exfalso. apply Hne; [|reflexivity]. rewrite range_cons by (simpl in Hshort; lia).
    discriminate.
  - clear IHtrace. destruct x as [self_k out].
    rewrite length_app in *. cbn [length] in *.
    assert (Hk : (trace ++ [(self_k, out)]) !! length trace = Some (self_k, out))
      by (rewrite lookup_app_r by lia; rewrite Nat.sub_diag; reflexivity).
    destruct (Hall _ _ _ Hk) as (_ & _ & _ & Hstop).
    specialize (Hstop ltac:(lia) Hshort).
    rewrite Hinit in Hcalls.
    assert (Hres : map stopper_entry (trace ++ [(self_k, out)]) !! length trace
                   = Some (CLIPFinetuner._early_stopping self_k, out, true)).
    { rewrite list_lookup_fmap, Hk. unfold stopper_entry.
      cbn [fmap option_fmap option_map fst snd]. rewrite Hstop. reflexivity. }
    destruct (fresh_stop_late _ _ _ _ _ _ _ _ Hcalls Hres) as [_ Hp]. lia.
Qed.

(** X21 on the toy trainer that the constructor built: the seven epochs
    asked all run. *)
Lemma fresh_trainer_runs_fifty_epochs_witness :
  length Toy.trace7 = 7%nat.
Proof.
  destruct (@fresh_trainer_runs_fifty_epochs Toy.extern Toy.store "ViT-B/32"
              0%nat 0.25%float 2 0.5%float 3 2 [3; 1; 2]%nat Toy.store_built
              Toy.trainer (fun _ => []) 7 true Toy.fresh Toy.trace7 Toy.runtime7)
    as [Hl|Hl].
  - vm_compute. reflexivity.
  - vm_compute. reflexivity.
  - exact Hl.
  - reflexivity.
Defined.

(** X22.  During [fit] on a trainer fresh from the constructor, an epoch
    writes nothing or one checkpoint, always to "models/checkpoint.pt" (a
    later checkpoint replaces an earlier one), and the checkpoint holds the
    parameter values that the network has at the end of that epoch; the
    first epoch writes nothing. *)
Theorem fit_checkpoint_holds_epoch_weights `{Extern}
    (h : heap) (model_name : string) (dataset : loc) (val_split : float)
    (batch_size : Z) (lr : float) (unfreeze_from unfreeze_every : Z)
    (draws : list nat) (h' : heap) (self : CLIPFinetuner.t)
    (shuffles : Z -> list nat) (epochs : Z) (verbose : bool) (rt : runtime)
    (trace : list (CLIPFinetuner.t * list (event state_dict))) (rt' : runtime)
    (k : nat) (self_k : CLIPFinetuner.t) (out : list (event state_dict)) :
  CLIPFinetuner.__init__ h model_name dataset val_split batch_size lr
    unfreeze_from unfreeze_every draws = Ok (h', self) ->
  CLIPFinetuner.fit h' shuffles self epochs verbose rt = Ok (trace, rt') ->
  trace !! k = Some (self_k, out) ->
  (out = []
   \/ out = [TorchSave (CLIPFinetuner.weights (CLIPFinetuner.get_model self_k))
               "models/checkpoint.pt"])
  /\ (k = 0%nat -> out = []).
Proof.
  intros Hinit Hfit Hk. apply init_stopper in Hinit.
  unfold CLIPFinetuner.fit in Hfit.
  destruct (fit_loop_calls _ _ _ _ _ _ _ Hfit)
    as ((reports & Hcalls) & _ & _ & Hall).
  destruct (Hall k self_k out Hk) as (_ & (tl & vl & vs & Hc) & _).
  pose proof (trace_stopper_dir self trace reports k Hcalls) as Hdir.
  rewrite Hinit in Hdir. cbn [EarlyStopping._dir_path EarlyStopping.__init__] in Hdir.
  destruct (call_cases (CLIPFinetuner.weights (CLIPFinetuner._model self_k))
              (CLIPFinetuner._early_stopping (trainer_before self trace k)) tl vl vs)
    as (s & o & Hc' & _ & _ & _ & Hcase).
  rewrite Hc in Hc'. inversion Hc'; subst s o. clear Hc'.
  rewrite Hdir in Hcase. unfold CLIPFinetuner.get_model. split.
  - destruct (EarlyStopping._best_score _) as [b|].
    + destruct (strictly_improves _ _ _).
      * right. destruct Hcase as (-> & _). reflexivity.
      * left. destruct Hcase as (-> & _). reflexivity.
    + left. destruct Hcase as (-> & _). reflexivity.
  - intros ->. cbn [trainer_before] in Hcase. rewrite Hinit in Hcase.
    cbn [EarlyStopping._best_score EarlyStopping.__init__] in Hcase.
    destruct Hcase as (-> & _). reflexivity.
Qed.

(** X22 on the seven epochs of the toy trainer: nothing is written at the
    first epoch, and the checkpoint of the fourth holds the parameters as
    they are at its end. *)
Lemma fit_checkpoint_holds_epoch_weights_witness :
  Toy.wrote 0 = []
  /\ Toy.wrote 3
     = [TorchSave (@CLIPFinetuner.weights Toy.extern
                     (@CLIPFinetuner.get_model Toy.extern (Toy.after 3)))
          "models/checkpoint.pt"].
Proof.
  split.
  - refine (proj2 (@fit_checkpoint_holds_epoch_weights Toy.extern Toy.store
                     "ViT-B/32" 0%nat 0.25%float 2 0.5%float 3 2 [3; 1; 2]%nat
                     Toy.store_built Toy.trainer (fun _ => []) 7 true Toy.fresh
                     Toy.trace7 Toy.runtime7 0%nat (Toy.after 0) (Toy.wrote 0)
                     _ _ _) eq_refl); vm_compute; reflexivity.
  - vm_compute. reflexivity.
Defined.
